(** * steam-shortcut-manager: a shallow embedding and its properties

    The development follows the packages of the repository:
    - [pkg/shortcut]     the VDF pivot coercion [ensureVDFMap] (both listings
                         of shortcut.go: the plain one and the remote-aware one);
    - [cmd]              the body of the [remove] command;
    - [pkg/remote]       the SSH/SFTP client;
    - [pkg/steam]        remote user discovery and artwork application;
    - [pkg/steamgriddb]  [FetchArtworkConfig].

    Go values are modelled as the code has them: [int]/[int64] as [Z],
    [uint32] as [Z] reduced modulo 2^32, [float64] as an IEEE 754 binary64
    [spec_float], [string] as [string], [map[string]T] as [gmap string T],
    slices as lists, a nilable pointer as [option].  Calls that leave the
    process (network, SSH, SFTP, HTTP, commands, file writes) are
    transitions of an abstract world and are recorded in a trace; reading
    a local file observes the world and leaves it as it is. *)

From Stdlib Require Import ZArith Lia List Ascii String.
From Stdlib Require Import Floats.SpecFloat.
From stdpp Require Import gmap strings list fin_maps pretty.

Local Set Warnings "-register-all".
Local Open Scope string_scope.
Local Open Scope Z_scope.

(* ===================================================================== *)
(** * Go basics *)
(* ===================================================================== *)

(** [uint32(x)] for an integer [x]: the low 32 bits. *)
Definition uint32_of_int (z : Z) : Z := Z.land z (Z.ones 32).

(** A [float64] is a binary64 datum. *)
Abbreviation float64 := spec_float.

(** Truncation toward zero of a finite [float64]; [None] for NaN and the
  infinities. *)
Definition float64_trunc (f : float64) : option Z :=
match f with
| S754_zero _ => Some 0
| S754_finite s m e =>
    let a := Z.shiftl (Z.pos m) e in Some (if s then - a else a)
| S754_infinity _ | S754_nan => None
end.

(** [float64_whole f] holds when [f] is finite with no fractional part. *)
Definition float64_whole (f : float64) : bool :=
match f with
| S754_zero _ => true
| S754_finite _ m e =>
    (0 <=? e) || (Z.pos m mod 2 ^ (- e) =? 0)
| S754_infinity _ | S754_nan => false
end.

(** The [float64] holding the integer [v] exactly (|v| < 2^53). *)
Definition float64_of_Z (v : Z) : float64 :=
match v with
| Z0 => S754_zero false
| Zpos p => S754_finite false p 0
| Zneg p => S754_finite true p 0
end.

Section Float64Conversion.
(** The Go specification leaves [uint32(f)] implementation-dependent when
    the truncated value of [f] is not a [uint32]; the conversion never
    panics.  [unrepresentable] is that implementation's choice. *)
Variable unrepresentable : float64 -> Z.

Definition uint32_of_float64 (f : float64) : Z :=
  match float64_trunc f with
  | Some z => if (0 <=? z) && (z <? 2 ^ 32) then z
              else uint32_of_int (unrepresentable f)
  | None => uint32_of_int (unrepresentable f)
  end.
End Float64Conversion.

(** The dynamic values an [interface{}] holds in this program: what
  [encoding/json] decodes into ([nil], [bool], [float64], [string],
  [[]interface{}], [map[string]interface{}]), the integer types the type
  switches of [ensureVDFMap] name, and the [uint32] it produces. *)
Inductive Value : Type :=
| VNil
| VBool (b : bool)
| VInt (z : Z)
| VInt64 (z : Z)
| VUint32 (z : Z)
| VFloat64 (f : float64)
| VString (s : string)
| VList (l : list Value)
| VMap (m : gmap string Value).

(** [vdf.Map] is [map[string]interface{}]. *)
Abbreviation vdf_Map := (gmap string Value).

(** The value kinds the encode step accepts, in the spec's words: int-like,
  float64, string, nested string-keyed mapping. *)
Definition supported (v : Value) : bool :=
match v with
| VInt _ | VInt64 _ | VFloat64 _ | VString _ | VMap _ => true
| VNil | VBool _ | VUint32 _ | VList _ => false
end.

(* ===================================================================== *)
(** * pkg/shortcut, first listing of shortcut.go (lines 1-93) *)
(* ===================================================================== *)

Module shortcut.
Section WithConversion.
Variable unrepresentable : float64 -> Z.

(** One iteration of the loop of [ensureVDFMap]: [None] when the key is
    skipped, [Some x] when [newMap[k] = x] is executed. *)
Fixpoint ensureVDFValue (v : Value) : option Value :=
  match v with
  | VNil => None
  | VInt val => Some (VUint32 (uint32_of_int val))
  | VInt64 val => Some (VUint32 (uint32_of_int val))
  | VFloat64 val => Some (VUint32 (uint32_of_float64 unrepresentable val))
  | VString val => Some (VString val)
  | VMap val => Some (VMap (omap ensureVDFValue val))
  | VBool _ | VUint32 _ | VList _ => None
  end.

(** [ensureVDFMap]: the keys of [m] are distinct, so the result does not
    depend on the iteration order of [range m]. *)
Definition ensureVDFMap (m : gmap string Value) : vdf_Map :=
  omap ensureVDFValue m.
End WithConversion.
End shortcut.

(* ===================================================================== *)
(** * pkg/shortcut, second listing of shortcut.go (lines 94-205),
    the remote-aware one *)
(* ===================================================================== *)

Module shortcut_remote.
Section WithConversion.
Variable unrepresentable : float64 -> Z.

(** One iteration of the loop; the outer [None] is a run-time panic.
    [v.(uint32)] on a value whose dynamic type is [int] or [int64] is a
    failed single-result type assertion: it panics. *)
Fixpoint ensureVDFValue (v : Value) : option Value :=
  match v with
  | VInt _ | VInt64 _ => None
  | VFloat64 f => Some (VUint32 (uint32_of_float64 unrepresentable f))
  | VMap m =>
      let m' := ensureVDFValue <$> m in
      if decide (map_Forall (fun _ o => is_Some o) m')
      then Some (VMap (omap id m')) else None
  | VNil | VBool _ | VUint32 _ | VString _ | VList _ => Some v
  end.

(** [ensureVDFMap]: [None] when an iteration panics, which happens for
    every iteration order as soon as one entry panics. *)
Definition ensureVDFMap (m : gmap string Value) : option vdf_Map :=
  let m' := ensureVDFValue <$> m in
  if decide (map_Forall (fun _ o => is_Some o) m')
  then Some (omap id m') else None.
End WithConversion.
End shortcut_remote.

(* ===================================================================== *)
(** * The shortcut records *)
(* ===================================================================== *)

(** Modelled from the spec: the declarations of [Images], [Shortcut] and
    [Shortcuts] (pkg/shortcut, not in the sources at hand).  Field names are
    the ones the commands use ([Appid], [AppName], [Exe], [LaunchOptions],
    [Icon], [Images]); the remaining fields follow the spec's data model. *)
Record Images : Type := mkImages {
  Logo : string;
  Portrait : string;
  Landscape : string;
  Hero : string
}.

Record Shortcut : Type := mkShortcut {
  Appid : Z;
  AppName : string;
  Exe : string;
  StartDir : string;
  LaunchOptions : string;
  Icon : string;
  IsHidden : Z;
  AllowDesktopConfig : Z;
  AllowOverlay : Z;
  OpenVR : Z;
  Devkit : Z;
  DevkitGameID : string;
  LastPlayTime : Z;
  Tags : list string;
  ShortcutImages : option Images
}.

(** [Shortcuts] wraps [map[string]Shortcut]. *)
Record Shortcuts : Type := mkShortcuts {
  shortcuts_map : gmap string Shortcut
}.

(* ===================================================================== *)
(** * cmd: the body of [removeCmd] (lines 51-66) *)
(* ===================================================================== *)

Module cmd.

(** [fmt.Sprintf("%v", key)] for a slice index. *)
Definition Sprintf_v (key : nat) : string := pretty key.

(** [range shortcuts.Shortcuts] yields every entry of the map once, in an
    order the language leaves unspecified: any enumeration of the entries. *)
Definition ranges (m : gmap string Shortcut)
    (order : list (string * Shortcut)) : Prop :=
  order ≡ₚ map_to_list m.

(** First loop: [shortcutsList] collects, in iteration order, the records
    whose [AppName] is not [name]. *)
Fixpoint collect (name : string) (order : list (string * Shortcut))
    (shortcutsList : list Shortcut) : list Shortcut :=
  match order with
  | [] => shortcutsList
  | (_, sc) :: rest =>
      if String.eqb (AppName sc) name
      then collect name rest shortcutsList
      else collect name rest (shortcutsList ++ [sc])%list
  end.

(** Second loop: [newShortcuts.Shortcuts[Sprintf("%v", key)] = sc] for the
    slice suffix [l] whose first index is [key]. *)
Fixpoint rekey (key : nat) (l : list Shortcut)
    (newShortcuts : gmap string Shortcut) : gmap string Shortcut :=
  match l with
  | [] => newShortcuts
  | sc :: rest => rekey (S key) rest (<[Sprintf_v key := sc]> newShortcuts)
  end.

(** The collection handed to [shortcut.Save]. *)
Definition remove (name : string) (order : list (string * Shortcut))
    : Shortcuts :=
  mkShortcuts (rekey 0 (collect name order []) ∅).

End cmd.

(* ===================================================================== *)
(** * Package strings: the functions the program calls *)
(* ===================================================================== *)

(** [strings.HasPrefix]. *)
Fixpoint strings_HasPrefix (s prefix : string) : bool :=
  match prefix, s with
  | EmptyString, _ => true
  | String _ _, EmptyString => false
  | String a p, String b t => Ascii.eqb a b && strings_HasPrefix t p
  end.

(** [strings.Contains]: [substr] starts at some position of [s]. *)
Fixpoint strings_Contains (s substr : string) : bool :=
  strings_HasPrefix s substr ||
  match s with
  | EmptyString => false
  | String _ t => strings_Contains t substr
  end.

(** [strings.HasSuffix]: [s] is [suffix], or its tail ends in [suffix]. *)
Fixpoint strings_HasSuffix (s suffix : string) : bool :=
  String.eqb s suffix ||
  match s with
  | EmptyString => false
  | String _ t => strings_HasSuffix t suffix
  end.

(** [strings.Index]: the first position at which [substr] starts, or -1. *)
Fixpoint strings_Index (s substr : string) : Z :=
  if strings_HasPrefix s substr then 0
  else match s with
       | EmptyString => -1
       | String _ t =>
           let i := strings_Index t substr in
           if i =? -1 then -1 else i + 1
       end.

(** The slice expression [s[:idx]]. *)
Definition slice_to (s : string) (idx : Z) : string :=
  String.substring 0 (Z.to_nat idx) s.

(** ASCII lower-casing; [strings.ToLower] agrees with it on ASCII text. *)
Definition ascii_lower (a : ascii) : ascii :=
  let n := nat_of_ascii a in
  if ((65 <=? n) && (n <=? 90))%nat then ascii_of_nat (n + 32) else a.

Fixpoint ToLower_ascii (s : string) : string :=
  match s with
  | EmptyString => EmptyString
  | String a t => String (ascii_lower a) (ToLower_ascii t)
  end.

(* ===================================================================== *)
(** * Errors, results and the world outside the process *)
(* ===================================================================== *)

(** A Go [error].  [LibError] is an error value handed back by a library
    or by the operating system; [Errorf msg cause] is the value built by
    [fmt.Errorf]: [msg] is the formatted message and [cause] the error a
    [%w] verb wrapped, if any. *)
Inductive error : Type :=
  | LibError (msg : string)
  | Errorf (msg : string) (cause : option error).

(** The [Error()] method. *)
Definition error_message (e : error) : string :=
  match e with
  | LibError msg => msg
  | Errorf msg _ => msg
  end.

(** [fmt.Errorf(prefix + "%w", err)]. *)
Definition wrap (prefix : string) (err : error) : error :=
  Errorf (prefix ++ error_message err) (Some err).

(** A [(T, error)] pair of which one component is meaningful. *)
Inductive result (A : Type) : Type :=
  | Ok (a : A)
  | Err (e : error).
Arguments Ok {A} a.
Arguments Err {A} e.

(** A byte slice; a Go string is a byte sequence as well. *)
Abbreviation bytes := string.

(** Handles of objects living in the libraries. *)
Abbreviation ssh_Client := nat.
Abbreviation sftp_Client := nat.
Abbreviation ssh_Session := nat.
Abbreviation sftp_File := nat.
Abbreviation ssh_Signer := nat.
Abbreviation http_Body := nat.

Inductive ssh_AuthMethod : Type :=
  | ssh_PublicKeys (signer : ssh_Signer)
  | ssh_Password (password : string).

Inductive HostKeyCallback : Type :=
  | ssh_InsecureIgnoreHostKey.

Record ssh_ClientConfig : Type := mkClientConfig {
  cc_User : string;
  cc_Auth : list ssh_AuthMethod;
  cc_HostKeyCallback : HostKeyCallback
}.

(** [os.FileInfo], as far as the program looks at it. *)
Record FileInfo : Type := mkFileInfo {
  fi_Name : string;
  fi_IsDir : bool
}.

(** [http.Response]: status, header and a handle on the body stream. *)
Record http_Response : Type := mkResponse {
  StatusCode : Z;
  Header : gmap string (list string);
  Body : http_Body
}.

(** [Header.Get]: the first value stored under the key, or the empty
    string.  The one key the program asks for, [Content-Type], is in
    canonical form already. *)
Definition Header_Get (h : gmap string (list string)) (key : string) : string :=
  match h !! key with
  | Some (v :: _) => v
  | _ => ""
  end.

(** Modelled from the spec: the answer of the artwork source (the
    steamgriddb client's response types are not in the sources at hand): an
    ordered list [Data] of result objects carrying a numeric id and a URL. *)
Record sgdb_Image : Type := mkImage {
  img_ID : Z;
  img_URL : string
}.

Record sgdb_Response : Type := mkSgdbResponse {
  Data : list sgdb_Image
}.

(** The two orientation filters [FetchArtworkConfig] passes to [GetGrids]. *)
Inductive GridFilter : Type :=
  | FilterGridVertical
  | FilterGridHorizontal.

(** One record per call that leaves the process. *)
Inductive Event : Type :=
  | EvDial (addr : string) (cfg : ssh_ClientConfig)
  | EvSshClose (h : ssh_Client)
  | EvNewSession (h : ssh_Client)
  | EvSessionRun (s : ssh_Session) (command : string)
  | EvSessionClose (s : ssh_Session)
  | EvSftpNewClient (h : ssh_Client)
  | EvSftpClose (h : sftp_Client)
  | EvSftp (h : sftp_Client) (op : string) (path : string)
  | EvFile (f : sftp_File) (op : string)
  | EvHttpGet (url : string)
  | EvBody (b : http_Body) (op : string)
  | EvOs (op : string) (path : string)
  | EvExec (name : string) (args : list string)
  | EvLocalSteam (op : string)
  | EvFetch (kind : string) (gameID : string)
  | EvPrint (line : string).

(** The libraries and the operating system, over a world [W].  Reading a
    local file and asking for the home directory observe the world; every
    other call is a transition of it.  [path_Join], [path_Dir],
    [strings_ToLower] and [ssh_ParsePrivateKey] are pure library functions.
    [steam_GetUsers] and [steam_GetUserDir] are the local resolvers of
    pkg/steam, [sgdb_*] the fetches of the steamgriddb client; their source
    is not at hand, so they are taken as calls of the world. *)
Record Extern (W : Type) : Type := mkExtern {
  path_Join : list string -> string;
  path_Dir : string -> string;
  strings_ToLower : string -> string;
  os_ReadFile : W -> string -> result bytes;
  os_UserHomeDir : W -> string;
  os_MkdirAll : string -> W -> option error * W;
  os_WriteFile : string -> bytes -> Z -> W -> option error * W;
  os_Remove : string -> W -> option error * W;
  exec_CombinedOutput : string -> list string -> W -> (bytes * option error) * W;
  ssh_ParsePrivateKey : bytes -> result ssh_Signer;
  ssh_Dial : string -> ssh_ClientConfig -> W -> result ssh_Client * W;
  ssh_Close : ssh_Client -> W -> option error * W;
  ssh_NewSession : ssh_Client -> W -> result ssh_Session * W;
  session_CombinedOutput : ssh_Session -> string -> W -> (bytes * option error) * W;
  session_Close : ssh_Session -> W -> option error * W;
  sftp_NewClient : ssh_Client -> W -> result sftp_Client * W;
  sftp_Close : sftp_Client -> W -> option error * W;
  sftp_Open : sftp_Client -> string -> W -> result sftp_File * W;
  sftp_Create : sftp_Client -> string -> W -> result sftp_File * W;
  sftp_MkdirAll : sftp_Client -> string -> W -> option error * W;
  sftp_Chmod : sftp_Client -> string -> Z -> W -> option error * W;
  sftp_Stat : sftp_Client -> string -> W -> result FileInfo * W;
  sftp_ReadDir : sftp_Client -> string -> W -> result (list FileInfo) * W;
  sftp_Getwd : sftp_Client -> W -> result string * W;
  file_ReadAll : sftp_File -> W -> (bytes * option error) * W;
  file_Write : sftp_File -> bytes -> W -> option error * W;
  file_Close : sftp_File -> W -> option error * W;
  http_Get : string -> W -> result http_Response * W;
  body_ReadAll : http_Body -> W -> result bytes * W;
  body_Close : http_Body -> W -> option error * W;
  steam_GetUsers : W -> result (list string) * W;
  steam_GetUserDir : W -> result string * W;
  sgdb_GetGrids : string -> GridFilter -> W -> result sgdb_Response * W;
  sgdb_GetHeroes : string -> W -> result sgdb_Response * W;
  sgdb_GetLogos : string -> W -> result sgdb_Response * W;
  sgdb_GetIcons : string -> W -> result sgdb_Response * W
}.

(** Computations: a world transition that also reports the calls made. *)
Definition M (W A : Type) : Type := W -> A * W * list Event.

Definition ret {W A : Type} (a : A) : M W A := fun w => (a, w, []).

Definition bind {W A B : Type} (m : M W A) (k : A -> M W B) : M W B :=
  fun w =>
    let '(a, w1, t1) := m w in
    let '(b, w2, t2) := k a w1 in
    (b, w2, (t1 ++ t2)%list).

(** An external call: run the transition, record the event. *)
Definition call {W A : Type} (ev : Event) (f : W -> A * W) : M W A :=
  fun w => let '(a, w') := f w in (a, w', [ev]).

(** An observation of the world. *)
Definition observe {W A : Type} (f : W -> A) : M W A :=
  fun w => (f w, w, []).

(** [fmt.Printf] / [fmt.Println]. *)
Definition Println {W : Type} (line : string) : M W unit :=
  fun w => (tt, w, [EvPrint line]).

Declare Scope go_scope.
Delimit Scope go_scope with go.
Notation "x <- m ;; k" := (bind m (fun x => k))
  (at level 100, m at next level, right associativity) : go_scope.
Notation "m ;;; k" := (bind m (fun _ => k))
  (at level 100, right associativity) : go_scope.

(** The three components of the outcome of a run. *)
Definition value_of {A W : Type} (r : A * W * list Event) : A := fst (fst r).
Definition world_of {A W : Type} (r : A * W * list Event) : W := snd (fst r).
Definition trace_of {A W : Type} (r : A * W * list Event) : list Event := snd r.

(* ===================================================================== *)
(** * pkg/remote *)
(* ===================================================================== *)

Module remote.

Record Config : Type := mkConfig {
  Host : string;
  Port : Z;
  User : string;
  Password : string;
  KeyFile : string
}.

(** [Client]: the two handles are nil until [Connect] stores them. *)
Record Client : Type := mkClient {
  config : Config;
  sshClient : option ssh_Client;
  sftpClient : option sftp_Client
}.

Definition NewClient (cfg : Config) : Client :=
  let cfg' :=
    if Port cfg =? 0
    then mkConfig (Host cfg) 22 (User cfg) (Password cfg) (KeyFile cfg)
    else cfg in
  mkClient cfg' None None.

(** [fmt.Errorf("not connected")]. *)
Definition NotConnected : error := Errorf "not connected" None.

(** [fmt.Errorf("no authentication method available")]. *)
Definition AuthenticationUnavailable : error :=
  Errorf "no authentication method available" None.

Section WithWorld.
Context {W : Type} (X : Extern W).
Local Open Scope go_scope.

(** [Connect], lines 42-51: the explicit key file. *)
Definition explicitKey (c : Client) (w : W) : list ssh_AuthMethod :=
  if String.eqb (KeyFile (config c)) "" then []
  else match os_ReadFile _ X w (KeyFile (config c)) with
       | Ok key =>
           match ssh_ParsePrivateKey _ X key with
           | Ok signer => [ssh_PublicKeys signer]
           | Err _ => []
           end
       | Err _ => []
       end.

(** [Connect], lines 56-60. *)
Definition keyPaths (homeDir : string) : list string :=
  [ path_Join _ X [homeDir; ".ssh"; "id_rsa"];
    path_Join _ X [homeDir; ".ssh"; "id_ed25519"];
    path_Join _ X [homeDir; ".ssh"; "id_ecdsa"] ].

(** [Connect], lines 61-72: the loop over the default key files, with its
    [continue]s and its [break]. *)
Fixpoint defaultKeys (w : W) (paths : list string)
    (authMethods : list ssh_AuthMethod) : list ssh_AuthMethod :=
  match paths with
  | [] => authMethods
  | keyPath :: rest =>
      match os_ReadFile _ X w keyPath with
      | Err _ => defaultKeys w rest authMethods
      | Ok key =>
          match ssh_ParsePrivateKey _ X key with
          | Err _ => defaultKeys w rest authMethods
          | Ok signer => (authMethods ++ [ssh_PublicKeys signer])%list
          end
      end
  end.

(** [Connect], lines 40-78: the value of [authMethods] at line 80. *)
Definition authMethods (c : Client) (w : W) : list ssh_AuthMethod :=
  let a1 := explicitKey c w in
  let a2 :=
    if (length a1 =? 0)%nat
    then defaultKeys w (keyPaths (os_UserHomeDir _ X w)) a1
    else a1 in
  if String.eqb (Password (config c)) "" then a2
  else (a2 ++ [ssh_Password (Password (config c))])%list.

(** [fmt.Sprintf("%s:%d", c.config.Host, c.config.Port)]. *)
Definition addr_of (c : Client) : string :=
  Host (config c) ++ ":" ++ pretty (Port (config c)).

(** [Connect] returns its error and leaves the receiver updated. *)
Definition Connect (c : Client) : M W (option error * Client) :=
  auth <- observe (authMethods c) ;;
  if (length auth =? 0)%nat then
    ret (Some AuthenticationUnavailable, c)
  else
    let sshConfig :=
      mkClientConfig (User (config c)) auth ssh_InsecureIgnoreHostKey in
    let addr := addr_of c in
    r <- call (EvDial addr sshConfig) (ssh_Dial _ X addr sshConfig) ;;
    match r with
    | Err err =>
        ret (Some (wrap ("failed to connect to " ++ addr ++ ": ") err), c)
    | Ok h =>
        let c1 := mkClient (config c) (Some h) (sftpClient c) in
        r' <- call (EvSftpNewClient h) (sftp_NewClient _ X h) ;;
        match r' with
        | Err err =>
            call (EvSshClose h) (ssh_Close _ X h) ;;;
            ret (Some (wrap "failed to create SFTP client: " err), c1)
        | Ok s =>
            ret (None, mkClient (config c1) (sshClient c1) (Some s))
        end
    end.

Definition Close (c : Client) : M W (option error) :=
  (match sftpClient c with
   | Some s => call (EvSftpClose s) (sftp_Close _ X s) ;;; ret tt
   | None => ret tt
   end) ;;;
  (match sshClient c with
   | Some h => call (EvSshClose h) (ssh_Close _ X h) ;;; ret tt
   | None => ret tt
   end) ;;;
  ret None.

(** [ReadFile]; the deferred [file.Close()] runs after [io.ReadAll]. *)
Definition ReadFile (c : Client) (remotePath : string)
    : M W (bytes * option error) :=
  match sftpClient c with
  | None => ret ("", Some NotConnected)
  | Some s =>
      r <- call (EvSftp s "Open" remotePath) (sftp_Open _ X s remotePath) ;;
      match r with
      | Err err =>
          ret ("", Some (wrap ("failed to open remote file " ++ remotePath ++ ": ") err))
      | Ok file =>
          out <- call (EvFile file "ReadAll") (file_ReadAll _ X file) ;;
          call (EvFile file "Close") (file_Close _ X file) ;;;
          ret out
      end
  end.

Definition WriteFile (c : Client) (remotePath : string) (data : bytes)
    (perm : Z) : M W (option error) :=
  match sftpClient c with
  | None => ret (Some NotConnected)
  | Some s =>
      let dir := path_Dir _ X remotePath in
      call (EvSftp s "MkdirAll" dir) (sftp_MkdirAll _ X s dir) ;;;
      r <- call (EvSftp s "Create" remotePath) (sftp_Create _ X s remotePath) ;;
      match r with
      | Err err =>
          ret (Some (wrap ("failed to create remote file " ++ remotePath ++ ": ") err))
      | Ok file =>
          e <- call (EvFile file "Write") (file_Write _ X file data) ;;
          match e with
          | Some err =>
              call (EvFile file "Close") (file_Close _ X file) ;;;
              ret (Some (wrap ("failed to write to remote file " ++ remotePath ++ ": ") err))
          | None =>
              e' <- call (EvSftp s "Chmod" remotePath)
                         (sftp_Chmod _ X s remotePath perm) ;;
              call (EvFile file "Close") (file_Close _ X file) ;;;
              ret e'
          end
      end
  end.

Definition Stat (c : Client) (remotePath : string) : M W (result FileInfo) :=
  match sftpClient c with
  | None => ret (Err NotConnected)
  | Some s => call (EvSftp s "Stat" remotePath) (sftp_Stat _ X s remotePath)
  end.

Definition ReadDir (c : Client) (remotePath : string)
    : M W (result (list FileInfo)) :=
  match sftpClient c with
  | None => ret (Err NotConnected)
  | Some s => call (EvSftp s "ReadDir" remotePath) (sftp_ReadDir _ X s remotePath)
  end.

(** [FileExists]: [err == nil] of [Stat]. *)
Definition FileExists (c : Client) (remotePath : string) : M W bool :=
  r <- Stat c remotePath ;;
  ret (match r with Ok _ => true | Err _ => false end).

Definition GetHomeDir (c : Client) : M W (result string) :=
  match sftpClient c with
  | None => ret (Err NotConnected)
  | Some s => call (EvSftp s "Getwd" "") (sftp_Getwd _ X s)
  end.

(** [RunCommand]; the deferred [session.Close()] runs after
    [CombinedOutput]. *)
Definition RunCommand (c : Client) (command : string)
    : M W (bytes * option error) :=
  match sshClient c with
  | None => ret ("", Some NotConnected)
  | Some h =>
      r <- call (EvNewSession h) (ssh_NewSession _ X h) ;;
      match r with
      | Err err => ret ("", Some (wrap "failed to create session: " err))
      | Ok session =>
          out <- call (EvSessionRun session command)
                      (session_CombinedOutput _ X session command) ;;
          call (EvSessionClose session) (session_Close _ X session) ;;;
          ret out
      end
  end.

End WithWorld.
End remote.

(* ===================================================================== *)
(** * pkg/steam *)
(* ===================================================================== *)

Module steam.

(** [AssetType] and its constants. *)
Abbreviation AssetType := Z.
Definition AssetTypeGridPortrait : AssetType := 0.
Definition AssetTypeHero : AssetType := 1.
Definition AssetTypeLogo : AssetType := 2.
Definition AssetTypeGridLandscape : AssetType := 3.
Definition AssetTypeIcon : AssetType := 4.

Record ArtworkConfig : Type := mkArtworkConfig {
  GridPortrait : string;
  GridLandscape : string;
  HeroImage : string;
  LogoImage : string;
  IconImage : string
}.

(** [IsRemote]: the package variable [RemoteClient] is not nil. *)
Definition IsRemote (RemoteClient : option remote.Client) : bool :=
  match RemoteClient with Some _ => true | None => false end.

Section WithWorld.
Context {W : Type} (X : Extern W).
Local Open Scope go_scope.

(** The text of the Python program of [SetArtworkViaCEF] (lines 125-197),
    formatted with the image path, the application id and the asset type.
    No branch of the Go code looks at it. *)
Variable pythonScript : string -> Z -> AssetType -> string.

(** ** Remote resolvers.  They dereference [RemoteClient]; [rc] is the
    client it points to. *)

Definition GetRemoteBaseDir (rc : remote.Client) : M W (result string) :=
  r <- remote.GetHomeDir X rc ;;
  match r with
  | Err err => ret (Err err)
  | Ok homeDir => ret (Ok (path_Join _ X [homeDir; ".steam"; "steam"]))
  end.

Definition GetRemoteUserDir (rc : remote.Client) : M W (result string) :=
  r <- GetRemoteBaseDir rc ;;
  match r with
  | Err err => ret (Err err)
  | Ok baseDir => ret (Ok (path_Join _ X [baseDir; "userdata"]))
  end.

(** The loop of [GetRemoteUsers] (lines 54-60). *)
Fixpoint collectUsers (files : list FileInfo) (users : list string)
    : list string :=
  match files with
  | [] => users
  | f :: rest =>
      if negb (fi_IsDir f) then collectUsers rest users
      else collectUsers rest (users ++ [fi_Name f])%list
  end.

Definition GetRemoteUsers (rc : remote.Client) : M W (result (list string)) :=
  r <- GetRemoteUserDir rc ;;
  match r with
  | Err err => ret (Err err)
  | Ok userDir =>
      r' <- remote.ReadDir X rc userDir ;;
      match r' with
      | Err err => ret (Err err)
      | Ok files => ret (Ok (collectUsers files []))
      end
  end.

(** ** Artwork: extension of the saved file *)

Definition getExtensionFromResponse (resp : http_Response) (url : string)
    : string :=
  let contentType := Header_Get (Header resp) "Content-Type" in
  if strings_Contains contentType "png" then ".png"
  else if strings_Contains contentType "jpeg"
          || strings_Contains contentType "jpg" then ".jpg"
  else if strings_Contains contentType "webp" then ".webp"
  else if strings_Contains contentType "gif" then ".gif"
  else
    let idx := strings_Index url "?" in
    let urlPath := if negb (idx =? -1) then slice_to url idx else url in
    let urlLower := strings_ToLower _ X urlPath in
    if strings_HasSuffix urlLower ".webp" then ".webp"
    else if strings_HasSuffix urlLower ".png" then ".png"
    else if strings_HasSuffix urlLower ".jpg"
            || strings_HasSuffix urlLower ".jpeg" then ".jpg"
    else if strings_HasSuffix urlLower ".gif" then ".gif"
    else ".png".

(** ** Helpers that work locally and remotely *)

Definition mkdirAll (RemoteClient : option remote.Client) (dir : string)
    : M W (option error) :=
  match RemoteClient with
  | Some rc =>
      remote.RunCommand X rc ("mkdir -p '" ++ dir ++ "'") ;;;
      ret None
  | None => call (EvOs "MkdirAll" dir) (os_MkdirAll _ X dir)
  end.

Definition writeFile (RemoteClient : option remote.Client) (filePath : string)
    (data : bytes) (perm : Z) : M W (option error) :=
  match RemoteClient with
  | Some rc => remote.WriteFile X rc filePath data perm
  | None => call (EvOs "WriteFile" filePath) (os_WriteFile _ X filePath data perm)
  end.

Definition removeFile (RemoteClient : option remote.Client) (filePath : string)
    : M W (option error) :=
  match RemoteClient with
  | Some rc =>
      remote.RunCommand X rc ("rm -f '" ++ filePath ++ "'") ;;;
      ret None
  | None => call (EvOs "Remove" filePath) (os_Remove _ X filePath)
  end.

(** The loop [cmdStr += " " + arg] of [runCommand]. *)
Fixpoint joinArgs (cmdStr : string) (args : list string) : string :=
  match args with
  | [] => cmdStr
  | arg :: rest => joinArgs (cmdStr ++ " " ++ arg) rest
  end.

Definition runCommand (RemoteClient : option remote.Client) (name : string)
    (args : list string) : M W (string * option error) :=
  match RemoteClient with
  | Some rc => remote.RunCommand X rc (joinArgs name args ++ " 2>&1")
  | None => call (EvExec name args) (exec_CombinedOutput _ X name args)
  end.

Definition checkAiohttpAvailable (RemoteClient : option remote.Client)
    : M W bool :=
  out <- runCommand RemoteClient "python3" ["-c"; "import aiohttp"] ;;
  let '(output, err) := out in
  match err with
  | Some _ => ret false
  | None =>
      ret (negb (strings_Contains output "ModuleNotFoundError")
           && negb (strings_Contains output "No module"))
  end.

(** [fmt.Errorf("no Steam users found")]. *)
Definition NoUsersFound : error := Errorf "no Steam users found" None.

Definition getGridPath (RemoteClient : option remote.Client)
    : M W (result string) :=
  match RemoteClient with
  | Some rc =>
      r <- GetRemoteUsers rc ;;
      match r with
      | Err _ | Ok [] => ret (Err NoUsersFound)
      | Ok (user0 :: _) =>
          d <- GetRemoteUserDir rc ;;
          let userDir := match d with Ok dir => dir | Err _ => "" end in
          ret (Ok (path_Join _ X [userDir; user0; "config"; "grid"]))
      end
  | None =>
      r <- call (EvLocalSteam "GetUsers") (steam_GetUsers _ X) ;;
      match r with
      | Err _ | Ok [] => ret (Err NoUsersFound)
      | Ok (user0 :: _) =>
          d <- call (EvLocalSteam "GetUserDir") (steam_GetUserDir _ X) ;;
          match d with
          | Err err => ret (Err err)
          | Ok userDir =>
              ret (Ok (path_Join _ X [userDir; user0; "config"; "grid"]))
          end
      end
  end.

(** ** Artwork: the two ways of applying one image *)

(** [http.StatusOK]. *)
Definition StatusOK : Z := 200.

Definition uploadArtworkToGrid (RemoteClient : option remote.Client)
    (url gridPath baseName : string) : M W (option error) :=
  r <- call (EvHttpGet url) (http_Get _ X url) ;;
  match r with
  | Err err => ret (Some (wrap "failed to download artwork: " err))
  | Ok resp =>
      e <- (if negb (StatusCode resp =? StatusOK) then
              ret (Some (Errorf ("failed to download artwork: HTTP "
                                 ++ pretty (StatusCode resp)) None))
            else
              d <- call (EvBody (Body resp) "ReadAll")
                        (body_ReadAll _ X (Body resp)) ;;
              match d with
              | Err err => ret (Some (wrap "failed to read artwork data: " err))
              | Ok data =>
                  let ext := getExtensionFromResponse resp url in
                  let destPath := path_Join _ X [gridPath; baseName ++ ext] in
                  writeFile RemoteClient destPath data 420
              end) ;;
      call (EvBody (Body resp) "Close") (body_Close _ X (Body resp)) ;;;
      ret e
  end.

Definition SetArtworkViaCEF (RemoteClient : option remote.Client)
    (appID : Z) (imageURL : string) (assetType : AssetType)
    : M W (option error) :=
  r <- call (EvHttpGet imageURL) (http_Get _ X imageURL) ;;
  match r with
  | Err err => ret (Some (wrap "failed to download artwork: " err))
  | Ok resp =>
      e <- (if negb (StatusCode resp =? StatusOK) then
              ret (Some (Errorf ("failed to download artwork: HTTP "
                                 ++ pretty (StatusCode resp)) None))
            else
              d <- call (EvBody (Body resp) "ReadAll")
                        (body_ReadAll _ X (Body resp)) ;;
              match d with
              | Err err => ret (Some (wrap "failed to read artwork data: " err))
              | Ok data =>
                  let imagePath := "/tmp/steam_artwork_temp.bin" in
                  e1 <- writeFile RemoteClient imagePath data 420 ;;
                  match e1 with
                  | Some err => ret (Some (wrap "failed to write temp image: " err))
                  | None =>
                      let script := pythonScript imagePath appID assetType in
                      let scriptPath := "/tmp/steam_set_artwork.py" in
                      e2 <- writeFile RemoteClient scriptPath script 493 ;;
                      match e2 with
                      | Some err =>
                          ret (Some (wrap "failed to write Python script: " err))
                      | None =>
                          out <- runCommand RemoteClient "python3" [scriptPath] ;;
                          let '(output, err) := out in
                          removeFile RemoteClient scriptPath ;;;
                          removeFile RemoteClient imagePath ;;;
                          match err with
                          | Some err' =>
                              ret (Some (Errorf ("Steam CEF API failed: "
                                                 ++ error_message err'
                                                 ++ " (output: " ++ output ++ ")")
                                                (Some err')))
                          | None =>
                              if strings_Contains output "ERROR"
                              then ret (Some (Errorf ("Steam CEF API error: " ++ output) None))
                              else ret None
                          end
                      end
                  end
              end) ;;
      call (EvBody (Body resp) "Close") (body_Close _ X (Body resp)) ;;;
      ret e
  end.

(** ** [SetArtwork] *)

(** The closure [applyOne] of [SetArtwork], with the variables it captures
    ([canUseSteamAPI], [gridPath], [appID]) as arguments. *)
Definition applyOne (RemoteClient : option remote.Client) (appID : Z)
    (canUseSteamAPI : bool) (gridPath : string)
    (url baseName : string) (assetType : AssetType) : M W unit :=
  if String.eqb url "" then ret tt
  else
    success <-
      (if canUseSteamAPI then
         e <- SetArtworkViaCEF RemoteClient appID url assetType ;;
         match e with
         | Some err =>
             Println ("[WARNING] Steam CEF API failed for " ++ baseName ++ ": "
                      ++ error_message err) ;;;
             ret false
         | None => ret true
         end
       else ret false) ;;
    if negb success then
      mkdirAll RemoteClient gridPath ;;;
      e <- uploadArtworkToGrid RemoteClient url gridPath baseName ;;
      match e with
      | Some err =>
          Println ("[ERROR] Failed to upload " ++ baseName ++ ": "
                   ++ error_message err)
      | None => ret tt
      end
    else ret tt.

(** [SetArtwork]: [artwork] is a pointer, [None] is nil. *)
Definition SetArtwork (RemoteClient : option remote.Client) (appID : Z)
    (artwork : option ArtworkConfig) : M W (option error) :=
  match artwork with
  | None => ret None
  | Some a =>
      canUseSteamAPI <- checkAiohttpAvailable RemoteClient ;;
      g <- getGridPath RemoteClient ;;
      match g with
      | Err err => ret (Some (wrap "failed to get grid path: " err))
      | Ok gridPath =>
          (if negb canUseSteamAPI then
             Println "[INFO] Using filesystem method for artwork (static images only)" ;;;
             Println "[INFO] To enable animated WebP/GIF, install: pip install --user aiohttp"
           else ret tt) ;;;
          applyOne RemoteClient appID canUseSteamAPI gridPath
            (GridPortrait a) (pretty appID ++ "p") AssetTypeGridPortrait ;;;
          applyOne RemoteClient appID canUseSteamAPI gridPath
            (GridLandscape a) (pretty appID) AssetTypeGridLandscape ;;;
          applyOne RemoteClient appID canUseSteamAPI gridPath
            (HeroImage a) (pretty appID ++ "_hero") AssetTypeHero ;;;
          applyOne RemoteClient appID canUseSteamAPI gridPath
            (LogoImage a) (pretty appID ++ "_logo") AssetTypeLogo ;;;
          (if negb (String.eqb (IconImage a) "") then
             mkdirAll RemoteClient gridPath ;;;
             e <- uploadArtworkToGrid RemoteClient (IconImage a) gridPath
                    (pretty appID ++ "_icon") ;;
             match e with
             | Some err =>
                 Println ("[ERROR] Failed to upload icon: " ++ error_message err)
             | None => ret tt
             end
           else ret tt) ;;;
          ret None
      end
  end.

End WithWorld.
End steam.

(* ===================================================================== *)
(** * pkg/steamgriddb *)
(* ===================================================================== *)

Module steamgriddb.
Section WithWorld.
Context {W : Type} (X : Extern W).
Local Open Scope go_scope.

(** The test [err == nil && len(r.Data) > 0] and the assignment it guards:
    the new value of a slot whose current value is [old]. *)
Definition firstURL (old : string) (r : result sgdb_Response) : string :=
  match r with
  | Ok resp =>
      match Data resp with
      | img :: _ => img_URL img
      | [] => old
      end
  | Err _ => old
  end.

(** [FetchArtworkConfig] returns a pointer to the configuration and an
    error. *)
Definition FetchArtworkConfig (gameID : string)
    : M W (option steam.ArtworkConfig * option error) :=
  let config := steam.mkArtworkConfig "" "" "" "" "" in
  gridsPortrait <- call (EvFetch "GetGrids/vertical" gameID)
                        (sgdb_GetGrids _ X gameID FilterGridVertical) ;;
  let config := steam.mkArtworkConfig
    (firstURL (steam.GridPortrait config) gridsPortrait)
    (steam.GridLandscape config) (steam.HeroImage config)
    (steam.LogoImage config) (steam.IconImage config) in
  gridsLandscape <- call (EvFetch "GetGrids/horizontal" gameID)
                         (sgdb_GetGrids _ X gameID FilterGridHorizontal) ;;
  let config := steam.mkArtworkConfig
    (steam.GridPortrait config)
    (firstURL (steam.GridLandscape config) gridsLandscape)
    (steam.HeroImage config) (steam.LogoImage config) (steam.IconImage config) in
  heroes <- call (EvFetch "GetHeroes" gameID) (sgdb_GetHeroes _ X gameID) ;;
  let config := steam.mkArtworkConfig
    (steam.GridPortrait config) (steam.GridLandscape config)
    (firstURL (steam.HeroImage config) heroes)
    (steam.LogoImage config) (steam.IconImage config) in
  logos <- call (EvFetch "GetLogos" gameID) (sgdb_GetLogos _ X gameID) ;;
  let config := steam.mkArtworkConfig
    (steam.GridPortrait config) (steam.GridLandscape config)
    (steam.HeroImage config)
    (firstURL (steam.LogoImage config) logos) (steam.IconImage config) in
  icons <- call (EvFetch "GetIcons" gameID) (sgdb_GetIcons _ X gameID) ;;
  let config := steam.mkArtworkConfig
    (steam.GridPortrait config) (steam.GridLandscape config)
    (steam.HeroImage config) (steam.LogoImage config)
    (firstURL (steam.IconImage config) icons) in
  ret (Some config, None).

End WithWorld.
End steamgriddb.

(* ===================================================================== *)
(** * Concrete worlds for examples *)
(* ===================================================================== *)

(** A scenario fixes what the outside answers.  The world it runs in is the
    list of transport handles closed so far: a session cannot be opened on
    a closed transport. *)
Record Scenario : Type := mkScenario {
  sc_files : list (string * bytes);
  sc_dial : result ssh_Client;
  sc_sftp : result sftp_Client;
  sc_stat : string -> result FileInfo;
  sc_listing : result (list FileInfo);
  sc_exec : bytes * option error;
  sc_http : string -> result http_Response;
  sc_users : result (list string);
  sc_fetch : string -> result sgdb_Response
}.

(** Path joining for the examples: the elements separated by slashes. *)
Fixpoint join_slash (elems : list string) : string :=
  match elems with
  | [] => ""
  | [e] => e
  | e :: rest => e ++ "/" ++ join_slash rest
  end.

Definition lookup_file (files : list (string * bytes)) (p : string)
    : result bytes :=
  match List.find (fun kv => String.eqb (fst kv) p) files with
  | Some kv => Ok (snd kv)
  | None => Err (LibError "no such file or directory")
  end.

(** In the examples a key file parses when it starts with [KEY], and its
    signer is its length. *)
Definition parse_key (key : bytes) : result ssh_Signer :=
  if strings_HasPrefix key "KEY" then Ok (String.length key)
  else Err (LibError "ssh: no key found").

Definition scripted (s : Scenario) : Extern (list ssh_Client) :=
  mkExtern (list ssh_Client)
    join_slash
    (fun p => p)
    ToLower_ascii
    (fun _ p => lookup_file (sc_files s) p)
    (fun _ => "/home/user")
    (fun _ w => (None, w))
    (fun _ _ _ w => (None, w))
    (fun _ w => (None, w))
    (fun _ _ w => (sc_exec s, w))
    parse_key
    (fun _ _ w => (sc_dial s, w))
    (fun h w => (None, h :: w))
    (fun h w => if bool_decide (h ∈ w)
                then (Err (LibError "use of closed network connection"), w)
                else (Ok 7%nat, w))
    (fun _ _ w => (sc_exec s, w))
    (fun _ w => (None, w))
    (fun _ w => (sc_sftp s, w))
    (fun _ w => (None, w))
    (fun _ _ w => (Err (LibError "file does not exist"), w))
    (fun _ _ w => (Err (LibError "permission denied"), w))
    (fun _ _ w => (None, w))
    (fun _ _ _ w => (None, w))
    (fun _ p w => (sc_stat s p, w))
    (fun _ _ w => (sc_listing s, w))
    (fun _ w => (Ok "/home/deck", w))
    (fun _ w => (("", None), w))
    (fun _ _ w => (None, w))
    (fun _ w => (None, w))
    (fun url w => (sc_http s url, w))
    (fun _ w => (Ok "data", w))
    (fun _ w => (None, w))
    (fun w => (sc_users s, w))
    (fun w => (Ok "/home/user/.steam/steam/userdata", w))
    (fun _ f w => (sc_fetch s (match f with
                               | FilterGridVertical => "vertical"
                               | FilterGridHorizontal => "horizontal"
                               end), w))
    (fun _ w => (sc_fetch s "hero", w))
    (fun _ w => (sc_fetch s "logo", w))
    (fun _ w => (sc_fetch s "icon", w)).

(** A scenario in which nothing outside the process works. *)
Definition offline : Scenario :=
  mkScenario []
    (Err (LibError "dial tcp: connection refused"))
    (Err (LibError "sftp: subsystem request failed"))
    (fun _ => Err (LibError "file does not exist"))
    (Err (LibError "file does not exist"))
    ("", Some (LibError "exit status 1"))
    (fun _ => Err (LibError "no such host"))
    (Err (LibError "no such file or directory"))
    (fun _ => Err (LibError "401 Unauthorized")).

(** A record of the examples: only the id and the name matter. *)
Definition game (id : Z) (name : string) : Shortcut :=
  mkShortcut id name "/bin/game" "/" "" "" 0 0 1 0 0 "" 0 [] None.

(** A loaded collection with key gaps and a name carried twice. *)
Definition library : list (string * Shortcut) :=
  [("0", game 10 "Doom"); ("3", game 11 "Quake"); ("7", game 12 "Doom")].

(** A host on which the transport comes up and the SFTP subsystem does
    not. *)
Definition sftp_refused : Scenario :=
  mkScenario []
    (Ok 1%nat)
    (Err (LibError "sftp: subsystem request failed"))
    (fun _ => Err (LibError "file does not exist"))
    (Err (LibError "file does not exist"))
    ("", None)
    (fun _ => Err (LibError "no such host"))
    (Err (LibError "no such file or directory"))
    (fun _ => Err (LibError "401 Unauthorized")).

Definition deck : remote.Client :=
  remote.NewClient (remote.mkConfig "steamdeck" 0 "deck" "secret" "").

(** A machine with an unparseable explicit key file, no default key and a
    password. *)
Definition bad_key_with_password : Scenario :=
  mkScenario [("/keys/deck", "not a key")]
    (Ok 1%nat) (Ok 2%nat)
    (fun _ => Err (LibError "file does not exist"))
    (Err (LibError "file does not exist"))
    ("", None)
    (fun _ => Err (LibError "no such host"))
    (Err (LibError "no such file or directory"))
    (fun _ => Err (LibError "401 Unauthorized")).

Definition deck_bad_key : remote.Client :=
  remote.NewClient (remote.mkConfig "steamdeck" 0 "deck" "secret" "/keys/deck").

Definition deck_no_credentials : remote.Client :=
  remote.NewClient (remote.mkConfig "steamdeck" 0 "deck" "" "/keys/deck").

(** A userdata directory with two user directories and one regular file. *)
Definition userdata_listing : Scenario :=
  mkScenario []
    (Ok 1%nat) (Ok 2%nat)
    (fun _ => Err (LibError "file does not exist"))
    (Ok [mkFileInfo "1001" true; mkFileInfo "ac.txt" false;
         mkFileInfo "1002" true])
    ("", None)
    (fun _ => Err (LibError "no such host"))
    (Err (LibError "no such file or directory"))
    (fun _ => Err (LibError "401 Unauthorized")).

Definition connected_deck : remote.Client :=
  remote.mkClient (remote.mkConfig "steamdeck" 22 "deck" "secret" "")
    (Some 1%nat) (Some 2%nat).

(** An artwork source that knows a hero and an icon, has no logo, and
    fails on both grid requests. *)
Definition partial_source : Scenario :=
  mkScenario []
    (Ok 1%nat) (Ok 2%nat)
    (fun _ => Err (LibError "file does not exist"))
    (Err (LibError "file does not exist"))
    ("", None)
    (fun _ => Err (LibError "no such host"))
    (Err (LibError "no such file or directory"))
    (fun kind =>
       if String.eqb kind "hero"
       then Ok (mkSgdbResponse [mkImage 5 "https://img/hero.png";
                                mkImage 6 "https://img/hero2.png"])
       else if String.eqb kind "icon"
       then Ok (mkSgdbResponse [mkImage 9 "https://img/icon.ico"])
       else if String.eqb kind "logo" then Ok (mkSgdbResponse [])
       else Err (LibError "500 Internal Server Error")).

(** A local machine with one Steam user, no aiohttp, and no network. *)
Definition local_no_network : Scenario :=
  mkScenario []
    (Err (LibError "dial tcp: connection refused"))
    (Err (LibError "sftp: subsystem request failed"))
    (fun _ => Err (LibError "file does not exist"))
    (Err (LibError "file does not exist"))
    ("ModuleNotFoundError: No module named aiohttp",
     Some (LibError "exit status 1"))
    (fun _ => Err (LibError "no such host"))
    (Ok ["1001"])
    (fun _ => Err (LibError "401 Unauthorized")).

Definition no_script : string -> Z -> Z -> string := fun _ _ _ => "".

Definition four_of_five : steam.ArtworkConfig :=
  steam.mkArtworkConfig "http://img/p.png" "http://img/l.png"
    "http://img/h.png" "" "http://img/i.png".

(* ===================================================================== *)
(** * The claims in the spec's words *)
(* ===================================================================== *)

Section AuthenticationSpec.
Context {W : Type} (X : Extern W).

(** A key file is usable when it can be read and parsed. *)
Definition parseable_key (w : W) (file : string) : option ssh_Signer :=
  match os_ReadFile _ X w file with
  | Ok key =>
      match ssh_ParsePrivateKey _ X key with
      | Ok signer => Some signer
      | Err _ => None
      end
  | Err _ => None
  end.

(** (a) the explicit key file, if configured and parseable. *)
Definition explicit_key (cfg : remote.Config) (w : W) : option ssh_Signer :=
  if decide (remote.KeyFile cfg = "") then None
  else parseable_key w (remote.KeyFile cfg).

(** The fixed default key filenames of the user's key directory. *)
Definition default_key_names : list string :=
  ["id_rsa"; "id_ed25519"; "id_ecdsa"].

(** (b) the first parseable key among the default key files. *)
Definition first_default_key (w : W) : option ssh_Signer :=
  head (omap (fun name =>
                parseable_key w
                  (path_Join _ X [os_UserHomeDir _ X w; ".ssh"; name]))
             default_key_names).

(** (c) the password, if configured. *)
Definition password_method (cfg : remote.Config) : list ssh_AuthMethod :=
  if decide (remote.Password cfg = "") then []
  else [ssh_Password (remote.Password cfg)].

(** The ordered candidates: (a), otherwise (b), then (c). *)
Definition candidate_methods (cfg : remote.Config) (w : W)
    : list ssh_AuthMethod :=
  let key :=
    match explicit_key cfg w with
    | Some signer => Some signer
    | None => first_default_key w
    end in
  (match key with
   | Some signer => [ssh_PublicKeys signer]
   | None => []
   end ++ password_method cfg)%list.
End AuthenticationSpec.

(** The content types the upload knows, with the extension of each, in the
    order they are tried. *)
Definition known_content_types : list (string * string) :=
  [("png", ".png"); ("jpeg", ".jpg"); ("jpg", ".jpg");
   ("webp", ".webp"); ("gif", ".gif")].

(** The image suffixes looked for at the end of a URL. *)
Definition known_suffixes : list string :=
  [".webp"; ".png"; ".jpg"; ".jpeg"; ".gif"].

(** The extensions a saved file can get. *)
Definition known_extensions : list string :=
  [".png"; ".jpg"; ".webp"; ".gif"].

(** The extension of the first known type the header value mentions. *)
Definition content_type_extension (contentType : string) : option string :=
  snd <$> List.find (fun p => strings_Contains contentType (fst p))
                    known_content_types.

(** The URL with its query string stripped: the text before the first
    question mark. *)
Fixpoint strip_query (url : string) : string :=
  match url with
  | EmptyString => EmptyString
  | String a t =>
      if Ascii.eqb a "?"%char then EmptyString else String a (strip_query t)
  end.

(** The known suffix the lower-cased, query-free URL ends in. *)
Definition url_suffix (toLower : string -> string) (url : string)
    : option string :=
  List.find (strings_HasSuffix (toLower (strip_query url))) known_suffixes.

(** C8 as stated: content type first, then the URL's suffix as it is, then
    [.png]. *)
Definition extension_as_stated (toLower : string -> string)
    (resp : http_Response) (url : string) : string :=
  match content_type_extension (Header_Get (Header resp) "Content-Type") with
  | Some ext => ext
  | None =>
      match url_suffix toLower url with
      | Some suffix => suffix
      | None => ".png"
      end
  end.

(** C8 as amended: the same, with a [.jpeg] suffix saved as [.jpg]. *)
Definition extension_amended (toLower : string -> string)
    (resp : http_Response) (url : string) : string :=
  match content_type_extension (Header_Get (Header resp) "Content-Type") with
  | Some ext => ext
  | None =>
      match url_suffix toLower url with
      | Some suffix => if String.eqb suffix ".jpeg" then ".jpg" else suffix
      | None => ".png"
      end
  end.

(** C6: the records of an enumeration whose name is not [name], and the
    number of those whose name is. *)
Definition kept (name : string) (order : list (string * Shortcut))
    : list Shortcut :=
  List.filter (fun sc => negb (String.eqb (AppName sc) name)) (order.*2).

Definition occurrences (name : string) (order : list (string * Shortcut))
    : nat :=
  length (List.filter (fun sc => String.eqb (AppName sc) name) (order.*2)).

(** C6 as stated: whenever the name is present, one record less. *)
Definition remove_yields_one_less : Prop :=
  forall (name : string) (m : gmap string Shortcut)
         (order : list (string * Shortcut)),
    cmd.ranges m order ->
    (exists k sc, m !! k = Some sc /\ AppName sc = name) ->
    size (shortcuts_map (cmd.remove name order)) = (size m - 1)%nat.

(** C7: the five slots of a configuration. *)
Definition slots (a : steam.ArtworkConfig) : list string :=
  [steam.GridPortrait a; steam.GridLandscape a; steam.HeroImage a;
   steam.LogoImage a; steam.IconImage a].

(** C7 as stated: an error exactly when the configuration is absent or the
    grid directory cannot be resolved for want of a user. *)
Definition SetArtwork_fails_iff_precondition {W : Type} (X : Extern W)
    (script : string -> Z -> Z -> string) : Prop :=
  forall (RemoteClient : option remote.Client) (appID : Z)
         (artwork : option steam.ArtworkConfig) (w : W),
    value_of (steam.SetArtwork X script RemoteClient appID artwork w) <> None
    <->
    (artwork = None \/
     value_of (steam.getGridPath X RemoteClient
                 (world_of (steam.checkAiohttpAvailable X RemoteClient w)))
       = Err steam.NoUsersFound).

(** C10: the URL a slot gets from its fetch. *)
Definition slot_url (r : result sgdb_Response) : string :=
  match r with
  | Ok resp =>
      match Data resp with
      | img :: _ => img_URL img
      | [] => ""
      end
  | Err _ => ""
  end.

(* ===================================================================== *)
(** * More of the code: values, paths, persistence, artwork by name *)
(* ===================================================================== *)

(** The nesting depth of mappings bounds every recursion of
    [ensureVDFMap]; [value_size] counts the entries reachable through
    mappings. *)
Fixpoint value_size (v : Value) : nat :=
  match v with
  | VMap m => S (map_fold (fun _ x acc => (value_size x + acc)%nat) 0%nat m)
  | _ => 1%nat
  end.

(** What the binary format can hold: an unsigned 32-bit integer, a string,
    or a mapping of such values. *)
Inductive vdf_value : Value -> Prop :=
  | vdf_uint32 (z : Z) : 0 <= z < 2 ^ 32 -> vdf_value (VUint32 z)
  | vdf_string (s : string) : vdf_value (VString s)
  | vdf_map (m : gmap string Value) :
      map_Forall (fun _ x => vdf_value x) m -> vdf_value (VMap m).

(** A value with no [int] and no [int64] in it, looking through nested
    mappings (lists are not looked into by [ensureVDFMap]). *)
Inductive int_free : Value -> Prop :=
  | int_free_nil : int_free VNil
  | int_free_bool (b : bool) : int_free (VBool b)
  | int_free_uint32 (z : Z) : int_free (VUint32 z)
  | int_free_float64 (f : float64) : int_free (VFloat64 f)
  | int_free_string (s : string) : int_free (VString s)
  | int_free_list (l : list Value) : int_free (VList l)
  | int_free_map (m : gmap string Value) :
      map_Forall (fun _ x => int_free x) m -> int_free (VMap m).

(** ** pkg/steam, remote paths and files (lines 65-91 of the remote
    operations file) *)

Module steam_paths.
Section WithWorld.
Context {W : Type} (X : Extern W).
Local Open Scope go_scope.

Definition GetRemoteShortcutsPath (rc : remote.Client) (user : string)
    : M W (result string) :=
  r <- steam.GetRemoteUserDir X rc ;;
  match r with
  | Err err => ret (Err err)
  | Ok userDir =>
      ret (Ok (path_Join _ X [userDir; user; "config"; "shortcuts.vdf"]))
  end.

Definition RemoteHasShortcuts (rc : remote.Client) (user : string)
    : M W bool :=
  r <- GetRemoteShortcutsPath rc user ;;
  match r with
  | Err _ => ret false
  | Ok shortcutsPath => remote.FileExists X rc shortcutsPath
  end.

Definition ReadRemoteFile (rc : remote.Client) (remotePath : string)
    : M W (bytes * option error) :=
  remote.ReadFile X rc remotePath.

(** The permission bits [0666]. *)
Definition perm_0666 : Z := 438.

Definition WriteRemoteFile (rc : remote.Client) (remotePath : string)
    (data : bytes) : M W (option error) :=
  remote.WriteFile X rc remotePath data perm_0666.

End WithWorld.
End steam_paths.

(** ** pkg/shortcut: [Load] and [Save] *)

(** [fmt.Errorf(prefix + "%v", err)]: the message of [err] is formatted in,
    the error itself is not wrapped. *)
Definition Errorf_v (prefix : string) (err : error) : error :=
  Errorf (prefix ++ error_message err) None.

(** The codecs [Load] and [Save] go through: [vdf.ReadVdf], [vdf.WriteVdf]
    and the four uses of [encoding/json].  They are library functions of
    their argument. *)
Record Codecs : Type := mkCodecs {
  vdf_ReadVdf : bytes -> result vdf_Map;
  vdf_WriteVdf : vdf_Map -> result bytes;
  json_Marshal_Map : vdf_Map -> result bytes;
  json_Unmarshal_Shortcuts : bytes -> result Shortcuts;
  json_Marshal_Shortcuts : Shortcuts -> result bytes;
  json_Unmarshal_Map : bytes -> result (gmap string Value)
}.

(** First listing of shortcut.go (lines 11-68). *)
Module shortcut_io.
Section WithWorld.
Context {W : Type} (X : Extern W) (C : Codecs).
Variable unrepresentable : float64 -> Z.
Local Open Scope go_scope.

Definition Load (file : string) : M W (result Shortcuts) :=
  r <- observe (fun w => os_ReadFile _ X w file) ;;
  match r with
  | Err err => ret (Err err)
  | Ok bytes =>
      match vdf_ReadVdf C bytes with
      | Err err => ret (Err err)
      | Ok vdfMap =>
          match json_Marshal_Map C vdfMap with
          | Err err => ret (Err err)
          | Ok rawJSON =>
              match json_Unmarshal_Shortcuts C rawJSON with
              | Err err => ret (Err err)
              | Ok shortcuts => ret (Ok shortcuts)
              end
          end
      end
  end.

Definition Save (shortcuts : Shortcuts) (file : string) : M W (option error) :=
  match json_Marshal_Shortcuts C shortcuts with
  | Err err => ret (Some (Errorf_v "unable to marshal to JSON: " err))
  | Ok rawJSON =>
      match json_Unmarshal_Map C rawJSON with
      | Err err => ret (Some (Errorf_v "unable to unmarshal to VDF Map: " err))
      | Ok vdfMap =>
          match vdf_WriteVdf C (shortcut.ensureVDFMap unrepresentable vdfMap) with
          | Err err => ret (Some (Errorf_v "unable to convert VDF to bytes: " err))
          | Ok rawVdf =>
              e <- call (EvOs "WriteFile" file)
                        (os_WriteFile _ X file rawVdf steam_paths.perm_0666) ;;
              match e with
              | Some err => ret (Some (Errorf_v "unable to write VDF file: " err))
              | None => ret None
              end
          end
      end
  end.

End WithWorld.
End shortcut_io.

(** Second listing of shortcut.go (lines 105-187), the remote-aware one.
    [RemoteClient] is the package variable. *)
Module shortcut_remote_io.
Section WithWorld.
Context {W : Type} (X : Extern W) (C : Codecs).
Variable unrepresentable : float64 -> Z.
Local Open Scope go_scope.

Definition IsRemote (RemoteClient : option remote.Client) : bool :=
  match RemoteClient with Some _ => true | None => false end.

Definition Load (RemoteClient : option remote.Client) (file : string)
    : M W (result Shortcuts) :=
  r <- (match RemoteClient with
        | Some rc =>
            out <- remote.ReadFile X rc file ;;
            ret (match snd out with
                 | Some err => Err err
                 | None => Ok (fst out)
                 end)
        | None => observe (fun w => os_ReadFile _ X w file)
        end) ;;
  match r with
  | Err err => ret (Err err)
  | Ok bytes =>
      match vdf_ReadVdf C bytes with
      | Err err => ret (Err err)
      | Ok vdfMap =>
          match json_Marshal_Map C vdfMap with
          | Err err => ret (Err err)
          | Ok rawJSON =>
              match json_Unmarshal_Shortcuts C rawJSON with
              | Err err => ret (Err err)
              | Ok shortcuts => ret (Ok shortcuts)
              end
          end
      end
  end.

(** [Save]; the outer [None] is the panic of [ensureVDFMap]. *)
Definition Save (RemoteClient : option remote.Client) (shortcuts : Shortcuts)
    (file : string) : M W (option (option error)) :=
  match json_Marshal_Shortcuts C shortcuts with
  | Err err => ret (Some (Some (Errorf_v "Unable to marshal to JSON: " err)))
  | Ok rawJSON =>
      match json_Unmarshal_Map C rawJSON with
      | Err err =>
          ret (Some (Some (Errorf_v "Unable to unmarshal to VDF Map: " err)))
      | Ok vdfMap =>
          match shortcut_remote.ensureVDFMap unrepresentable vdfMap with
          | None => ret None
          | Some newMap =>
              match vdf_WriteVdf C newMap with
              | Err err =>
                  ret (Some (Some (Errorf_v "Unable to convert VDF to bytes: " err)))
              | Ok rawVdf =>
                  e <- (match RemoteClient with
                        | Some rc =>
                            remote.WriteFile X rc file rawVdf steam_paths.perm_0666
                        | None =>
                            call (EvOs "WriteFile" file)
                                 (os_WriteFile _ X file rawVdf steam_paths.perm_0666)
                        end) ;;
                  match e with
                  | Some err =>
                      ret (Some (Some (Errorf_v "Unable to write VDF file: " err)))
                  | None => ret (Some None)
                  end
              end
          end
      end
  end.

End WithWorld.
End shortcut_remote_io.

(** ** pkg/steamgriddb: [ApplyArtwork] and [SearchAndApplyArtwork] *)

(** Modelled from the spec: a search result of the artwork source (the
    client's types are not in the sources at hand), an object carrying a
    numeric id. *)
Record sgdb_Game : Type := mkGame {
  game_ID : Z;
  game_Name : string
}.

Module steamgriddb_apply.
Section WithWorld.
Context {W : Type} (X : Extern W) (script : string -> Z -> Z -> string).
Context (RemoteClient : option remote.Client).

(** [Client.Search]: its source is not at hand, it is a call of the world
    answering with the list [Data] of results or with an error. *)
Variable sgdb_Search : string -> W -> result (list sgdb_Game) * W.
Local Open Scope go_scope.

Definition ApplyArtwork (gameID : string) (appID : Z) : M W (option error) :=
  r <- steamgriddb.FetchArtworkConfig X gameID ;;
  match snd r with
  | Some err => ret (Some (wrap "failed to fetch artwork config: " err))
  | None => steam.SetArtwork X script RemoteClient appID (fst r)
  end.

Definition SearchAndApplyArtwork (gameName : string) (appID : Z)
    : M W (option error) :=
  r <- call (EvFetch "Search" gameName) (sgdb_Search gameName) ;;
  match r with
  | Err err => ret (Some (wrap "failed to search for game: " err))
  | Ok [] => ret (Some (Errorf ("no games found for '" ++ gameName ++ "'") None))
  | Ok (first :: _) =>
      let gameID := pretty (game_ID first) in
      ApplyArtwork gameID appID
  end.

End WithWorld.
End steamgriddb_apply.

(** ** cmd: the body of [chimeraRemoveCmd] (lines 106-113) *)

Module cmd_chimera.
Section WithShortcut.
(** [chimera.Shortcut] is declared in a package that is not at hand; the
    loop reads its [Name] only. *)
Context {ChimeraShortcut : Type} (Name : ChimeraShortcut -> string).

Fixpoint collect (name : string) (shortcuts : list ChimeraShortcut)
    (shortcutsList : list ChimeraShortcut) : list ChimeraShortcut :=
  match shortcuts with
  | [] => shortcutsList
  | sc :: rest =>
      if String.eqb (Name sc) name
      then collect name rest shortcutsList
      else collect name rest (shortcutsList ++ [sc])%list
  end.

(** The list handed to [chimera.SaveShortcuts]. *)
Definition remove (name : string) (shortcuts : list ChimeraShortcut)
    : list ChimeraShortcut :=
  collect name shortcuts [].

End WithShortcut.
End cmd_chimera.

(** ** Events by kind *)

Definition is_download (ev : Event) : bool :=
  match ev with EvHttpGet _ => true | _ => false end.

Definition downloads (t : list Event) : list string :=
  omap (fun ev => match ev with EvHttpGet url => Some url | _ => None end) t.

(** The local file writes of a trace. *)
Definition is_write (ev : Event) : bool :=
  match ev with
  | EvOs op _ => String.eqb op "WriteFile"
  | EvSftp _ op _ => String.eqb op "Create"
  | EvFile _ op => String.eqb op "Write"
  | _ => false
  end.

(** A connected client and services that answer, for the examples. *)
Definition all_up : Scenario :=
  mkScenario [("/home/user/.ssh/id_ed25519", "KEY ed25519")]
    (Ok 1%nat) (Ok 2%nat)
    (fun p => Ok (mkFileInfo p false))
    (Ok [mkFileInfo "notes.txt" false; mkFileInfo "1001" true;
         mkFileInfo "1002" true])
    ("", None)
    (fun url =>
       if strings_HasSuffix url ".missing"
       then Ok (mkResponse 404 ∅ 3%nat)
       else Ok (mkResponse 200 {[ "Content-Type" := ["image/webp"] ]} 3%nat))
    (Ok ["1001"])
    (fun _ => Ok (mkSgdbResponse [mkImage 1 "https://img/a.png"])).

Definition fresh_deck : remote.Client :=
  remote.NewClient (remote.mkConfig "steamdeck" 0 "deck" "" "").

(** The world of a scenario, with a remote file system on which files can
    be opened and created. *)
Definition with_remote_files (s : Scenario) : Extern (list ssh_Client) :=
  let X := scripted s in
  mkExtern (list ssh_Client)
    (path_Join _ X) (path_Dir _ X) (strings_ToLower _ X)
    (os_ReadFile _ X) (os_UserHomeDir _ X) (os_MkdirAll _ X)
    (os_WriteFile _ X) (os_Remove _ X) (exec_CombinedOutput _ X)
    (ssh_ParsePrivateKey _ X) (ssh_Dial _ X) (ssh_Close _ X)
    (ssh_NewSession _ X) (session_CombinedOutput _ X) (session_Close _ X)
    (sftp_NewClient _ X) (sftp_Close _ X)
    (fun _ _ w => (Ok 5%nat, w))
    (fun _ _ w => (Ok 6%nat, w))
    (sftp_MkdirAll _ X) (sftp_Chmod _ X) (sftp_Stat _ X)
    (sftp_ReadDir _ X) (sftp_Getwd _ X)
    (fun _ w => (("127.0.0.1 localhost", None), w))
    (file_Write _ X) (file_Close _ X)
    (http_Get _ X) (body_ReadAll _ X) (body_Close _ X)
    (steam_GetUsers _ X) (steam_GetUserDir _ X)
    (sgdb_GetGrids _ X) (sgdb_GetHeroes _ X) (sgdb_GetLogos _ X)
    (sgdb_GetIcons _ X).

(** Codecs for the examples: one collection, as [encoding/json] decodes
    it (numbers are float64), and fixed bytes. *)
Definition decoded_pivot : gmap string Value :=
  {[ "shortcuts" :=
       VMap {[ "0" := VMap {[ "appid" := VFloat64 (float64_of_Z 7);
                              "AppName" := VString "Doom" ]} ]} ]}.

Definition toy_codecs : Codecs :=
  mkCodecs
    (fun _ => Err (LibError "vdf: unexpected end of input"))
    (fun _ => Ok "vdf-bytes")
    (fun _ => Ok "{}")
    (fun _ => Err (LibError "unexpected end of JSON input"))
    (fun _ => Ok "{}")
    (fun _ => Ok decoded_pivot).

(** A search that finds two games, and one that finds none. *)
Definition search_two : string -> list ssh_Client
                        -> result (list sgdb_Game) * list ssh_Client :=
  fun _ w => (Ok [mkGame 42 "Doom"; mkGame 43 "Doom II"], w).

Definition search_none : string -> list ssh_Client
                         -> result (list sgdb_Game) * list ssh_Client :=
  fun _ w => (Ok [], w).

Definition deck_with_key : remote.Client :=
  remote.NewClient
    (remote.mkConfig "steamdeck" 0 "deck" "secret" "/home/user/.ssh/id_ed25519").

Section FailureLog.
Context {W : Type} (X : Extern W) (script : string -> Z -> Z -> string).
Context (RemoteClient : option remote.Client) (appID : Z).

(** C7: a slot processed from the world [w] has its failures logged in the
    trace [t].  When the capability is there and the injection fails, the
    warning naming the slot and the error is printed; when the filesystem
    method is used (no capability, or the injection failed) and the upload
    fails, the error naming [label] and the error is printed.  The upload
    runs in the world left by the injection, if any, and by [mkdirAll]. *)
Definition failure_logged (canUseSteamAPI : bool)
    (gridPath url baseName label : string) (assetType : Z) (w : W)
    (t : list Event) : Prop :=
  let cef := steam.SetArtworkViaCEF X script RemoteClient appID url
               assetType w in
  let w_fallback := if canUseSteamAPI then world_of cef else w in
  let upload := steam.uploadArtworkToGrid X RemoteClient url gridPath baseName
                  (world_of (steam.mkdirAll X RemoteClient gridPath
                               w_fallback)) in
  (canUseSteamAPI = true ->
   forall err, value_of cef = Some err ->
     In (EvPrint ("[WARNING] Steam CEF API failed for " ++ baseName ++ ": "
                  ++ error_message err)) t) /\
  (canUseSteamAPI = false \/ value_of cef <> None ->
   forall err, value_of upload = Some err ->
     In (EvPrint ("[ERROR] Failed to upload " ++ label ++ ": "
                  ++ error_message err)) t).

(** C7: the failures of all five slots are logged in [t], the slots being
    processed in the order portrait, landscape, hero, logo, icon from the
    world [w1], each in the world the previous one left; the icon goes
    through the filesystem method only and is logged under the name
    [icon]. *)
Definition failures_logged (a : steam.ArtworkConfig) (canUseSteamAPI : bool)
    (gridPath : string) (w1 : W) (t : list Event) : Prop :=
  let apply := steam.applyOne X script RemoteClient appID canUseSteamAPI
                 gridPath in
  let logged := failure_logged canUseSteamAPI gridPath in
  let s1 := apply (steam.GridPortrait a) (pretty appID ++ "p")
              steam.AssetTypeGridPortrait w1 in
  let s2 := apply (steam.GridLandscape a) (pretty appID)
              steam.AssetTypeGridLandscape (world_of s1) in
  let s3 := apply (steam.HeroImage a) (pretty appID ++ "_hero")
              steam.AssetTypeHero (world_of s2) in
  let s4 := apply (steam.LogoImage a) (pretty appID ++ "_logo")
              steam.AssetTypeLogo (world_of s3) in
  (steam.GridPortrait a <> "" ->
   logged (steam.GridPortrait a) (pretty appID ++ "p") (pretty appID ++ "p")
          steam.AssetTypeGridPortrait w1 t) /\
  (steam.GridLandscape a <> "" ->
   logged (steam.GridLandscape a) (pretty appID) (pretty appID)
          steam.AssetTypeGridLandscape (world_of s1) t) /\
  (steam.HeroImage a <> "" ->
   logged (steam.HeroImage a) (pretty appID ++ "_hero")
          (pretty appID ++ "_hero") steam.AssetTypeHero (world_of s2) t) /\
  (steam.LogoImage a <> "" ->
   logged (steam.LogoImage a) (pretty appID ++ "_logo")
          (pretty appID ++ "_logo") steam.AssetTypeLogo (world_of s3) t) /\
  (steam.IconImage a <> "" ->
   failure_logged false gridPath (steam.IconImage a) (pretty appID ++ "_icon")
     "icon" steam.AssetTypeIcon (world_of s4) t).
End FailureLog.

(** C2 as stated, for an encode step [ensure] whose result [None] is a
    panic: for every value of the uint32 range a signed int, an int64 and
    the float64 holding it are all stored as that uint32, and the step
    returns on each of them. *)
Definition numeric_coercion_as_stated
    (ensure : gmap string Value -> option vdf_Map) : Prop :=
  forall (k : string) (v : Z), 0 <= v < 2 ^ 32 ->
    ensure {[ k := VInt v ]} = Some {[ k := VUint32 v ]} /\
    ensure {[ k := VInt64 v ]} = Some {[ k := VUint32 v ]} /\
    ensure {[ k := VFloat64 (float64_of_Z v) ]} = Some {[ k := VUint32 v ]}.

(* ===================================================================== *)
(** * pkg/shortcut: the encode step *)
(* ===================================================================== *)

(** In the first listing an entry whose value is null or of an unsupported
    type is skipped, whatever the other entries are. *)
Lemma ensureVDFValue_unsupported u (v : Value) :
  supported v = false -> shortcut.ensureVDFValue u v = None.
Proof. destruct v; simpl; intros Hs; first [reflexivity | discriminate Hs]. Qed.

Lemma ensureVDFValue_supported u (v : Value) :
  supported v = true -> is_Some (shortcut.ensureVDFValue u v).
Proof. destruct v; simpl; intros Hs; first [discriminate Hs | eexists; reflexivity]. Qed.

(** First listing (lines 71-93): the drop policy holds; a key is present in
    the result exactly when its value is supported, and the call returns a
    map for every input. *)
Lemma ensureVDFMap_drop_policy u (m : gmap string Value) (k : string) :
  (forall v, m !! k = Some v -> supported v = false ->
             shortcut.ensureVDFMap u m !! k = None) /\
  (forall v, m !! k = Some v -> supported v = true ->
             is_Some (shortcut.ensureVDFMap u m !! k)) /\
  (m !! k = None -> shortcut.ensureVDFMap u m !! k = None).
Proof.
  unfold shortcut.ensureVDFMap. rewrite lookup_omap.
  repeat split.
  - intros v -> Hs. simpl. by apply ensureVDFValue_unsupported.
  - intros v -> Hs. simpl. by apply ensureVDFValue_supported.
  - by intros ->.
Qed.

(** The same policy one level down: a nested mapping is encoded by the same
    function. *)
Lemma ensureVDFMap_nested u (m sub : gmap string Value) (k : string) :
  m !! k = Some (VMap sub) ->
  shortcut.ensureVDFMap u m !! k = Some (VMap (shortcut.ensureVDFMap u sub)).
Proof.
  intros Hk. unfold shortcut.ensureVDFMap. rewrite lookup_omap, Hk. reflexivity.
Qed.

(** C1, at the failing input.  In the remote-aware listing of shortcut.go
    (lines 190-205) the [default] branch stores the value as it is: a null
    value and a list both stay in the resulting VDF map, under their keys. *)
Theorem ensureVDFMap_remote_keeps_null_and_list u :
  let m : gmap string Value :=
    {[ "AppName" := VString "Game"; "icon" := VNil;
       "tags" := VList [VString "a"] ]} in
  shortcut_remote.ensureVDFMap u m = Some m /\
  m !! "icon" = Some VNil /\
  shortcut.ensureVDFMap u m = {[ "AppName" := VString "Game" ]}.
Proof. vm_compute. repeat split. Qed.

Lemma uint32_of_int_small (v : Z) : 0 <= v < 2 ^ 32 -> uint32_of_int v = v.
Proof.
  intros Hv. unfold uint32_of_int.
  rewrite Z.land_ones by lia. apply Z.mod_small. lia.
Qed.

Lemma uint32_of_float64_exact u (f : float64) (v : Z) :
  0 <= v < 2 ^ 32 -> float64_trunc f = Some v -> uint32_of_float64 u f = v.
Proof.
  intros Hv Hf. unfold uint32_of_float64. rewrite Hf.
  destruct (Z.leb_spec 0 v); [| lia].
  destruct (Z.ltb_spec v (2 ^ 32)); [reflexivity | lia].
Qed.

(** First listing (lines 78-90): a signed int, an int64 and a whole-valued
    float64 holding the same value [v] of the uint32 range are all stored
    as [uint32(v)], and the call returns a map. *)
Lemma ensureVDFMap_numeric_coercion u (m : gmap string Value) (k : string)
    (v : Z) (f : float64) :
  0 <= v < 2 ^ 32 ->
  float64_whole f = true -> float64_trunc f = Some v ->
  shortcut.ensureVDFMap u (<[k := VInt v]> m) !! k = Some (VUint32 v) /\
  shortcut.ensureVDFMap u (<[k := VInt64 v]> m) !! k = Some (VUint32 v) /\
  shortcut.ensureVDFMap u (<[k := VFloat64 f]> m) !! k = Some (VUint32 v).
Proof.
  intros Hv _ Hf. unfold shortcut.ensureVDFMap.
  rewrite !lookup_omap, !lookup_insert_eq. simpl.
  rewrite (uint32_of_int_small v Hv), (uint32_of_float64_exact u f v Hv Hf).
  repeat split.
Qed.

(** The float64 built from an integer of the uint32 range is whole and
    truncates to that integer. *)
Lemma float64_of_Z_exact (v : Z) :
  float64_whole (float64_of_Z v) = true /\
  float64_trunc (float64_of_Z v) = Some v.
Proof. destruct v; simpl; split; reflexivity. Qed.

Example ensureVDFMap_numeric_coercion_at_7 :
  shortcut.ensureVDFMap (fun _ => 0) {[ "appid" := VInt 7 ]}
    = {[ "appid" := VUint32 7 ]} /\
  shortcut.ensureVDFMap (fun _ => 0) {[ "appid" := VInt64 7 ]}
    = {[ "appid" := VUint32 7 ]} /\
  shortcut.ensureVDFMap (fun _ => 0)
      {[ "appid" := VFloat64 (S754_finite false 7881299347898368 (-50)) ]}
    = {[ "appid" := VUint32 7 ]}.
Proof. vm_compute. repeat split. Qed.

(** In the remote-aware listing of shortcut.go (lines 192-203) the branch
    for [int] and [int64] asserts the value to be a [uint32]: called on a
    map holding one, the function panics, and only a float64 is coerced.
    [Save], its only caller, passes what [encoding/json] decoded, where
    every number is a float64. *)
Theorem ensureVDFMap_remote_panics_on_int u :
  shortcut_remote.ensureVDFMap u {[ "appid" := VInt 7 ]} = None /\
  shortcut_remote.ensureVDFMap u {[ "appid" := VInt64 7 ]} = None /\
  shortcut_remote.ensureVDFMap u {[ "appid" := VFloat64 (float64_of_Z 7) ]}
    = Some {[ "appid" := VUint32 7 ]} /\
  shortcut.ensureVDFMap u {[ "appid" := VInt 7 ]} = {[ "appid" := VUint32 7 ]}.
Proof. vm_compute. repeat split. Qed.

(* ===================================================================== *)
(** * pkg/steam: the extension of a saved image *)
(* ===================================================================== *)

Lemma strings_HasPrefix_question (a : ascii) (t : string) :
  strings_HasPrefix (String a t) "?" = Ascii.eqb a "?"%char.
Proof.
  cbn [strings_HasPrefix].
  replace (strings_HasPrefix t "") with true by (destruct t; reflexivity).
  rewrite andb_true_r. apply Ascii.eqb_sym.
Qed.

Lemma strings_Index_question_range (url : string) :
  strings_Index url "?" = -1 \/ 0 <= strings_Index url "?".
Proof.
  induction url as [| a t IH].
  - left. reflexivity.
  - cbn [strings_Index]. rewrite strings_HasPrefix_question.
    destruct (Ascii.eqb a "?"%char); [right; lia |].
    destruct (Z.eqb_spec (strings_Index t "?") (-1)); [left; reflexivity | right; lia].
Qed.

(** The slice the code takes is the text before the first question mark. *)
Lemma urlPath_strip_query (url : string) :
  (if negb (strings_Index url "?" =? -1)
   then slice_to url (strings_Index url "?") else url) = strip_query url.
Proof.
  induction url as [| a t IH].
  - reflexivity.
  - cbn [strings_Index strip_query]. rewrite strings_HasPrefix_question.
    destruct (Ascii.eqb a "?"%char); [reflexivity |].
    destruct (Z.eqb_spec (strings_Index t "?") (-1)) as [E | E].
    + rewrite E in IH. simpl in IH. simpl. by rewrite <- IH.
    + destruct (Z.eqb_spec (strings_Index t "?") (-1)) as [E' | _]; [done |].
      simpl in IH.
      destruct (strings_Index_question_range t) as [Hm | Hpos]; [done |].
      destruct (Z.eqb_spec (strings_Index t "?" + 1) (-1)) as [E2 | _]; [lia |].
      simpl. unfold slice_to in *.
      replace (Z.to_nat (strings_Index t "?" + 1))
        with (S (Z.to_nat (strings_Index t "?"))) by lia.
      simpl. by rewrite IH.
Qed.

(** C8, as amended.  The extension is that of the first known image type
    the Content-Type header mentions; otherwise the known suffix the URL
    (query string stripped, lower-cased) ends in, a [.jpeg] suffix being
    saved as [.jpg]; otherwise [.png].  The function returns for every
    response and URL, and always one of the known image extensions. *)
Theorem getExtensionFromResponse_priority {W : Type} (X : Extern W)
    (resp : http_Response) (url : string) :
  steam.getExtensionFromResponse X resp url
    = extension_amended (strings_ToLower W X) resp url /\
  In (steam.getExtensionFromResponse X resp url) known_extensions.
Proof.
  unfold steam.getExtensionFromResponse, extension_amended,
    content_type_extension, url_suffix, known_content_types, known_suffixes,
    known_extensions.
  rewrite urlPath_strip_query.
  set (ct := Header_Get (Header resp) "Content-Type").
  set (lower := strings_ToLower W X (strip_query url)).
  cbn [List.find fst snd fmap option_fmap option_map].
  destruct (strings_Contains ct "png"); [simpl; tauto |].
  destruct (strings_Contains ct "jpeg"); [simpl; tauto |].
  destruct (strings_Contains ct "jpg"); [simpl; tauto |].
  destruct (strings_Contains ct "webp"); [simpl; tauto |].
  destruct (strings_Contains ct "gif"); [simpl; tauto |].
  destruct (strings_HasSuffix lower ".webp"); [simpl; tauto |].
  destruct (strings_HasSuffix lower ".png"); [simpl; tauto |].
  destruct (strings_HasSuffix lower ".jpg"); [simpl; tauto |].
  destruct (strings_HasSuffix lower ".jpeg"); [simpl; tauto |].
  destruct (strings_HasSuffix lower ".gif"); simpl; tauto.
Qed.

(** C8 as stated fails: a URL ending in [.jpeg], answered without a
    Content-Type, is saved as [.jpg], not under that suffix. *)
Lemma getExtensionFromResponse_jpeg_counterexample :
  ~ (forall (resp : http_Response) (url : string),
       steam.getExtensionFromResponse (scripted offline) resp url
       = extension_as_stated ToLower_ascii resp url).
Proof.
  intros H.
  specialize (H (mkResponse 200 ∅ 0%nat) "https://cdn.example/Hero.JPEG?x=1").
  vm_compute in H. discriminate H.
Qed.

Example getExtensionFromResponse_examples :
  let get := steam.getExtensionFromResponse (scripted offline) in
  get (mkResponse 200 {[ "Content-Type" := ["image/webp"] ]} 0%nat) "http://h/a.gif"
    = ".webp" /\
  get (mkResponse 200 {[ "Content-Type" := ["text/plain"] ]} 0%nat) "http://h/A.GIF?s=1"
    = ".gif" /\
  get (mkResponse 200 ∅ 0%nat) "http://h/a.jpeg" = ".jpg" /\
  get (mkResponse 200 ∅ 0%nat) "http://h/a" = ".png".
Proof. vm_compute. repeat split. Qed.

(* ===================================================================== *)
(** * cmd: removing a shortcut by name *)
(* ===================================================================== *)

Lemma collect_filter (name : string) (order : list (string * Shortcut))
    (acc : list Shortcut) :
  cmd.collect name order acc = (acc ++ kept name order)%list.
Proof.
  revert acc. unfold kept.
  induction order as [| [k sc] rest IH]; intros acc; simpl.
  - by rewrite app_nil_r.
  - destruct (String.eqb (AppName sc) name); simpl.
    + apply IH.
    + rewrite IH. by rewrite <- app_assoc.
Qed.

Lemma Sprintf_v_inj (i j : nat) : cmd.Sprintf_v i = cmd.Sprintf_v j -> i = j.
Proof. unfold cmd.Sprintf_v. apply pretty_nat_inj. Qed.

(** Keys outside the range written by the second loop keep their entry. *)
Lemma rekey_lookup_other (l : list Shortcut) (k : nat)
    (m : gmap string Shortcut) (key : string) :
  (forall i, (i < length l)%nat -> key <> cmd.Sprintf_v (k + i)) ->
  cmd.rekey k l m !! key = m !! key.
Proof.
  revert k m. induction l as [| sc rest IH]; intros k m Hkey; simpl.
  - reflexivity.
  - rewrite IH.
    + rewrite lookup_insert_ne; [reflexivity |].
      intros E. apply (Hkey 0%nat); [simpl; lia |].
      by rewrite Nat.add_0_r.
    + intros i Hi. replace (S k + i)%nat with (k + S i)%nat by lia.
      apply Hkey. simpl. lia.
Qed.

(** The slice element at index [i] is stored under the decimal of its
    index. *)
Lemma rekey_lookup (l : list Shortcut) (k : nat) (m : gmap string Shortcut)
    (i : nat) (sc : Shortcut) :
  l !! i = Some sc -> cmd.rekey k l m !! cmd.Sprintf_v (k + i) = Some sc.
Proof.
  revert k m i. induction l as [| x rest IH]; intros k m i Hi; [done |].
  destruct i as [| i]; simpl in *.
  - injection Hi as ->. rewrite rekey_lookup_other.
    + rewrite Nat.add_0_r. apply lookup_insert_eq.
    + intros j _ E. apply Sprintf_v_inj in E. lia.
  - replace (k + S i)%nat with (S k + i)%nat by lia. by apply IH.
Qed.

(** Every entry of the result was there before or was written by the loop. *)
Lemma rekey_lookup_inv (l : list Shortcut) (k : nat)
    (m : gmap string Shortcut) (key : string) (sc : Shortcut) :
  cmd.rekey k l m !! key = Some sc ->
  m !! key = Some sc \/
  exists i, key = cmd.Sprintf_v (k + i) /\ l !! i = Some sc.
Proof.
  revert k m. induction l as [| x rest IH]; intros k m Hk; simpl in Hk.
  - by left.
  - destruct (IH _ _ Hk) as [Hm | (i & -> & Hi)].
    + destruct (decide (cmd.Sprintf_v k = key)) as [<- | Hne].
      * rewrite lookup_insert_eq in Hm. injection Hm as ->.
        right. exists 0%nat. by rewrite Nat.add_0_r.
      * rewrite lookup_insert_ne in Hm by done. by left.
    + right. exists (S i). split; [f_equal; lia | done].
Qed.

(** Every key of the rewritten collection is the decimal of an index. *)
Lemma rekey_empty_lookup (l : list Shortcut) (key : string) (sc : Shortcut) :
  cmd.rekey 0 l ∅ !! key = Some sc ->
  exists i, key = cmd.Sprintf_v i /\ l !! i = Some sc.
Proof.
  intros Hk. destruct (rekey_lookup_inv _ _ _ _ _ Hk) as [Hm | Hi].
  - by rewrite lookup_empty in Hm.
  - exact Hi.
Qed.

Lemma rekey_size (l : list Shortcut) (k : nat) (m : gmap string Shortcut) :
  (forall j, (k <= j)%nat -> m !! cmd.Sprintf_v j = None) ->
  size (cmd.rekey k l m) = (length l + size m)%nat.
Proof.
  revert k m. induction l as [| sc rest IH]; intros k m Hfresh; simpl.
  - reflexivity.
  - rewrite IH.
    + rewrite map_size_insert_None by (apply Hfresh; lia). lia.
    + intros j Hj. rewrite lookup_insert_ne; [apply Hfresh; lia |].
      intros E. apply Sprintf_v_inj in E. lia.
Qed.

Lemma kept_occurrences (name : string) (order : list (string * Shortcut)) :
  (length (kept name order) + occurrences name order)%nat = length order.
Proof.
  unfold kept, occurrences. rewrite <- (length_fmap snd order).
  induction (order.*2) as [| sc rest IH]; simpl; [reflexivity |].
  destruct (String.eqb (AppName sc) name); simpl; lia.
Qed.

Lemma kept_elem (name : string) (order : list (string * Shortcut))
    (sc : Shortcut) :
  In sc (kept name order) <->
  (exists k, In (k, sc) order) /\ AppName sc <> name.
Proof.
  unfold kept. rewrite filter_In, negb_true_iff, String.eqb_neq.
  rewrite in_map_iff. split.
  - intros [([k x] & Hx & Hin) Hne]. simpl in Hx. subst x. eauto.
  - intros [[k Hin] Hne]. split; [| done]. by exists (k, sc).
Qed.

Lemma ranges_length (m : gmap string Shortcut)
    (order : list (string * Shortcut)) :
  cmd.ranges m order -> length order = size m.
Proof.
  intros Hr. unfold cmd.ranges in Hr. rewrite Hr. apply length_map_to_list.
Qed.

Lemma ranges_elem (m : gmap string Shortcut)
    (order : list (string * Shortcut)) (k : string) (sc : Shortcut) :
  cmd.ranges m order -> (In (k, sc) order <-> m !! k = Some sc).
Proof.
  intros Hr. unfold cmd.ranges in Hr.
  rewrite <- list_elem_of_In, Hr. apply elem_of_map_to_list.
Qed.

Lemma remove_lookup (name : string) (order : list (string * Shortcut))
    (i : nat) :
  shortcuts_map (cmd.remove name order) !! cmd.Sprintf_v i
  = kept name order !! i.
Proof.
  unfold cmd.remove. simpl. rewrite collect_filter. simpl.
  destruct (kept name order !! i) as [sc |] eqn:Hi.
  - apply (rekey_lookup _ 0 ∅ i sc Hi).
  - destruct (cmd.rekey 0 (kept name order) ∅ !! cmd.Sprintf_v i)
      as [sc |] eqn:Hr; [| reflexivity].
    apply rekey_empty_lookup in Hr as (j & Hj & Hsc).
    apply Sprintf_v_inj in Hj. subst j. congruence.
Qed.

(** C6, as amended.  Removing by name from a collection of N records, k of
    which carry that name, hands to [Save] a collection of N-k records
    (N-1 when the name occurs once) whose keys are exactly the decimals
    of 0..N-k-1, whatever the keys of the loaded collection were and in
    whatever order the map was iterated; every record with a different
    name is in the result, unchanged, and the result holds nothing else. *)
Theorem remove_rekeys_dense (name : string) (m : gmap string Shortcut)
    (order : list (string * Shortcut)) :
  cmd.ranges m order ->
  let res := shortcuts_map (cmd.remove name order) in
  let n := (size m - occurrences name order)%nat in
  size res = n /\
  (forall key, is_Some (res !! key) <->
               exists i, (i < n)%nat /\ key = cmd.Sprintf_v i) /\
  (forall k sc, m !! k = Some sc -> AppName sc <> name ->
                exists i, (i < n)%nat /\ res !! cmd.Sprintf_v i = Some sc) /\
  (forall key sc, res !! key = Some sc ->
                  AppName sc <> name /\ exists k, m !! k = Some sc) /\
  (occurrences name order = 1%nat -> size res = (size m - 1)%nat).
Proof.
  intros Hr res n.
  assert (Hn : length (kept name order) = n).
  { subst n. rewrite <- (ranges_length m order Hr).
    pose proof (kept_occurrences name order). lia. }
  assert (Hsize : size res = n).
  { subst res. unfold cmd.remove. simpl. rewrite collect_filter. simpl.
    rewrite rekey_size by (intros; apply lookup_empty).
    rewrite map_size_empty. lia. }
  split; [exact Hsize |]. split; [| split; [| split]].
  - intros key. split.
    + intros [sc Hsc]. subst res. unfold cmd.remove in Hsc. simpl in Hsc.
      rewrite collect_filter in Hsc. simpl in Hsc.
      apply rekey_empty_lookup in Hsc as (i & -> & Hi).
      exists i. split; [| reflexivity].
      rewrite <- Hn. by apply lookup_lt_Some in Hi.
    + intros (i & Hi & ->). subst res. rewrite remove_lookup.
      apply lookup_lt_is_Some_2. lia.
  - intros k sc Hk Hne.
    assert (Hin : In sc (kept name order)).
    { apply kept_elem. split; [| exact Hne].
      exists k. by apply (ranges_elem m order k sc Hr). }
    apply list_elem_of_In, list_elem_of_lookup in Hin as [i Hi].
    exists i. split.
    + rewrite <- Hn. by apply lookup_lt_Some in Hi.
    + subst res. by rewrite remove_lookup.
  - intros key sc Hsc. subst res. unfold cmd.remove in Hsc. simpl in Hsc.
    rewrite collect_filter in Hsc. simpl in Hsc.
    apply rekey_empty_lookup in Hsc as (i & -> & Hi).
    assert (Hin : In sc (kept name order)).
    { apply list_elem_of_In, list_elem_of_lookup. by exists i. }
    apply kept_elem in Hin as [[k Hk] Hne]. split; [exact Hne |].
    exists k. by apply (ranges_elem m order k sc Hr).
  - intros Hone. rewrite Hsize. subst n. by rewrite Hone.
Qed.

Lemma library_ranges : cmd.ranges (list_to_map library) library.
Proof.
  unfold cmd.ranges. symmetry. apply map_to_list_to_map.
  apply (bool_decide_unpack _). vm_compute. reflexivity.
Qed.

Lemma remove_rekeys_dense_witness :
  let res := shortcuts_map (cmd.remove "Quake" library) in
  size res = 2%nat /\
  res !! "0" = Some (game 10 "Doom") /\ res !! "1" = Some (game 12 "Doom").
Proof.
  pose proof (remove_rekeys_dense "Quake" (list_to_map library) library
                library_ranges) as (Hsize & _).
  split; [| split].
  - etransitivity; [exact Hsize |]. vm_compute. reflexivity.
  - vm_compute. reflexivity.
  - vm_compute. reflexivity.
Defined.

(** C6 as stated fails: the loop drops every record of that name, so with
    the name carried twice two records go. *)
Lemma remove_counterexample : ~ remove_yields_one_less.
Proof.
  intros H.
  specialize (H "Doom" (list_to_map library) library library_ranges).
  assert (Hex : exists k sc,
             (list_to_map library : gmap string Shortcut) !! k = Some sc
             /\ AppName sc = "Doom").
  { exists "0", (game 10 "Doom"). split; vm_compute; reflexivity. }
  specialize (H Hex). vm_compute in H. discriminate H.
Qed.

(* ===================================================================== *)
(** * Running computations *)
(* ===================================================================== *)

Lemma bind_run {W A B : Type} (m : M W A) (k : A -> M W B) (w : W) :
  bind m k w =
  (value_of (k (value_of (m w)) (world_of (m w))),
   world_of (k (value_of (m w)) (world_of (m w))),
   (trace_of (m w) ++ trace_of (k (value_of (m w)) (world_of (m w))))%list).
Proof.
  unfold bind, value_of, world_of, trace_of.
  destruct (m w) as [[a w1] t1]. simpl.
  destruct (k a w1) as [[b w2] t2]. reflexivity.
Qed.

Lemma bind_value {W A B : Type} (m : M W A) (k : A -> M W B) (w : W) :
  value_of (bind m k w) = value_of (k (value_of (m w)) (world_of (m w))).
Proof. by rewrite bind_run. Qed.

Lemma bind_world {W A B : Type} (m : M W A) (k : A -> M W B) (w : W) :
  world_of (bind m k w) = world_of (k (value_of (m w)) (world_of (m w))).
Proof. by rewrite bind_run. Qed.

Lemma bind_trace {W A B : Type} (m : M W A) (k : A -> M W B) (w : W) :
  trace_of (bind m k w) =
  (trace_of (m w) ++ trace_of (k (value_of (m w)) (world_of (m w))))%list.
Proof. by rewrite bind_run. Qed.

Lemma call_trace {W A : Type} (ev : Event) (f : W -> A * W) (w : W) :
  trace_of (call ev f w) = [ev].
Proof. unfold call, trace_of. by destruct (f w). Qed.

Lemma call_value {W A : Type} (ev : Event) (f : W -> A * W) (w : W) :
  value_of (call ev f w) = fst (f w).
Proof. unfold call, value_of. by destruct (f w). Qed.

Lemma call_world {W A : Type} (ev : Event) (f : W -> A * W) (w : W) :
  world_of (call ev f w) = snd (f w).
Proof. unfold call, world_of. by destruct (f w). Qed.

(* ===================================================================== *)
(** * pkg/remote *)
(* ===================================================================== *)

(** C5.  [FileExists] returns a boolean for every client state and every
    path: true exactly when [Stat] succeeds, false exactly when [Stat]
    fails, whatever the failure; on a client that is not connected it is
    false. *)
Theorem FileExists_never_raises {W : Type} (X : Extern W)
    (c : remote.Client) (remotePath : string) (w : W) :
  (value_of (remote.FileExists X c remotePath w) = true <->
   exists info, value_of (remote.Stat X c remotePath w) = Ok info) /\
  (value_of (remote.FileExists X c remotePath w) = false <->
   exists e, value_of (remote.Stat X c remotePath w) = Err e) /\
  value_of (remote.FileExists X
              (remote.mkClient (remote.config c) (remote.sshClient c) None)
              remotePath w) = false /\
  value_of (remote.Stat X
              (remote.mkClient (remote.config c) (remote.sshClient c) None)
              remotePath w) = Err remote.NotConnected.
Proof.
  unfold remote.FileExists. rewrite !bind_value.
  destruct (value_of (remote.Stat X c remotePath w)) as [info | e] eqn:Hs;
    cbn [ret value_of fst].
  - repeat split; eauto.
    + intros Hf. discriminate Hf.
    + intros [e He]. discriminate He.
  - repeat split; eauto.
    + intros Hf. discriminate Hf.
    + intros [info Hi]. discriminate Hi.
Qed.

(** When the dial succeeds and the SFTP session fails, [Connect] returns
    the wrapped error after closing the transport, and the receiver keeps
    the handle of the closed transport. *)
Lemma Connect_sftp_failure {W : Type} (X : Extern W) (c : remote.Client)
    (w w1 w2 : W) (h : ssh_Client) (e : error) :
  let auth := remote.authMethods X c w in
  let cfg := mkClientConfig (remote.User (remote.config c)) auth
               ssh_InsecureIgnoreHostKey in
  auth <> [] ->
  ssh_Dial W X (remote.addr_of c) cfg w = (Ok h, w1) ->
  sftp_NewClient W X h w1 = (Err e, w2) ->
  value_of (remote.Connect X c w)
  = (Some (wrap "failed to create SFTP client: " e),
     remote.mkClient (remote.config c) (Some h) (remote.sftpClient c)) /\
  trace_of (remote.Connect X c w)
  = [EvDial (remote.addr_of c) cfg; EvSftpNewClient h; EvSshClose h] /\
  world_of (remote.Connect X c w) = snd (ssh_Close W X h w2).
Proof.
  intros auth cfg Hauth Hdial Hsftp.
  unfold remote.Connect, bind, observe.
  change (remote.authMethods X c w) with auth.
  destruct (length auth =? 0)%nat eqn:Hl.
  { destruct auth; [done | discriminate Hl]. }
  unfold call. fold cfg. rewrite Hdial. cbn. rewrite Hsftp. cbn.
  destruct (ssh_Close W X h w2) as [e' w3]. cbn. repeat split.
Qed.

(** With the transport handle stored, [RunCommand] passes its guard and
    asks the transport for a session. *)
Lemma RunCommand_guard {W : Type} (X : Extern W) (c : remote.Client)
    (h : ssh_Client) (command : string) (w : W) :
  remote.sshClient c = Some h ->
  exists t, trace_of (remote.RunCommand X c command w) = EvNewSession h :: t.
Proof.
  intros Hh. unfold remote.RunCommand. rewrite Hh, bind_trace, call_trace.
  eexists. reflexivity.
Qed.

(** C3, at the failing input.  A fresh client whose dial succeeds and whose
    SFTP session is refused: [Connect] returns the error and closes the
    transport, the operations gated on the SFTP handle report "not
    connected", but [RunCommand] finds the stored handle of the closed
    transport, passes its guard and fails while creating a session. *)
Theorem Connect_sftp_failure_keeps_transport_handle :
  let X := scripted sftp_refused in
  let r := remote.Connect X deck [] in
  let c' := snd (value_of r) in
  let w' := world_of r in
  error_message <$> fst (value_of r)
    = Some "failed to create SFTP client: sftp: subsystem request failed" /\
  In (EvSshClose 1%nat) (trace_of r) /\
  remote.sshClient c' = Some 1%nat /\
  remote.sftpClient c' = None /\
  value_of (remote.Stat X c' "/f" w') = Err remote.NotConnected /\
  snd (value_of (remote.ReadFile X c' "/f" w')) = Some remote.NotConnected /\
  error_message <$> snd (value_of (remote.RunCommand X c' "ls" w'))
    = Some "failed to create session: use of closed network connection" /\
  trace_of (remote.RunCommand X c' "ls" w') = [EvNewSession 1%nat].
Proof. vm_compute. repeat split. right. right. by left. Qed.

(** The value of [authMethods] after the explicit key file. *)
Lemma explicitKey_spec {W : Type} (X : Extern W) (c : remote.Client) (w : W) :
  remote.explicitKey X c w
  = match explicit_key X (remote.config c) w with
    | Some signer => [ssh_PublicKeys signer]
    | None => []
    end.
Proof.
  unfold remote.explicitKey, explicit_key, parseable_key.
  destruct (String.eqb_spec (remote.KeyFile (remote.config c)) "") as [E | E].
  - by rewrite decide_True.
  - rewrite decide_False by done.
    destruct (os_ReadFile W X w _) as [key |]; [| reflexivity].
    by destruct (ssh_ParsePrivateKey W X key).
Qed.

(** The loop over the default key files stops at the first parseable one. *)
Lemma defaultKeys_spec {W : Type} (X : Extern W) (w : W)
    (paths : list string) :
  remote.defaultKeys X w paths []
  = match head (omap (parseable_key X w) paths) with
    | Some signer => [ssh_PublicKeys signer]
    | None => []
    end.
Proof.
  induction paths as [| p rest IH]; simpl; [reflexivity |].
  unfold parseable_key at 1.
  destruct (os_ReadFile W X w p) as [key |]; [| exact IH].
  destruct (ssh_ParsePrivateKey W X key); [reflexivity | exact IH].
Qed.

(** Lines 40-78 of [Connect] build the candidates of the spec, in its
    order. *)
Lemma authMethods_spec {W : Type} (X : Extern W) (c : remote.Client) (w : W) :
  remote.authMethods X c w = candidate_methods X (remote.config c) w.
Proof.
  unfold remote.authMethods, candidate_methods, password_method.
  rewrite explicitKey_spec.
  assert (Hdef : remote.defaultKeys X w
                   (remote.keyPaths X (os_UserHomeDir W X w)) []
                 = match first_default_key X w with
                   | Some signer => [ssh_PublicKeys signer]
                   | None => []
                   end).
  { rewrite defaultKeys_spec. reflexivity. }
  destruct (explicit_key X (remote.config c) w) as [signer |]; cbn [length Nat.eqb].
  - destruct (String.eqb_spec (remote.Password (remote.config c)) "") as [E | E].
    + by rewrite decide_True.
    + by rewrite decide_False.
  - rewrite Hdef.
    destruct (String.eqb_spec (remote.Password (remote.config c)) "") as [E | E].
    + rewrite decide_True by done. by rewrite app_nil_r.
    + by rewrite decide_False.
Qed.

(** C4.  [Connect] dials with the candidate methods in the order explicit
    key, otherwise first parseable default key, then password.  With no
    usable explicit key and a non-empty password the dial is made and the
    password is the last method offered.  With no candidate at all
    [Connect] returns the AuthenticationUnavailable error, leaves client
    and world as they were and makes no call: it never dials. *)
Theorem Connect_authentication {W : Type} (X : Extern W)
    (c : remote.Client) (w : W) :
  let cfg := remote.config c in
  let auth := candidate_methods X cfg w in
  let dial := EvDial (remote.addr_of c)
                (mkClientConfig (remote.User cfg) auth ssh_InsecureIgnoreHostKey) in
  (auth = [] ->
   remote.Connect X c w = ((Some remote.AuthenticationUnavailable, c), w, [])) /\
  (auth <> [] ->
   exists t, trace_of (remote.Connect X c w) = dial :: t) /\
  (explicit_key X cfg w = None -> remote.Password cfg <> "" ->
   exists keys t,
     auth = (keys ++ [ssh_Password (remote.Password cfg)])%list /\
     keys = match first_default_key X w with
            | Some signer => [ssh_PublicKeys signer]
            | None => []
            end /\
     trace_of (remote.Connect X c w) = dial :: t).
Proof.
  intros cfg auth dial.
  assert (Hdial : auth <> [] ->
                  exists t, trace_of (remote.Connect X c w) = dial :: t).
  { intros Hne. unfold remote.Connect. rewrite bind_trace.
    unfold observe at 1 2 3. cbn [trace_of value_of world_of fst snd app].
    rewrite authMethods_spec. fold cfg auth.
    destruct auth as [| a rest] eqn:Ha; [done |].
    cbn [length Nat.eqb]. rewrite bind_trace, call_trace.
    eexists. reflexivity. }
  split; [| split; [exact Hdial |]].
  - intros Hnil. unfold remote.Connect, bind, observe.
    rewrite authMethods_spec. fold cfg auth. by rewrite Hnil.
  - intros Hkey Hpw.
    assert (Ha : auth = (match first_default_key X w with
                         | Some signer => [ssh_PublicKeys signer]
                         | None => []
                         end ++ [ssh_Password (remote.Password cfg)])%list).
    { unfold auth, candidate_methods, password_method.
      rewrite Hkey. by rewrite decide_False. }
    destruct Hdial as [t Ht].
    { rewrite Ha. by destruct (first_default_key X w). }
    eexists _, t. split; [exact Ha |]. split; [reflexivity | exact Ht].
Qed.

Lemma Connect_authentication_witness :
  (exists t,
     trace_of (remote.Connect (scripted bad_key_with_password) deck_bad_key [])
     = EvDial "steamdeck:22"
         (mkClientConfig "deck" [ssh_Password "secret"] ssh_InsecureIgnoreHostKey)
       :: t) /\
  remote.Connect (scripted bad_key_with_password) deck_no_credentials []
  = ((Some remote.AuthenticationUnavailable, deck_no_credentials), [], []).
Proof.
  split.
  - destruct (Connect_authentication (scripted bad_key_with_password)
                deck_bad_key []) as (_ & _ & H).
    destruct H as (keys & t & _ & _ & Ht).
    + vm_compute. reflexivity.
    + vm_compute. discriminate.
    + exists t. exact Ht.
  - destruct (Connect_authentication (scripted bad_key_with_password)
                deck_no_credentials []) as (H & _).
    apply H. vm_compute. reflexivity.
Defined.

Example Connect_password_fallback :
  let r := remote.Connect (scripted bad_key_with_password) deck_bad_key [] in
  fst (value_of r) = None /\
  remote.sshClient (snd (value_of r)) = Some 1%nat /\
  remote.sftpClient (snd (value_of r)) = Some 2%nat /\
  trace_of r
  = [EvDial "steamdeck:22"
       (mkClientConfig "deck" [ssh_Password "secret"] ssh_InsecureIgnoreHostKey);
     EvSftpNewClient 1%nat].
Proof. vm_compute. repeat split. Qed.

(* ===================================================================== *)
(** * pkg/steam: remote users *)
(* ===================================================================== *)

Lemma collectUsers_spec (files : list FileInfo) (users : list string) :
  steam.collectUsers files users
  = (users ++ map fi_Name (List.filter fi_IsDir files))%list.
Proof.
  revert users. induction files as [| f rest IH]; intros users; simpl.
  - by rewrite app_nil_r.
  - destruct (fi_IsDir f); simpl.
    + rewrite IH. by rewrite <- app_assoc.
    + apply IH.
Qed.

(** C9.  Whatever the listing of the userdata directory is, [GetRemoteUsers]
    returns the names of its directory entries, in listing order, and
    nothing else. *)
Theorem GetRemoteUsers_lists_directories {W : Type} (X : Extern W)
    (rc : remote.Client) (w : W) (userDir : string) (files : list FileInfo) :
  value_of (steam.GetRemoteUserDir X rc w) = Ok userDir ->
  value_of (remote.ReadDir X rc userDir
              (world_of (steam.GetRemoteUserDir X rc w))) = Ok files ->
  value_of (steam.GetRemoteUsers X rc w)
  = Ok (map fi_Name (List.filter fi_IsDir files)).
Proof.
  intros Hdir Hfiles. unfold steam.GetRemoteUsers.
  rewrite bind_value, Hdir, bind_value, Hfiles.
  cbn [ret value_of fst]. by rewrite collectUsers_spec.
Qed.

Lemma GetRemoteUsers_lists_directories_witness :
  value_of (steam.GetRemoteUsers (scripted userdata_listing) connected_deck [])
  = Ok ["1001"; "1002"].
Proof.
  apply (GetRemoteUsers_lists_directories (scripted userdata_listing)
           connected_deck [] "/home/deck/.steam/steam/userdata"
           [mkFileInfo "1001" true; mkFileInfo "ac.txt" false;
            mkFileInfo "1002" true]).
  - vm_compute. reflexivity.
  - vm_compute. reflexivity.
Defined.

(* ===================================================================== *)
(** * pkg/steamgriddb *)
(* ===================================================================== *)

(** C10.  [FetchArtworkConfig] returns a configuration and a nil error for
    every game id and every behaviour of the five fetches; each slot holds
    the URL of the first result of its fetch, and the empty string when the
    fetch fails or finds nothing.  The fetches run in the order portrait,
    landscape, hero, logo, icon, each in the world the previous one left. *)
Theorem FetchArtworkConfig_absorbs_failures {W : Type} (X : Extern W)
    (gameID : string) (w : W) :
  let r1 := sgdb_GetGrids W X gameID FilterGridVertical w in
  let r2 := sgdb_GetGrids W X gameID FilterGridHorizontal (snd r1) in
  let r3 := sgdb_GetHeroes W X gameID (snd r2) in
  let r4 := sgdb_GetLogos W X gameID (snd r3) in
  let r5 := sgdb_GetIcons W X gameID (snd r4) in
  value_of (steamgriddb.FetchArtworkConfig X gameID w)
  = (Some (steam.mkArtworkConfig (slot_url (fst r1)) (slot_url (fst r2))
             (slot_url (fst r3)) (slot_url (fst r4)) (slot_url (fst r5))),
     None).
Proof.
  intros r1 r2 r3 r4 r5.
  unfold steamgriddb.FetchArtworkConfig, bind, call, ret, value_of.
  subst r1 r2 r3 r4 r5.
  destruct (sgdb_GetGrids W X gameID FilterGridVertical w) as [a1 w1].
  cbn [fst snd].
  destruct (sgdb_GetGrids W X gameID FilterGridHorizontal w1) as [a2 w2].
  cbn [fst snd].
  destruct (sgdb_GetHeroes W X gameID w2) as [a3 w3]. cbn [fst snd].
  destruct (sgdb_GetLogos W X gameID w3) as [a4 w4]. cbn [fst snd].
  destruct (sgdb_GetIcons W X gameID w4) as [a5 w5]. cbn [fst snd].
  reflexivity.
Qed.

Example FetchArtworkConfig_partial :
  value_of (steamgriddb.FetchArtworkConfig (scripted partial_source) "42" [])
  = (Some (steam.mkArtworkConfig "" "" "https://img/hero.png" ""
             "https://img/icon.ico"), None).
Proof. vm_compute. reflexivity. Qed.

(* ===================================================================== *)
(** * pkg/steam: applying artwork *)
(* ===================================================================== *)

Section SetArtwork.
Context {W : Type} (X : Extern W) (script : string -> Z -> Z -> string).
Context (RemoteClient : option remote.Client) (appID : Z).

(** Both ways of applying an image start by downloading it. *)
Lemma uploadArtworkToGrid_downloads (url gridPath baseName : string) (w : W) :
  exists t,
    trace_of (steam.uploadArtworkToGrid X RemoteClient url gridPath baseName w)
    = EvHttpGet url :: t.
Proof.
  unfold steam.uploadArtworkToGrid. rewrite bind_trace, call_trace.
  eexists. reflexivity.
Qed.

Lemma SetArtworkViaCEF_downloads (url : string) (assetType : Z) (w : W) :
  exists t,
    trace_of (steam.SetArtworkViaCEF X script RemoteClient appID url assetType w)
    = EvHttpGet url :: t.
Proof.
  unfold steam.SetArtworkViaCEF. rewrite bind_trace, call_trace.
  eexists. reflexivity.
Qed.

(** A slot with a URL is attempted, whatever the world answers. *)
Lemma applyOne_attempts (canUseSteamAPI : bool)
    (gridPath url baseName : string) (assetType : Z) (w : W) :
  url <> "" ->
  In (EvHttpGet url)
     (trace_of (steam.applyOne X script RemoteClient appID canUseSteamAPI
                  gridPath url baseName assetType w)).
Proof.
  intros Hurl. unfold steam.applyOne.
  destruct (String.eqb_spec url "") as [E | _]; [done |].
  rewrite bind_trace. apply in_or_app.
  destruct canUseSteamAPI.
  - left. rewrite bind_trace. apply in_or_app. left.
    destruct (SetArtworkViaCEF_downloads url assetType w) as [t ->].
    by left.
  - right. cbn [ret value_of world_of fst snd negb].
    rewrite bind_trace. apply in_or_app. right.
    rewrite bind_trace. apply in_or_app. left.
    match goal with
    | |- In _ (trace_of (steam.uploadArtworkToGrid _ _ _ ?g ?b ?w')) =>
        destruct (uploadArtworkToGrid_downloads url g b w') as [t ->]
    end.
    by left.
Qed.

(** A failed upload of the filesystem method is logged. *)
Lemma applyOne_logs_upload_failure (gridPath url baseName : string)
    (assetType : Z) (w : W) (err : error) :
  url <> "" ->
  value_of (steam.uploadArtworkToGrid X RemoteClient url gridPath baseName
              (world_of (steam.mkdirAll X RemoteClient gridPath w)))
  = Some err ->
  In (EvPrint ("[ERROR] Failed to upload " ++ baseName ++ ": "
               ++ error_message err))
     (trace_of (steam.applyOne X script RemoteClient appID false
                  gridPath url baseName assetType w)).
Proof.
  intros Hurl Hup. unfold steam.applyOne.
  destruct (String.eqb_spec url "") as [E | _]; [done |].
  rewrite bind_trace. cbn [ret value_of world_of trace_of fst snd negb app].
  rewrite bind_trace. apply in_or_app. right.
  rewrite bind_trace. apply in_or_app. right.
  unfold value_of, world_of in *. rewrite Hup. by left.
Qed.

(** The only errors of [getGridPath]: no user, or, locally, the error of
    the user directory lookup. *)
Lemma getGridPath_errors (w : W) (e : error) :
  value_of (steam.getGridPath X RemoteClient w) = Err e ->
  e = steam.NoUsersFound \/
  (RemoteClient = None /\ exists w', fst (steam_GetUserDir W X w') = Err e).
Proof.
  unfold steam.getGridPath. destruct RemoteClient as [rc |].
  - rewrite bind_value.
    destruct (value_of (steam.GetRemoteUsers X rc w)) as [[| u us] | e'].
    + cbn. intros [= <-]. by left.
    + rewrite bind_value. cbn. discriminate.
    + cbn. intros [= <-]. by left.
  - rewrite bind_value, call_value.
    destruct (fst (steam_GetUsers W X w)) as [[| u us] | e'].
    + cbn. intros [= <-]. by left.
    + rewrite bind_value, call_value, call_world.
      destruct (fst (steam_GetUserDir W X _)) as [d | e'] eqn:Hd.
      * cbn. discriminate.
      * cbn. intros [= <-]. right. split; [reflexivity |]. eauto.
    + cbn. intros [= <-]. by left.
Qed.

Lemma failure_logged_mono (canUseSteamAPI : bool)
    (gridPath url baseName label : string) (assetType : Z) (w : W)
    (t t' : list Event) :
  (forall ev, In ev t -> In ev t') ->
  failure_logged X script RemoteClient appID canUseSteamAPI gridPath url
    baseName label assetType w t ->
  failure_logged X script RemoteClient appID canUseSteamAPI gridPath url
    baseName label assetType w t'.
Proof.
  intros Hsub [Hcef Hup]. split.
  - intros Hc err He. apply Hsub. by apply Hcef.
  - intros Hc err He. apply Hsub. by apply Hup.
Qed.

(** A slot with a URL logs its failures: the warning of a failed injection
    and the error of a failed upload. *)
Lemma applyOne_failure_logged (canUseSteamAPI : bool)
    (gridPath url baseName : string) (assetType : Z) (w : W) :
  url <> "" ->
  failure_logged X script RemoteClient appID canUseSteamAPI gridPath url
    baseName baseName assetType w
    (trace_of (steam.applyOne X script RemoteClient appID canUseSteamAPI
                 gridPath url baseName assetType w)).
Proof.
  intros Hurl. unfold failure_logged, steam.applyOne.
  destruct (String.eqb_spec url "") as [E | _]; [done |].
  unfold bind, Println, ret, value_of, world_of, trace_of.
  destruct canUseSteamAPI.
  - destruct (steam.SetArtworkViaCEF X script RemoteClient appID url
                assetType w) as [[[errc |] wc] tc]; cbn [fst snd negb].
    + destruct (steam.mkdirAll X RemoteClient gridPath wc) as [[em wm] tm].
      cbn [fst snd].
      destruct (steam.uploadArtworkToGrid X RemoteClient url gridPath
                  baseName wm) as [[[erru |] wu] tu]; cbn [fst snd].
      * split.
        -- intros _ err [= <-]. rewrite !in_app_iff. cbn. tauto.
        -- intros _ err [= <-]. rewrite !in_app_iff. cbn. tauto.
      * split.
        -- intros _ err [= <-]. rewrite !in_app_iff. cbn. tauto.
        -- intros _ err [=].
    + split.
      * intros _ err [=].
      * intros [[=] | Hne]; done.
  - cbn [fst snd negb].
    destruct (steam.mkdirAll X RemoteClient gridPath w) as [[em wm] tm].
    cbn [fst snd].
    destruct (steam.uploadArtworkToGrid X RemoteClient url gridPath
                baseName wm) as [[[erru |] wu] tu]; cbn [fst snd].
    + split; [intros [=] |].
      intros _ err [= <-]. rewrite !in_app_iff. cbn. tauto.
    + split; [intros [=] |]. intros _ err [=].
Qed.

(** The two information lines leave the world as it is. *)
Lemma info_lines_world (canUseSteamAPI : bool) (w : W) :
  world_of
    ((if negb canUseSteamAPI
      then bind (Println
                   "[INFO] Using filesystem method for artwork (static images only)")
             (fun _ =>
                Println
                  "[INFO] To enable animated WebP/GIF, install: pip install --user aiohttp")
      else ret tt) w) = w.
Proof. destruct canUseSteamAPI; reflexivity. Qed.

(** The upload of the icon logs its failure. *)
Lemma icon_failure_logged (gridPath icon : string) (w : W) :
  failure_logged X script RemoteClient appID false gridPath icon
    (pretty appID ++ "_icon") "icon" steam.AssetTypeIcon w
    (trace_of
       (bind (steam.mkdirAll X RemoteClient gridPath)
          (fun _ =>
             bind (steam.uploadArtworkToGrid X RemoteClient icon gridPath
                     (pretty appID ++ "_icon"))
               (fun e =>
                  match e with
                  | Some err =>
                      Println ("[ERROR] Failed to upload icon: "
                               ++ error_message err)
                  | None => ret tt
                  end)) w)).
Proof.
  unfold failure_logged, bind, Println, ret, value_of, world_of, trace_of.
  destruct (steam.mkdirAll X RemoteClient gridPath w) as [[em wm] tm].
  cbn [fst snd].
  destruct (steam.uploadArtworkToGrid X RemoteClient icon gridPath
              (pretty appID ++ "_icon") wm) as [[[erru |] wu] tu];
    cbn [fst snd].
  - split; [intros [=] |].
    intros _ err [= <-]. rewrite !in_app_iff. cbn. tauto.
  - split; [intros [=] |]. intros _ err [=].
Qed.

(** Once the grid directory is resolved, the failures of every slot are
    logged in the trace of [SetArtwork]. *)
Lemma SetArtwork_failures_logged (a : steam.ArtworkConfig) (w : W)
    (gridPath : string) :
  let check := steam.checkAiohttpAvailable X RemoteClient w in
  let grid := steam.getGridPath X RemoteClient (world_of check) in
  value_of grid = Ok gridPath ->
  failures_logged X script RemoteClient appID a (value_of check) gridPath
    (world_of grid)
    (trace_of (steam.SetArtwork X script RemoteClient appID (Some a) w)).
Proof.
  intros check grid Hg. unfold steam.SetArtwork.
  rewrite bind_trace. fold check.
  rewrite bind_trace. fold grid. rewrite Hg.
  rewrite bind_trace, info_lines_world.
  set (canUse := value_of check).
  set (w1 := world_of grid).
  unfold failures_logged. cbv zeta.
  set (s1 := steam.applyOne X script RemoteClient appID canUse gridPath
               (steam.GridPortrait a) _ _ w1).
  set (s2 := steam.applyOne X script RemoteClient appID canUse gridPath
               (steam.GridLandscape a) _ _ (world_of s1)).
  set (s3 := steam.applyOne X script RemoteClient appID canUse gridPath
               (steam.HeroImage a) _ _ (world_of s2)).
  set (s4 := steam.applyOne X script RemoteClient appID canUse gridPath
               (steam.LogoImage a) _ _ (world_of s3)).
  rewrite bind_trace. fold s1.
  rewrite bind_trace. fold s2.
  rewrite bind_trace. fold s3.
  rewrite bind_trace. fold s4.
  rewrite bind_trace.
  split; [| split; [| split; [| split]]].
  - intros Hne. eapply failure_logged_mono;
      [| exact (applyOne_failure_logged canUse gridPath _ _ _ w1 Hne)].
    fold s1. intros ev Hin. rewrite !in_app_iff. tauto.
  - intros Hne. eapply failure_logged_mono;
      [| exact (applyOne_failure_logged canUse gridPath _ _ _ (world_of s1) Hne)].
    fold s2. intros ev Hin. rewrite !in_app_iff. tauto.
  - intros Hne. eapply failure_logged_mono;
      [| exact (applyOne_failure_logged canUse gridPath _ _ _ (world_of s2) Hne)].
    fold s3. intros ev Hin. rewrite !in_app_iff. tauto.
  - intros Hne. eapply failure_logged_mono;
      [| exact (applyOne_failure_logged canUse gridPath _ _ _ (world_of s3) Hne)].
    fold s4. intros ev Hin. rewrite !in_app_iff. tauto.
  - intros Hne.
    destruct (String.eqb_spec (steam.IconImage a) "") as [E | _]; [done |].
    cbn [negb].
    eapply failure_logged_mono;
      [| exact (icon_failure_logged gridPath (steam.IconImage a) (world_of s4))].
    intros ev Hin. rewrite !in_app_iff. tauto.
Qed.

(** C7, as amended.  With the configuration absent [SetArtwork] returns
    nil and does nothing.  With a configuration it returns an error
    exactly when the grid directory cannot be resolved, the error wrapping
    that of [getGridPath]; once the directory is resolved the call returns
    nil whatever the slots do, every slot holding a URL is attempted, and
    every failure of a slot is logged: the warning of a failed injection
    and the error of a failed upload are printed, for each of the five
    slots in the world the previous slots left. *)
Theorem SetArtwork_fails_only_on_grid_path
    (artwork : option steam.ArtworkConfig) (w : W) :
  let run := steam.SetArtwork X script RemoteClient appID artwork w in
  let grid := steam.getGridPath X RemoteClient
                (world_of (steam.checkAiohttpAvailable X RemoteClient w)) in
  (artwork = None -> run = (None, w, [])) /\
  (forall a, artwork = Some a ->
     (value_of run <> None <-> exists e, value_of grid = Err e) /\
     (forall e, value_of grid = Err e ->
                value_of run = Some (wrap "failed to get grid path: " e)) /\
     (forall gridPath, value_of grid = Ok gridPath ->
        value_of run = None /\
        (forall url, In url (slots a) -> url <> "" ->
                     In (EvHttpGet url) (trace_of run)) /\
        failures_logged X script RemoteClient appID a
          (value_of (steam.checkAiohttpAvailable X RemoteClient w))
          gridPath (world_of grid) (trace_of run))).
Proof.
  intros run grid. split.
  - intros ->. reflexivity.
  - intros a ->.
    assert (Herr : forall e, value_of grid = Err e ->
              value_of run = Some (wrap "failed to get grid path: " e)).
    { intros e He. subst run grid. unfold steam.SetArtwork.
      rewrite bind_value, bind_value, He. reflexivity. }
    assert (Hok : forall gridPath, value_of grid = Ok gridPath ->
              value_of run = None /\
              forall url, In url (slots a) -> url <> "" ->
                          In (EvHttpGet url) (trace_of run)).
    { intros gridPath Hg. subst run grid. unfold steam.SetArtwork. split.
      - rewrite bind_value, bind_value, Hg. rewrite !bind_value. reflexivity.
      - intros url Hin Hurl.
        rewrite bind_trace. apply in_or_app. right.
        rewrite bind_trace. apply in_or_app. right. rewrite Hg.
        rewrite bind_trace. apply in_or_app. right.
        unfold slots in Hin. cbn [In] in Hin.
        destruct Hin as [<- | [<- | [<- | [<- | [<- | []]]]]].
        + rewrite bind_trace. apply in_or_app. left.
          by apply applyOne_attempts.
        + rewrite bind_trace. apply in_or_app. right.
          rewrite bind_trace. apply in_or_app. left.
          by apply applyOne_attempts.
        + do 2 (rewrite bind_trace; apply in_or_app; right).
          rewrite bind_trace. apply in_or_app. left.
          by apply applyOne_attempts.
        + do 3 (rewrite bind_trace; apply in_or_app; right).
          rewrite bind_trace. apply in_or_app. left.
          by apply applyOne_attempts.
        + do 4 (rewrite bind_trace; apply in_or_app; right).
          rewrite bind_trace. apply in_or_app. left.
          destruct (String.eqb_spec (steam.IconImage a) "") as [E | _]; [done |].
          cbn [negb].
          rewrite bind_trace. apply in_or_app. right.
          rewrite bind_trace. apply in_or_app. left.
          match goal with
          | |- In _ (trace_of (steam.uploadArtworkToGrid _ _ _ ?g ?b ?w')) =>
              destruct (uploadArtworkToGrid_downloads (steam.IconImage a) g b w')
                as [t ->]
          end.
          by left. }
    split; [| split; [exact Herr |]].
    + split.
      * intros Hrun. destruct (value_of grid) as [p | e] eqn:Hg; [| eauto].
        destruct (Hok p eq_refl) as [Hnone _]. done.
      * intros [e He]. rewrite (Herr e He). discriminate.
    + intros gridPath Hg. destruct (Hok gridPath Hg) as [Hnone Hslots].
      split; [exact Hnone |]. split; [exact Hslots |].
      subst run grid. by apply SetArtwork_failures_logged.
Qed.

End SetArtwork.

Lemma SetArtwork_fails_only_on_grid_path_witness :
  let run := steam.SetArtwork (scripted local_no_network) no_script None 7
               (Some four_of_five) [] in
  value_of run = None /\
  In (EvHttpGet "http://img/h.png") (trace_of run) /\
  In (EvPrint "[ERROR] Failed to upload 7_hero: failed to download artwork: no such host")
     (trace_of run) /\
  In (EvPrint "[ERROR] Failed to upload icon: failed to download artwork: no such host")
     (trace_of run) /\
  steam.SetArtwork (scripted offline) no_script None 7 None [] = (None, [], []) /\
  value_of (steam.SetArtwork (scripted offline) no_script None 7
              (Some four_of_five) [])
  = Some (wrap "failed to get grid path: " steam.NoUsersFound).
Proof.
  destruct (SetArtwork_fails_only_on_grid_path (scripted local_no_network)
              no_script None 7 (Some four_of_five) []) as [_ Hsome].
  destruct (Hsome four_of_five eq_refl) as (_ & _ & Hok).
  destruct (Hok "/home/user/.steam/steam/userdata/1001/config/grid")
    as (Hnone & Hslots & Hlog).
  { vm_compute. reflexivity. }
  destruct Hlog as (_ & _ & Hhero & _ & Hicon).
  destruct (SetArtwork_fails_only_on_grid_path (scripted offline)
              no_script None 7 None []) as [Habsent _].
  destruct (SetArtwork_fails_only_on_grid_path (scripted offline)
              no_script None 7 (Some four_of_five) []) as [_ Hsome'].
  destruct (Hsome' four_of_five eq_refl) as (_ & Herr & _).
  split; [exact Hnone |]. split; [| split; [| split; [| split]]].
  - apply Hslots; [vm_compute; tauto | discriminate].
  - destruct Hhero as [_ Hup]; [discriminate |].
    apply (Hup (or_introl eq_refl)
             (wrap "failed to download artwork: " (LibError "no such host"))).
    vm_compute. reflexivity.
  - destruct Hicon as [_ Hup]; [discriminate |].
    apply (Hup (or_introl eq_refl)
             (wrap "failed to download artwork: " (LibError "no such host"))).
    vm_compute. reflexivity.
  - apply Habsent. reflexivity.
  - apply Herr. vm_compute. reflexivity.
Defined.

(** Four of five slots filled, no capability, every download failing: the
    four slots are attempted in order, each failure is logged, and the call
    returns nil. *)
Example SetArtwork_all_downloads_fail :
  let run := steam.SetArtwork (scripted local_no_network) no_script None 7
               (Some four_of_five) [] in
  value_of run = None /\
  List.filter (fun ev => match ev with
                         | EvHttpGet _ | EvPrint _ => true
                         | _ => false
                         end) (trace_of run)
  = [EvPrint "[INFO] Using filesystem method for artwork (static images only)";
     EvPrint "[INFO] To enable animated WebP/GIF, install: pip install --user aiohttp";
     EvHttpGet "http://img/p.png";
     EvPrint "[ERROR] Failed to upload 7p: failed to download artwork: no such host";
     EvHttpGet "http://img/l.png";
     EvPrint "[ERROR] Failed to upload 7: failed to download artwork: no such host";
     EvHttpGet "http://img/h.png";
     EvPrint "[ERROR] Failed to upload 7_hero: failed to download artwork: no such host";
     EvHttpGet "http://img/i.png";
     EvPrint "[ERROR] Failed to upload icon: failed to download artwork: no such host"].
Proof. vm_compute. split; reflexivity. Qed.

(** C7 as stated fails: with the configuration absent [SetArtwork] returns
    nil, not an error. *)
Lemma SetArtwork_absent_config_counterexample :
  ~ SetArtwork_fails_iff_precondition (scripted offline) no_script.
Proof.
  intros H.
  destruct (H None 7 None []) as [_ Hback].
  apply Hback; [by left | reflexivity].
Qed.

(* ===================================================================== *)
(** * pkg/shortcut: what the encode step produces *)
(* ===================================================================== *)

Lemma value_size_lookup (m : gmap string Value) (k : string) (x : Value) :
  m !! k = Some x -> (value_size x < value_size (VMap m))%nat.
Proof.
  intros Hk. cbn [value_size].
  rewrite <- (insert_delete_id m k x Hk).
  rewrite map_fold_insert_L.
  - lia.
  - intros. lia.
  - apply lookup_delete_eq.
Qed.

(** Induction on values through the entries of mappings. *)
Lemma Value_map_ind (P : Value -> Prop) :
  (forall v, (forall m, v = VMap m -> map_Forall (fun _ x => P x) m) -> P v) ->
  forall v, P v.
Proof.
  intros H v. remember (value_size v) as n eqn:Hn.
  revert v Hn. induction n as [n IH] using lt_wf_ind. intros v Hn.
  apply H. intros m -> k x Hk. apply (IH (value_size x)); [| reflexivity].
  subst n. by apply (value_size_lookup m k).
Qed.

Lemma uint32_of_int_range (z : Z) : 0 <= uint32_of_int z < 2 ^ 32.
Proof.
  unfold uint32_of_int. rewrite Z.land_ones by lia.
  apply Z.mod_pos_bound. lia.
Qed.

Lemma uint32_of_float64_range u (f : float64) :
  0 <= uint32_of_float64 u f < 2 ^ 32.
Proof.
  unfold uint32_of_float64.
  destruct (float64_trunc f) as [z |]; [| apply uint32_of_int_range].
  destruct (Z.leb_spec 0 z); [| apply uint32_of_int_range].
  destruct (Z.ltb_spec z (2 ^ 32)); [| apply uint32_of_int_range].
  cbn [andb]. lia.
Qed.

Lemma ensureVDFValue_vdf_value u (v x : Value) :
  shortcut.ensureVDFValue u v = Some x -> vdf_value x.
Proof.
  revert x. induction v as [v IH] using Value_map_ind. intros x Hx.
  destruct v; cbn [shortcut.ensureVDFValue] in Hx; try discriminate Hx;
    injection Hx as <-.
  - constructor. apply uint32_of_int_range.
  - constructor. apply uint32_of_int_range.
  - constructor. apply uint32_of_float64_range.
  - constructor.
  - constructor. intros k y Hy. rewrite lookup_omap in Hy.
    destruct (m !! k) as [v' |] eqn:Hk; [| discriminate Hy].
    cbn in Hy. exact (IH m eq_refl k v' Hk y Hy).
Qed.

(** First listing, lines 71-93.  Whatever the pivot map holds, every value
    of the map [ensureVDFMap] returns is something the binary format can
    hold: an integer of the uint32 range, a string, or a mapping of such
    values, at every depth. *)
Theorem ensureVDFMap_encodable u (m : gmap string Value) :
  vdf_value (VMap (shortcut.ensureVDFMap u m)).
Proof.
  apply (ensureVDFValue_vdf_value u (VMap m)). reflexivity.
Qed.

(** First listing, lines 79-82.  An [int] or [int64] outside the uint32
    range is not rejected: it is stored reduced modulo 2^32, so -1 becomes
    4294967295. *)
Theorem ensureVDFMap_wraps_integers u (m : gmap string Value) (k : string)
    (z : Z) :
  shortcut.ensureVDFMap u (<[k := VInt z]> m) !! k
    = Some (VUint32 (z mod 2 ^ 32)) /\
  shortcut.ensureVDFMap u (<[k := VInt64 z]> m) !! k
    = Some (VUint32 (z mod 2 ^ 32)) /\
  shortcut.ensureVDFMap u (<[k := VInt (-1)]> m) !! k
    = Some (VUint32 4294967295).
Proof.
  unfold shortcut.ensureVDFMap. rewrite !lookup_omap, !lookup_insert_eq.
  cbn. unfold uint32_of_int. rewrite Z.land_ones by lia.
  repeat split.
Qed.

(** First listing, lines 83-84.  A float64 with a fractional part is not
    dropped: when its integer part is in the uint32 range it is stored
    truncated toward zero. *)
Theorem ensureVDFMap_truncates_fractions u (m : gmap string Value)
    (k : string) (f : float64) (z : Z) :
  float64_whole f = false ->
  float64_trunc f = Some z -> 0 <= z < 2 ^ 32 ->
  shortcut.ensureVDFMap u (<[k := VFloat64 f]> m) !! k = Some (VUint32 z).
Proof.
  intros _ Hf Hz. unfold shortcut.ensureVDFMap.
  rewrite lookup_omap, lookup_insert_eq. cbn.
  by rewrite (uint32_of_float64_exact u f z Hz Hf).
Qed.

Lemma ensureVDFMap_truncates_fractions_witness :
  shortcut.ensureVDFMap (fun _ => 0)
    (<["LastPlayTime" := VFloat64 (S754_finite false 5 (-1))]> ∅)
    !! "LastPlayTime" = Some (VUint32 2).
Proof.
  apply (ensureVDFMap_truncates_fractions (fun _ => 0) ∅ "LastPlayTime"
           (S754_finite false 5 (-1)) 2).
  - vm_compute. reflexivity.
  - vm_compute. reflexivity.
  - lia.
Defined.

Lemma ensureVDFValue_remote_is_Some u (v : Value) :
  is_Some (shortcut_remote.ensureVDFValue u v) <-> int_free v.
Proof.
  induction v as [v IH] using Value_map_ind.
  destruct v; cbn [shortcut_remote.ensureVDFValue];
    try (split; [intros _; constructor | intros _; eexists; reflexivity]).
  - split; [intros [x Hx]; discriminate Hx | intros H; inversion H].
  - split; [intros [x Hx]; discriminate Hx | intros H; inversion H].
  - specialize (IH m eq_refl).
    destruct (decide (map_Forall (fun _ o => is_Some o)
                        (shortcut_remote.ensureVDFValue u <$> m)))
      as [Hall | Hnot].
    + split; [| intros _; eexists; reflexivity].
      intros _. constructor. intros k x Hk. apply (IH k x Hk).
      apply (Hall k). by rewrite lookup_fmap, Hk.
    + split; [intros [x Hx]; discriminate Hx |].
      intros H. inversion H as [| | | | | | m' Hm]; subst.
      exfalso. apply Hnot. intros k o Ho. rewrite lookup_fmap in Ho.
      destruct (m !! k) as [x |] eqn:Hk; [| discriminate Ho].
      injection Ho as <-. apply (IH k x Hk). by apply (Hm k).
Qed.

(** Remote-aware listing, lines 190-205.  [ensureVDFMap] returns (does not
    panic) exactly when no [int] and no [int64] sits in the map or in a
    mapping nested in it; in particular it returns on everything
    [encoding/json] decodes. *)
Theorem ensureVDFMap_remote_returns_iff u (m : gmap string Value) :
  is_Some (shortcut_remote.ensureVDFMap u m) <->
  map_Forall (fun _ x => int_free x) m.
Proof.
  pose proof (ensureVDFValue_remote_is_Some u (VMap m)) as H.
  cbn [shortcut_remote.ensureVDFValue] in H. unfold shortcut_remote.ensureVDFMap.
  destruct (decide (map_Forall (fun _ o => is_Some o)
                      (shortcut_remote.ensureVDFValue u <$> m))) as [Hall | Hnot].
  - split; [| intros _; eexists; reflexivity].
    intros _. destruct H as [H _].
    specialize (H (ltac:(eexists; reflexivity))).
    by inversion H.
  - split; [intros [x Hx]; discriminate Hx |].
    intros Hm. destruct H as [_ H].
    destruct (H (int_free_map m Hm)) as [x Hx]. discriminate Hx.
Qed.

(** Remote-aware listing, lines 190-205.  When [ensureVDFMap] returns, the
    result has exactly the keys of the input: nothing is dropped, a null
    value, a boolean, a string and a list stay as they are. *)
Theorem ensureVDFMap_remote_keeps_every_key u (m m' : gmap string Value) :
  shortcut_remote.ensureVDFMap u m = Some m' ->
  dom m' = dom m /\
  (forall k v, m !! k = Some v ->
     match v with
     | VNil | VBool _ | VString _ | VList _ => m' !! k = Some v
     | _ => is_Some (m' !! k)
     end).
Proof.
  unfold shortcut_remote.ensureVDFMap.
  destruct (decide (map_Forall (fun _ o => is_Some o)
                      (shortcut_remote.ensureVDFValue u <$> m))) as [Hall | Hnot];
    [| discriminate].
  intros [= <-].
  assert (Hlook : forall k, omap id (shortcut_remote.ensureVDFValue u <$> m) !! k
                            = m !! k ≫= shortcut_remote.ensureVDFValue u).
  { intros k. rewrite lookup_omap, lookup_fmap. by destruct (m !! k). }
  split.
  - apply set_eq. intros k. rewrite !elem_of_dom, Hlook.
    destruct (m !! k) as [v |] eqn:Hk; cbn.
    + split; [eauto |]. intros _. apply (Hall k). by rewrite lookup_fmap, Hk.
    + split; intros [x Hx]; discriminate Hx.
  - intros k v Hk. rewrite Hlook, Hk. cbn.
    assert (Hs : is_Some (shortcut_remote.ensureVDFValue u v)).
    { apply (Hall k). by rewrite lookup_fmap, Hk. }
    destruct v; cbn [shortcut_remote.ensureVDFValue] in *; try done.
Qed.

Lemma ensureVDFMap_remote_keeps_every_key_witness :
  ({[ "exe" := VString "/bin/game"; "icon" := VNil ]} : gmap string Value)
    !! "icon" = Some VNil.
Proof.
  destruct (ensureVDFMap_remote_keeps_every_key (fun _ => 0)
              {[ "exe" := VString "/bin/game"; "icon" := VNil ]}
              {[ "exe" := VString "/bin/game"; "icon" := VNil ]})
    as [_ Hkeep].
  - vm_compute. reflexivity.
  - apply (Hkeep "icon" VNil). vm_compute. reflexivity.
Defined.

(* ===================================================================== *)
(** * pkg/remote: the operations one by one *)
(* ===================================================================== *)

Section RemoteOperations.
Context {W : Type} (X : Extern W).

(** Lines 119-122, 134-137, 158-161, 166-169, 174-177, 180-183, 188-191.
    On a client without SFTP handle the file operations report "not
    connected", and on a client without transport handle so does
    [RunCommand]; none of them makes a call or changes the world. *)
Theorem not_connected_makes_no_call (c : remote.Client) (w : W)
    (remotePath command : string) (data : bytes) (perm : Z) :
  (remote.sftpClient c = None ->
   remote.ReadFile X c remotePath w = (("", Some remote.NotConnected), w, []) /\
   remote.WriteFile X c remotePath data perm w
     = (Some remote.NotConnected, w, []) /\
   remote.Stat X c remotePath w = (Err remote.NotConnected, w, []) /\
   remote.ReadDir X c remotePath w = (Err remote.NotConnected, w, []) /\
   remote.GetHomeDir X c w = (Err remote.NotConnected, w, []) /\
   remote.FileExists X c remotePath w = (false, w, [])) /\
  (remote.sshClient c = None ->
   remote.RunCommand X c command w = (("", Some remote.NotConnected), w, [])).
Proof.
  split.
  - intros Hs.
    unfold remote.ReadFile, remote.WriteFile, remote.FileExists, remote.Stat,
      remote.ReadDir, remote.GetHomeDir.
    rewrite Hs. repeat split.
  - intros Hh. unfold remote.RunCommand. by rewrite Hh.
Qed.

(** Lines 31-36 and 90-91.  A client built with the port left at zero
    dials port 22 of its host. *)
Theorem NewClient_dials_port_22 (cfg : remote.Config) (w : W) :
  remote.Port cfg = 0 -> remote.Password cfg <> "" ->
  exists sshConfig t,
    trace_of (remote.Connect X (remote.NewClient cfg) w)
    = EvDial (remote.Host cfg ++ ":22") sshConfig :: t.
Proof.
  intros Hport Hpw.
  unfold remote.Connect. rewrite bind_trace.
  unfold observe at 1 2 3. cbn [trace_of value_of world_of fst snd app].
  assert (Hauth : remote.authMethods X (remote.NewClient cfg) w <> []).
  { unfold remote.authMethods, remote.NewClient.
    rewrite Hport. cbn [Z.eqb remote.config remote.Password].
    destruct (String.eqb_spec (remote.Password cfg) "") as [E | _]; [done |].
    intros E. by apply app_eq_nil in E as [_ E]. }
  destruct (remote.authMethods X (remote.NewClient cfg) w) as [| a rest] eqn:Ha;
    [done |].
  cbn [length Nat.eqb]. rewrite bind_trace, call_trace.
  eexists _, _. cbn [app]. f_equal. f_equal.
  unfold remote.addr_of, remote.NewClient. rewrite Hport. reflexivity.
Qed.

(** Lines 91-104.  When the dial and the SFTP session both succeed,
    [Connect] returns nil with both handles stored and the configuration
    untouched, having made these two calls only. *)
Theorem Connect_success (c : remote.Client) (w w1 w2 : W)
    (h : ssh_Client) (s : sftp_Client) :
  let auth := remote.authMethods X c w in
  let cfg := mkClientConfig (remote.User (remote.config c)) auth
               ssh_InsecureIgnoreHostKey in
  auth <> [] ->
  ssh_Dial W X (remote.addr_of c) cfg w = (Ok h, w1) ->
  sftp_NewClient W X h w1 = (Ok s, w2) ->
  remote.Connect X c w
  = ((None, remote.mkClient (remote.config c) (Some h) (Some s)), w2,
     [EvDial (remote.addr_of c) cfg; EvSftpNewClient h]).
Proof.
  intros auth cfg Hauth Hdial Hsftp.
  unfold remote.Connect, bind, observe.
  change (remote.authMethods X c w) with auth.
  destruct (length auth =? 0)%nat eqn:Hl.
  { destruct auth; [done | discriminate Hl]. }
  unfold call. fold cfg. rewrite Hdial. cbn. rewrite Hsftp. reflexivity.
Qed.

(** Lines 91-94.  When the dial fails, [Connect] returns the error wrapped
    with the address, leaves the client as it was, and neither opens an
    SFTP session nor closes anything. *)
Theorem Connect_dial_failure (c : remote.Client) (w w1 : W) (e : error) :
  let auth := remote.authMethods X c w in
  let cfg := mkClientConfig (remote.User (remote.config c)) auth
               ssh_InsecureIgnoreHostKey in
  auth <> [] ->
  ssh_Dial W X (remote.addr_of c) cfg w = (Err e, w1) ->
  remote.Connect X c w
  = ((Some (wrap ("failed to connect to " ++ remote.addr_of c ++ ": ") e), c),
     w1, [EvDial (remote.addr_of c) cfg]).
Proof.
  intros auth cfg Hauth Hdial.
  unfold remote.Connect, bind, observe.
  change (remote.authMethods X c w) with auth.
  destruct (length auth =? 0)%nat eqn:Hl.
  { destruct auth; [done | discriminate Hl]. }
  unfold call. fold cfg. rewrite Hdial. reflexivity.
Qed.

(** Lines 108-116.  [Close] returns nil whatever the two closes answer; it
    closes the SFTP session first and the transport second, each only if
    its handle is stored. *)
Theorem Close_order (c : remote.Client) (w : W) :
  value_of (remote.Close X c w) = None /\
  trace_of (remote.Close X c w)
  = (match remote.sftpClient c with
     | Some s => [EvSftpClose s]
     | None => []
     end ++
     match remote.sshClient c with
     | Some h => [EvSshClose h]
     | None => []
     end)%list.
Proof.
  unfold remote.Close. rewrite !bind_value, !bind_trace. split; [reflexivity |].
  destruct (remote.sftpClient c) as [s |], (remote.sshClient c) as [h |];
    rewrite ?bind_trace, ?call_trace; reflexivity.
Qed.

(** Lines 124-130.  With the SFTP handle stored, [ReadFile] opens the file;
    if that fails it returns the error wrapped with the path and reads
    nothing; otherwise it returns what [io.ReadAll] returns, data and
    error, and closes the file once, after the read. *)
Theorem ReadFile_closes_file (c : remote.Client) (s : sftp_Client)
    (remotePath : string) (w : W) :
  remote.sftpClient c = Some s ->
  match sftp_Open W X s remotePath w with
  | (Err e, w1) =>
      remote.ReadFile X c remotePath w
      = (("", Some (wrap ("failed to open remote file " ++ remotePath ++ ": ") e)),
         w1, [EvSftp s "Open" remotePath])
  | (Ok file, w1) =>
      value_of (remote.ReadFile X c remotePath w)
        = fst (file_ReadAll W X file w1) /\
      trace_of (remote.ReadFile X c remotePath w)
        = [EvSftp s "Open" remotePath; EvFile file "ReadAll";
           EvFile file "Close"]
  end.
Proof.
  intros Hs. unfold remote.ReadFile. rewrite Hs. unfold bind, call.
  destruct (sftp_Open W X s remotePath w) as [[file | e] w1]; [| reflexivity].
  destruct (file_ReadAll W X file w1) as [out w2].
  destruct (file_Close W X file w2) as [e' w3]. split; reflexivity.
Qed.

(** Lines 139-154.  With the SFTP handle stored and the file created,
    [WriteFile] closes the file exactly once, as its last call, whether the
    write and the chmod succeed or not; a failed write skips the chmod; the
    answer of [MkdirAll] is not looked at. *)
Theorem WriteFile_closes_file (c : remote.Client) (s : sftp_Client)
    (remotePath : string) (data : bytes) (perm : Z) (w w2 : W)
    (file : sftp_File) :
  let dir := path_Dir W X remotePath in
  remote.sftpClient c = Some s ->
  sftp_Create W X s remotePath (snd (sftp_MkdirAll W X s dir w)) = (Ok file, w2) ->
  match fst (file_Write W X file data w2) with
  | Some e =>
      value_of (remote.WriteFile X c remotePath data perm w)
        = Some (wrap ("failed to write to remote file " ++ remotePath ++ ": ") e) /\
      trace_of (remote.WriteFile X c remotePath data perm w)
        = [EvSftp s "MkdirAll" dir; EvSftp s "Create" remotePath;
           EvFile file "Write"; EvFile file "Close"]
  | None =>
      value_of (remote.WriteFile X c remotePath data perm w)
        = fst (sftp_Chmod W X s remotePath perm
                 (snd (file_Write W X file data w2))) /\
      trace_of (remote.WriteFile X c remotePath data perm w)
        = [EvSftp s "MkdirAll" dir; EvSftp s "Create" remotePath;
           EvFile file "Write"; EvSftp s "Chmod" remotePath;
           EvFile file "Close"]
  end.
Proof.
  intros dir Hs Hcreate. unfold remote.WriteFile. rewrite Hs.
  fold dir. unfold bind, call.
  destruct (sftp_MkdirAll W X s dir w) as [e0 w1]. cbn [snd] in Hcreate.
  rewrite Hcreate.
  destruct (file_Write W X file data w2) as [[e |] w3]; cbn [fst snd].
  - destruct (file_Close W X file w3) as [e' w4]. split; reflexivity.
  - destruct (sftp_Chmod W X s remotePath perm w3) as [e1 w4].
    destruct (file_Close W X file w4) as [e' w5]. split; reflexivity.
Qed.

(** Lines 193-199.  With the transport handle stored and a session
    granted, [RunCommand] returns the output and the error of the command
    as they are and closes the session once, after the command, also when
    the command failed. *)
Theorem RunCommand_closes_session (c : remote.Client) (h : ssh_Client)
    (command : string) (w w1 : W) (session : ssh_Session) :
  remote.sshClient c = Some h ->
  ssh_NewSession W X h w = (Ok session, w1) ->
  value_of (remote.RunCommand X c command w)
    = fst (session_CombinedOutput W X session command w1) /\
  trace_of (remote.RunCommand X c command w)
    = [EvNewSession h; EvSessionRun session command; EvSessionClose session].
Proof.
  intros Hh Hnew. unfold remote.RunCommand. rewrite Hh. unfold bind, call.
  rewrite Hnew.
  destruct (session_CombinedOutput W X session command w1) as [out w2].
  destruct (session_Close W X session w2) as [e w3]. split; reflexivity.
Qed.

End RemoteOperations.

Lemma not_connected_makes_no_call_witness :
  remote.Stat (scripted all_up) fresh_deck "/etc/hosts" []
    = (Err remote.NotConnected, [], []) /\
  remote.RunCommand (scripted all_up) fresh_deck "ls" []
    = (("", Some remote.NotConnected), [], []).
Proof.
  destruct (not_connected_makes_no_call (scripted all_up) fresh_deck []
              "/etc/hosts" "ls" "" 0) as [Hsftp Hssh].
  split.
  - apply Hsftp. reflexivity.
  - apply Hssh. reflexivity.
Defined.

Lemma NewClient_dials_port_22_witness :
  exists sshConfig t,
    trace_of (remote.Connect (scripted all_up) deck [])
    = EvDial "steamdeck:22" sshConfig :: t.
Proof.
  apply (NewClient_dials_port_22 (scripted all_up)
           (remote.mkConfig "steamdeck" 0 "deck" "secret" "") []).
  - reflexivity.
  - discriminate.
Defined.

Lemma Connect_success_witness :
  remote.Connect (scripted all_up) deck []
  = ((None, remote.mkClient (remote.config deck) (Some 1%nat) (Some 2%nat)), [],
     [EvDial "steamdeck:22"
        (mkClientConfig "deck" [ssh_PublicKeys 11%nat; ssh_Password "secret"]
           ssh_InsecureIgnoreHostKey);
      EvSftpNewClient 1%nat]).
Proof.
  apply (Connect_success (scripted all_up) deck [] [] [] 1%nat 2%nat).
  - vm_compute. discriminate.
  - vm_compute. reflexivity.
  - vm_compute. reflexivity.
Defined.

Lemma Connect_dial_failure_witness :
  remote.Connect (scripted offline) deck []
  = ((Some (Errorf "failed to connect to steamdeck:22: dial tcp: connection refused"
              (Some (LibError "dial tcp: connection refused"))), deck), [],
     [EvDial "steamdeck:22"
        (mkClientConfig "deck" [ssh_Password "secret"] ssh_InsecureIgnoreHostKey)]).
Proof.
  apply (Connect_dial_failure (scripted offline) deck [] []
           (LibError "dial tcp: connection refused")).
  - vm_compute. discriminate.
  - vm_compute. reflexivity.
Defined.

Lemma ReadFile_closes_file_witness :
  value_of (remote.ReadFile (with_remote_files all_up) connected_deck
              "/etc/hosts" [])
    = ("127.0.0.1 localhost", None) /\
  trace_of (remote.ReadFile (with_remote_files all_up) connected_deck
              "/etc/hosts" [])
    = [EvSftp 2%nat "Open" "/etc/hosts"; EvFile 5%nat "ReadAll";
       EvFile 5%nat "Close"].
Proof.
  apply (ReadFile_closes_file (with_remote_files all_up) connected_deck 2%nat
           "/etc/hosts" []).
  reflexivity.
Defined.

Lemma WriteFile_closes_file_witness :
  trace_of (remote.WriteFile (with_remote_files all_up) connected_deck
              "/home/deck/a.vdf" "data" 438 [])
  = [EvSftp 2%nat "MkdirAll" "/home/deck/a.vdf";
     EvSftp 2%nat "Create" "/home/deck/a.vdf";
     EvFile 6%nat "Write"; EvSftp 2%nat "Chmod" "/home/deck/a.vdf";
     EvFile 6%nat "Close"].
Proof.
  apply (WriteFile_closes_file (with_remote_files all_up) connected_deck 2%nat
           "/home/deck/a.vdf" "data" 438 [] [] 6%nat).
  - reflexivity.
  - vm_compute. reflexivity.
Defined.

Lemma RunCommand_closes_session_witness :
  trace_of (remote.RunCommand (scripted all_up) connected_deck "ls" [])
  = [EvNewSession 1%nat; EvSessionRun 7%nat "ls"; EvSessionClose 7%nat].
Proof.
  apply (RunCommand_closes_session (scripted all_up) connected_deck 1%nat
           "ls" [] [] 7%nat).
  - reflexivity.
  - vm_compute. reflexivity.
Defined.

(* ===================================================================== *)
(** * pkg/steam: commands, paths and downloads *)
(* ===================================================================== *)

Lemma append_assoc (a b c : string) : ((a ++ b) ++ c = a ++ (b ++ c))%string.
Proof.
  induction a as [| x a IH]; [reflexivity |].
  change (String x ((a ++ b) ++ c) = String x (a ++ (b ++ c)))%string.
  f_equal. exact IH.
Qed.

Lemma joinArgs_concat (cmdStr : string) (args : list string) :
  steam.joinArgs cmdStr args = String.concat " " (cmdStr :: args).
Proof.
  revert cmdStr. induction args as [| arg rest IH]; intros cmdStr.
  - reflexivity.
  - cbn [steam.joinArgs]. rewrite IH.
    destruct rest as [| r rest']; cbn [String.concat].
    + reflexivity.
    + rewrite append_assoc. reflexivity.
Qed.

Section SteamHelpers.
Context {W : Type} (X : Extern W).

(** Lines 277-285 of artwork.go.  In remote mode [runCommand] sends one
    command line: the name and the arguments separated by single spaces,
    without quoting, followed by [ 2>&1]; with a session granted that is
    the command the session runs. *)
Theorem runCommand_remote_command_line (rc : remote.Client) (h : ssh_Client)
    (name : string) (args : list string) (w w1 : W) (session : ssh_Session) :
  remote.sshClient rc = Some h ->
  ssh_NewSession W X h w = (Ok session, w1) ->
  trace_of (steam.runCommand X (Some rc) name args w)
  = [EvNewSession h;
     EvSessionRun session (String.concat " " (name :: args) ++ " 2>&1");
     EvSessionClose session].
Proof.
  intros Hh Hnew. unfold steam.runCommand, remote.RunCommand.
  rewrite Hh. unfold bind, call. rewrite Hnew, joinArgs_concat.
  destruct (session_CombinedOutput W X session _ w1) as [out w2].
  destruct (session_Close W X session w2) as [e w3]. reflexivity.
Qed.

(** Lines 232-240 of artwork.go.  In remote mode [getGridPath] fails with
    NoUsersFound when the users cannot be listed or the list is empty;
    otherwise it succeeds with the grid directory of the first user listed,
    under the remote userdata directory, or under the empty path when that
    directory cannot be resolved the second time. *)
Theorem getGridPath_remote_first_user (rc : remote.Client) (w : W) :
  let users := steam.GetRemoteUsers X rc w in
  match value_of users with
  | Ok (user0 :: _) =>
      let dir := steam.GetRemoteUserDir X rc (world_of users) in
      value_of (steam.getGridPath X (Some rc) w)
      = Ok (path_Join W X
              [match value_of dir with Ok d => d | Err _ => "" end;
               user0; "config"; "grid"])
  | Ok [] | Err _ =>
      value_of (steam.getGridPath X (Some rc) w) = Err steam.NoUsersFound
  end.
Proof.
  intros users. unfold steam.getGridPath. rewrite bind_value. fold users.
  destruct (value_of users) as [[| user0 rest] | e]; [reflexivity | | reflexivity].
  cbv zeta. by rewrite bind_value.
Qed.

(** The remote resolvers on a client without SFTP handle: the directories
    and the users are not resolved ("not connected"), [RemoteHasShortcuts]
    is false, [getGridPath] reports NoUsersFound, and no call is made. *)
Theorem remote_resolvers_not_connected (rc : remote.Client) (user : string)
    (w : W) :
  remote.sftpClient rc = None ->
  steam.GetRemoteBaseDir X rc w = (Err remote.NotConnected, w, []) /\
  steam.GetRemoteUserDir X rc w = (Err remote.NotConnected, w, []) /\
  steam.GetRemoteUsers X rc w = (Err remote.NotConnected, w, []) /\
  steam_paths.GetRemoteShortcutsPath X rc user w
    = (Err remote.NotConnected, w, []) /\
  steam_paths.RemoteHasShortcuts X rc user w = (false, w, []) /\
  steam.getGridPath X (Some rc) w = (Err steam.NoUsersFound, w, []).
Proof.
  intros Hs.
  assert (Hbase : steam.GetRemoteBaseDir X rc w
                  = (Err remote.NotConnected, w, [])).
  { unfold steam.GetRemoteBaseDir, remote.GetHomeDir. by rewrite Hs. }
  assert (Hdir : steam.GetRemoteUserDir X rc w
                 = (Err remote.NotConnected, w, [])).
  { unfold steam.GetRemoteUserDir, bind. by rewrite Hbase. }
  assert (Husers : steam.GetRemoteUsers X rc w
                   = (Err remote.NotConnected, w, [])).
  { unfold steam.GetRemoteUsers, bind. by rewrite Hdir. }
  assert (Hpath : steam_paths.GetRemoteShortcutsPath X rc user w
                  = (Err remote.NotConnected, w, [])).
  { unfold steam_paths.GetRemoteShortcutsPath, bind. by rewrite Hdir. }
  repeat split; try assumption.
  - unfold steam_paths.RemoteHasShortcuts, bind. by rewrite Hpath.
  - unfold steam.getGridPath, bind. by rewrite Husers.
Qed.

(** Lines 75-81 of the remote operations file.  [RemoteHasShortcuts] is
    true exactly when the userdata directory resolves and the stat of
    [<userdata>/<user>/config/shortcuts.vdf] succeeds. *)
Theorem RemoteHasShortcuts_iff (rc : remote.Client) (user : string) (w : W) :
  value_of (steam_paths.RemoteHasShortcuts X rc user w) = true <->
  exists userDir info,
    value_of (steam.GetRemoteUserDir X rc w) = Ok userDir /\
    value_of (remote.Stat X rc
                (path_Join W X [userDir; user; "config"; "shortcuts.vdf"])
                (world_of (steam.GetRemoteUserDir X rc w))) = Ok info.
Proof.
  unfold steam_paths.RemoteHasShortcuts, steam_paths.GetRemoteShortcutsPath.
  rewrite !bind_value, !bind_world.
  destruct (value_of (steam.GetRemoteUserDir X rc w)) as [userDir | e] eqn:Hd.
  - cbn [ret value_of world_of fst snd]. unfold remote.FileExists.
    rewrite bind_value. split.
    + intros Hv.
      destruct (value_of (remote.Stat X rc _ _)) as [info | e] eqn:Hs;
        [| discriminate Hv].
      exists userDir, info. split; [reflexivity | exact Hs].
    + intros (d & info & [= <-] & Hs). unfold value_of, world_of in *.
      by rewrite Hs.
  - cbn [ret value_of world_of fst snd]. split; [discriminate |].
    intros (d & info & Hd' & _). discriminate Hd'.
Qed.

End SteamHelpers.

Lemma runCommand_remote_command_line_witness :
  trace_of (steam.runCommand (scripted all_up) (Some connected_deck)
              "python3" ["-c"; "import aiohttp"] [])
  = [EvNewSession 1%nat;
     EvSessionRun 7%nat "python3 -c import aiohttp 2>&1";
     EvSessionClose 7%nat].
Proof.
  apply (runCommand_remote_command_line (scripted all_up) connected_deck 1%nat
           "python3" ["-c"; "import aiohttp"] [] [] 7%nat).
  - reflexivity.
  - vm_compute. reflexivity.
Defined.

Lemma remote_resolvers_not_connected_witness :
  steam.GetRemoteUsers (scripted all_up) fresh_deck []
    = (Err remote.NotConnected, [], []) /\
  steam_paths.RemoteHasShortcuts (scripted all_up) fresh_deck "1001" []
    = (false, [], []).
Proof.
  destruct (remote_resolvers_not_connected (scripted all_up) fresh_deck
              "1001" []) as (_ & _ & Husers & _ & Hhas & _).
  - reflexivity.
  - split; [exact Husers | exact Hhas].
Defined.

Example getGridPath_remote_example :
  value_of (steam.getGridPath (scripted all_up) (Some connected_deck) [])
  = Ok "/home/deck/.steam/steam/userdata/1001/config/grid".
Proof. vm_compute. reflexivity. Qed.

(* ===================================================================== *)
(** * pkg/steam: the two ways of applying an image *)
(* ===================================================================== *)

Lemma getExtensionFromResponse_known {W : Type} (X : Extern W)
    (resp : http_Response) (url : string) :
  In (steam.getExtensionFromResponse X resp url) known_extensions.
Proof.
  unfold steam.getExtensionFromResponse, known_extensions.
  repeat match goal with
         | |- context [if ?b then _ else _] => destruct b
         end; simpl; tauto.
Qed.

Section Artwork.
Context {W : Type} (X : Extern W) (script : string -> Z -> Z -> string).

(** Lines 296-303 of artwork.go.  A response whose status is not 200 makes
    [uploadArtworkToGrid] fail with the status in the message; the body is
    closed but not read, and nothing is written, locally or remotely. *)
Theorem uploadArtworkToGrid_rejects_status
    (RemoteClient : option remote.Client) (url gridPath baseName : string)
    (w w1 : W) (resp : http_Response) :
  http_Get W X url w = (Ok resp, w1) ->
  StatusCode resp <> 200 ->
  value_of (steam.uploadArtworkToGrid X RemoteClient url gridPath baseName w)
    = Some (Errorf ("failed to download artwork: HTTP "
                    ++ pretty (StatusCode resp)) None) /\
  trace_of (steam.uploadArtworkToGrid X RemoteClient url gridPath baseName w)
    = [EvHttpGet url; EvBody (Body resp) "Close"].
Proof.
  intros Hget Hstatus. unfold steam.uploadArtworkToGrid, bind, call.
  rewrite Hget. unfold steam.StatusOK.
  destruct (Z.eqb_spec (StatusCode resp) 200) as [E | _]; [done |].
  cbn. destruct (body_Close W X (Body resp) w1) as [e w2]. split; reflexivity.
Qed.

(** Lines 296-316 of artwork.go.  In local mode, a 200 response whose body
    can be read is written once, to [<grid>/<base><ext>] with [ext] one of
    the known image extensions; the call returns what the write returns,
    and the body is closed after the write. *)
Theorem uploadArtworkToGrid_saves_in_grid (url gridPath baseName : string)
    (w w1 w2 : W) (resp : http_Response) (data : bytes) :
  http_Get W X url w = (Ok resp, w1) ->
  StatusCode resp = 200 ->
  body_ReadAll W X (Body resp) w1 = (Ok data, w2) ->
  exists ext,
    In ext known_extensions /\
    let destPath := path_Join W X [gridPath; baseName ++ ext] in
    value_of (steam.uploadArtworkToGrid X None url gridPath baseName w)
      = fst (os_WriteFile W X destPath data 420 w2) /\
    trace_of (steam.uploadArtworkToGrid X None url gridPath baseName w)
      = [EvHttpGet url; EvBody (Body resp) "ReadAll";
         EvOs "WriteFile" destPath; EvBody (Body resp) "Close"].
Proof.
  intros Hget Hstatus Hread.
  exists (steam.getExtensionFromResponse X resp url).
  split; [apply getExtensionFromResponse_known |].
  cbv zeta. unfold steam.uploadArtworkToGrid, steam.writeFile, bind, call.
  rewrite Hget, Hstatus. cbn [steam.StatusOK Z.eqb Pos.eqb negb].
  rewrite Hread.
  destruct (os_WriteFile W X _ data 420 w2) as [e w3].
  destruct (body_Close W X (Body resp) w3) as [e' w4]. split; reflexivity.
Qed.

(** Lines 199-209 of artwork.go.  In local mode, whenever
    [SetArtworkViaCEF] runs the Python script it then removes the script
    and the temporary image, in this order, before closing the body; when
    it does not get to run the script it removes nothing, so a temporary
    image already written stays behind. *)
Theorem SetArtworkViaCEF_cleans_up (appID : Z) (imageURL : string)
    (assetType : Z) (w : W) :
  let run := EvExec "python3" ["/tmp/steam_set_artwork.py"] in
  let t := trace_of (steam.SetArtworkViaCEF X script None appID imageURL
                       assetType w) in
  (In run t ->
   exists t0 body,
     t = (t0 ++ [run; EvOs "Remove" "/tmp/steam_set_artwork.py";
                 EvOs "Remove" "/tmp/steam_artwork_temp.bin";
                 EvBody body "Close"])%list) /\
  (~ In run t ->
   ~ In (EvOs "Remove" "/tmp/steam_artwork_temp.bin") t /\
   ~ In (EvOs "Remove" "/tmp/steam_set_artwork.py") t).
Proof.
  intros run t. subst t.
  unfold steam.SetArtworkViaCEF, steam.writeFile, steam.runCommand,
    steam.removeFile, bind, call, ret, trace_of.
  repeat (cbn beta iota zeta;
          match goal with
          | |- context [match ?x with _ => _ end] =>
              lazymatch x with
              | context [match _ with _ => _ end] => fail
              | _ => destruct x
              end
          end);
    cbn [snd app In]; subst run; split; intros H;
    try (exfalso; intuition discriminate);
    try (split; intros H'; intuition discriminate).
  all: try (exfalso; apply H; tauto).
  all: eexists [_; _; _; _], _; reflexivity.
Qed.

End Artwork.

(** A source that answers one URL with a 404. *)
Lemma uploadArtworkToGrid_rejects_status_witness :
  steam.uploadArtworkToGrid (scripted all_up) None
    "https://img/gone.missing" "/grid" "7p" []
  = (Some (Errorf "failed to download artwork: HTTP 404" None), [],
     [EvHttpGet "https://img/gone.missing"; EvBody 3%nat "Close"]).
Proof.
  destruct (uploadArtworkToGrid_rejects_status (scripted all_up) None
              "https://img/gone.missing" "/grid" "7p" [] []
              (mkResponse 404 ∅ 3%nat)) as [Hv Ht].
  - vm_compute. reflexivity.
  - vm_compute. discriminate.
  - vm_compute. reflexivity.
Defined.

Lemma uploadArtworkToGrid_saves_in_grid_witness :
  exists ext,
    In ext known_extensions /\
    trace_of (steam.uploadArtworkToGrid (scripted all_up) None
                "https://img/a.png" "/grid" "7p" [])
    = [EvHttpGet "https://img/a.png"; EvBody 3%nat "ReadAll";
       EvOs "WriteFile" (join_slash ["/grid"; "7p" ++ ext]);
       EvBody 3%nat "Close"].
Proof.
  destruct (uploadArtworkToGrid_saves_in_grid (scripted all_up)
              "https://img/a.png" "/grid" "7p" [] [] []
              (mkResponse 200 {[ "Content-Type" := ["image/webp"] ]} 3%nat)
              "data") as (ext & Hext & _ & Ht).
  - vm_compute. reflexivity.
  - reflexivity.
  - vm_compute. reflexivity.
  - exists ext. split; [exact Hext | exact Ht].
Defined.

Lemma SetArtworkViaCEF_cleans_up_witness :
  exists t0 body,
    trace_of (steam.SetArtworkViaCEF (scripted all_up) no_script None 7
                "https://img/a.png" 0 [])
    = (t0 ++ [EvExec "python3" ["/tmp/steam_set_artwork.py"];
              EvOs "Remove" "/tmp/steam_set_artwork.py";
              EvOs "Remove" "/tmp/steam_artwork_temp.bin";
              EvBody body "Close"])%list.
Proof.
  destruct (SetArtworkViaCEF_cleans_up (scripted all_up) no_script 7
              "https://img/a.png" 0 []) as [Hrun _].
  apply Hrun. vm_compute. tauto.
Defined.

(* ===================================================================== *)
(** * pkg/steam: what [SetArtwork] downloads and runs *)
(* ===================================================================== *)

(** Case analysis on every answer of the world a computation asks for. *)
Ltac world_cases :=
  repeat (cbn beta iota zeta;
          match goal with
          | |- context [match ?x with _ => _ end] =>
              lazymatch x with
              | context [match _ with _ => _ end] => fail
              | _ => destruct x
              end
          end).

Lemma downloads_app (t1 t2 : list Event) :
  downloads (t1 ++ t2) = (downloads t1 ++ downloads t2)%list.
Proof. unfold downloads. apply omap_app. Qed.

Lemma downloads_bind {W A B : Type} (m : M W A) (k : A -> M W B) (w : W) :
  downloads (trace_of (bind m k w))
  = (downloads (trace_of (m w))
     ++ downloads (trace_of (k (value_of (m w)) (world_of (m w)))))%list.
Proof. by rewrite bind_trace, downloads_app. Qed.

Section Downloads.
Context {W : Type} (X : Extern W) (script : string -> Z -> Z -> string).
Context (RemoteClient : option remote.Client) (appID : Z).

Lemma RunCommand_no_download (rc : remote.Client) (command : string) (w : W) :
  downloads (trace_of (remote.RunCommand X rc command w)) = [].
Proof.
  unfold remote.RunCommand, bind, call, ret, trace_of.
  world_cases; reflexivity.
Qed.

Lemma WriteFile_no_download (rc : remote.Client) (p : string) (data : bytes)
    (perm : Z) (w : W) :
  downloads (trace_of (remote.WriteFile X rc p data perm w)) = [].
Proof.
  unfold remote.WriteFile, bind, call, ret, trace_of.
  world_cases; reflexivity.
Qed.

Lemma mkdirAll_no_download (dir : string) (w : W) :
  downloads (trace_of (steam.mkdirAll X RemoteClient dir w)) = [].
Proof.
  unfold steam.mkdirAll. destruct RemoteClient as [rc |].
  - rewrite downloads_bind, RunCommand_no_download. reflexivity.
  - by rewrite call_trace.
Qed.

Lemma writeFile_no_download (p : string) (data : bytes) (perm : Z) (w : W) :
  downloads (trace_of (steam.writeFile X RemoteClient p data perm w)) = [].
Proof.
  unfold steam.writeFile. destruct RemoteClient as [rc |].
  - apply WriteFile_no_download.
  - by rewrite call_trace.
Qed.

Lemma removeFile_no_download (p : string) (w : W) :
  downloads (trace_of (steam.removeFile X RemoteClient p w)) = [].
Proof.
  unfold steam.removeFile. destruct RemoteClient as [rc |].
  - rewrite downloads_bind, RunCommand_no_download. reflexivity.
  - by rewrite call_trace.
Qed.

Lemma runCommand_no_download (name : string) (args : list string) (w : W) :
  downloads (trace_of (steam.runCommand X RemoteClient name args w)) = [].
Proof.
  unfold steam.runCommand. destruct RemoteClient as [rc |].
  - apply RunCommand_no_download.
  - by rewrite call_trace.
Qed.

Lemma checkAiohttpAvailable_no_download (w : W) :
  downloads (trace_of (steam.checkAiohttpAvailable X RemoteClient w)) = [].
Proof.
  unfold steam.checkAiohttpAvailable.
  rewrite downloads_bind, runCommand_no_download.
  destruct (value_of _) as [output [e |]]; reflexivity.
Qed.

Lemma GetRemoteUserDir_no_download (rc : remote.Client) (w : W) :
  downloads (trace_of (steam.GetRemoteUserDir X rc w)) = [].
Proof.
  unfold steam.GetRemoteUserDir, steam.GetRemoteBaseDir, remote.GetHomeDir,
    bind, call, ret, trace_of.
  world_cases; reflexivity.
Qed.

Lemma GetRemoteUsers_no_download (rc : remote.Client) (w : W) :
  downloads (trace_of (steam.GetRemoteUsers X rc w)) = [].
Proof.
  unfold steam.GetRemoteUsers.
  rewrite downloads_bind, GetRemoteUserDir_no_download.
  destruct (value_of _) as [userDir | e]; [| reflexivity].
  rewrite downloads_bind. unfold remote.ReadDir.
  destruct (remote.sftpClient rc) as [s |].
  - rewrite call_trace. cbn [downloads omap app].
    destruct (value_of _); reflexivity.
  - reflexivity.
Qed.

Lemma getGridPath_no_download (w : W) :
  downloads (trace_of (steam.getGridPath X RemoteClient w)) = [].
Proof.
  unfold steam.getGridPath. destruct RemoteClient as [rc |].
  - rewrite downloads_bind, GetRemoteUsers_no_download.
    destruct (value_of _) as [[| user0 rest] | e]; try reflexivity.
    by rewrite downloads_bind, GetRemoteUserDir_no_download.
  - rewrite downloads_bind, call_trace.
    destruct (value_of _) as [[| user0 rest] | e]; try reflexivity.
    rewrite downloads_bind, call_trace.
    destruct (value_of _); reflexivity.
Qed.

(** Each way of applying an image downloads its URL once and nothing
    else. *)
Lemma uploadArtworkToGrid_downloads_once (url gridPath baseName : string)
    (w : W) :
  downloads (trace_of (steam.uploadArtworkToGrid X RemoteClient url gridPath
                         baseName w)) = [url].
Proof.
  unfold steam.uploadArtworkToGrid.
  rewrite downloads_bind, call_trace.
  destruct (value_of _) as [resp | e]; [| reflexivity].
  rewrite downloads_bind.
  assert (Hinner : forall w',
    downloads (trace_of
      ((if negb (StatusCode resp =? steam.StatusOK)
        then ret (Some (Errorf ("failed to download artwork: HTTP "
                                ++ pretty (StatusCode resp)) None))
        else bind (call (EvBody (Body resp) "ReadAll")
                        (body_ReadAll W X (Body resp)))
               (fun d =>
                  match d with
                  | Err err => ret (Some (wrap "failed to read artwork data: " err))
                  | Ok data =>
                      steam.writeFile X RemoteClient
                        (path_Join W X
                           [gridPath;
                            baseName ++ steam.getExtensionFromResponse X resp url])
                        data 420
                  end)) w')) = []).
  { intros w'. destruct (negb _); [reflexivity |].
    rewrite downloads_bind, call_trace.
    destruct (value_of _) as [data | e]; [| reflexivity].
    by rewrite writeFile_no_download. }
  rewrite Hinner. rewrite downloads_bind, call_trace. reflexivity.
Qed.

Lemma SetArtworkViaCEF_downloads_once (url : string) (assetType : Z) (w : W) :
  downloads (trace_of (steam.SetArtworkViaCEF X script RemoteClient appID url
                         assetType w)) = [url].
Proof.
  unfold steam.SetArtworkViaCEF.
  rewrite downloads_bind, call_trace.
  destruct (value_of _) as [resp | e]; [| reflexivity].
  rewrite downloads_bind.
  match goal with
  | |- (_ ++ downloads (trace_of (?inner ?w')) ++ _)%list = _ =>
      assert (Hinner : downloads (trace_of (inner w')) = [])
  end.
  { destruct (negb _); [reflexivity |].
    rewrite downloads_bind, call_trace.
    destruct (value_of _) as [data | e]; [| reflexivity].
    rewrite downloads_bind, writeFile_no_download.
    destruct (value_of _) as [e1 |]; [reflexivity |].
    rewrite downloads_bind, writeFile_no_download.
    destruct (value_of _) as [e2 |]; [reflexivity |].
    rewrite downloads_bind, runCommand_no_download.
    destruct (value_of _) as [output err].
    rewrite downloads_bind, removeFile_no_download.
    rewrite downloads_bind, removeFile_no_download.
    destruct err as [err' |]; [reflexivity |].
    destruct (strings_Contains output "ERROR"); reflexivity. }
  rewrite Hinner. rewrite downloads_bind, call_trace. reflexivity.
Qed.

Lemma applyOne_downloads (canUseSteamAPI : bool)
    (gridPath url baseName : string) (assetType : Z) (w : W) (u : string) :
  In u (downloads (trace_of (steam.applyOne X script RemoteClient appID
                               canUseSteamAPI gridPath url baseName
                               assetType w))) ->
  u = url /\ url <> "".
Proof.
  unfold steam.applyOne.
  destruct (String.eqb_spec url "") as [E | Hne]; [intros [] |].
  intros Hin. split; [| exact Hne].
  rewrite downloads_bind in Hin. apply in_app_or in Hin as [Hin | Hin].
  - destruct canUseSteamAPI; [| destruct Hin].
    rewrite downloads_bind, SetArtworkViaCEF_downloads_once in Hin.
    apply in_app_or in Hin as [[<- | []] | Hin]; [reflexivity |].
    destruct (value_of _) in Hin; [| destruct Hin].
    rewrite downloads_bind in Hin. destruct Hin.
  - destruct (negb _) in Hin; [| destruct Hin].
    rewrite downloads_bind, mkdirAll_no_download in Hin.
    rewrite downloads_bind, uploadArtworkToGrid_downloads_once in Hin.
    cbn [app] in Hin. destruct Hin as [<- | Hin]; [reflexivity |].
    destruct (value_of _) in Hin; destruct Hin.
Qed.

(** Lines 38-96 of artwork.go.  [SetArtwork] downloads nothing but the
    non-empty URLs of the configuration it is given: the capability
    check, the grid path resolution and the file operations fetch
    nothing, in local and in remote mode. *)
Theorem SetArtwork_downloads_only_slots (a : steam.ArtworkConfig) (w : W)
    (u : string) :
  In u (downloads (trace_of (steam.SetArtwork X script RemoteClient appID
                               (Some a) w))) ->
  In u (slots a) /\ u <> "".
Proof.
  unfold steam.SetArtwork. intros Hin.
  rewrite downloads_bind, checkAiohttpAvailable_no_download in Hin.
  rewrite downloads_bind, getGridPath_no_download in Hin. cbn [app] in Hin.
  destruct (value_of (steam.getGridPath _ _ _)) as [gridPath | e];
    [| destruct Hin].
  rewrite downloads_bind in Hin. apply in_app_or in Hin as [Hin | Hin].
  { destruct (negb _) in Hin; [| destruct Hin].
    rewrite downloads_bind in Hin. destruct Hin. }
  unfold slots.
  rewrite downloads_bind in Hin. apply in_app_or in Hin as [Hin | Hin].
  { apply applyOne_downloads in Hin as [-> Hne]. cbn. tauto. }
  rewrite downloads_bind in Hin. apply in_app_or in Hin as [Hin | Hin].
  { apply applyOne_downloads in Hin as [-> Hne]. cbn. tauto. }
  rewrite downloads_bind in Hin. apply in_app_or in Hin as [Hin | Hin].
  { apply applyOne_downloads in Hin as [-> Hne]. cbn. tauto. }
  rewrite downloads_bind in Hin. apply in_app_or in Hin as [Hin | Hin].
  { apply applyOne_downloads in Hin as [-> Hne]. cbn. tauto. }
  rewrite downloads_bind in Hin. apply in_app_or in Hin as [Hin | Hin];
    [| destruct Hin].
  destruct (String.eqb_spec (steam.IconImage a) "") as [E | Hne];
    [destruct Hin |].
  cbn [negb] in Hin.
  rewrite downloads_bind, mkdirAll_no_download in Hin.
  rewrite downloads_bind, uploadArtworkToGrid_downloads_once in Hin.
  cbn [app] in Hin. destruct Hin as [<- | Hin]; [cbn; tauto |].
  destruct (value_of _) in Hin; destruct Hin.
Qed.

End Downloads.

Lemma SetArtwork_downloads_only_slots_witness :
  In "http://img/h.png" (slots four_of_five) /\ "http://img/h.png" <> "".
Proof.
  apply (SetArtwork_downloads_only_slots (scripted local_no_network) no_script
           None 7 four_of_five []).
  vm_compute. tauto.
Defined.

(** Lines 87-93 of artwork.go.  In local mode a configuration holding an
    icon only is applied through the filesystem: the Python script of the
    CEF method is never run, whether the capability check succeeds or
    not. *)
Theorem SetArtwork_icon_is_filesystem_only {W : Type} (X : Extern W)
    (script : string -> Z -> Z -> string) (appID : Z) (icon : string) (w : W) :
  ~ In (EvExec "python3" ["/tmp/steam_set_artwork.py"])
       (trace_of (steam.SetArtwork X script None appID
                    (Some (steam.mkArtworkConfig "" "" "" "" icon)) w)).
Proof.
  unfold steam.SetArtwork, steam.applyOne, steam.checkAiohttpAvailable,
    steam.runCommand, steam.getGridPath, steam.mkdirAll,
    steam.uploadArtworkToGrid, steam.writeFile, bind, call, ret, Println,
    trace_of.
  cbn [steam.GridPortrait steam.GridLandscape steam.HeroImage steam.LogoImage
       steam.IconImage String.eqb].
  world_cases; cbn [snd app In]; intuition discriminate.
Qed.

(* ===================================================================== *)
(** * pkg/shortcut: saving *)
(* ===================================================================== *)

Section Persistence.
Context {W : Type} (X : Extern W) (C : Codecs) (u : float64 -> Z).

(** First listing, lines 41-68.  When the three conversions succeed,
    [Save] writes the destination exactly once, the bytes [vdf.WriteVdf]
    gave for the coerced map, and returns the error of that write under
    its own message, or nil; when a conversion fails it returns that
    error under the message of the stage and makes no call. *)
Theorem Save_writes_after_encoding (shortcuts : Shortcuts) (file : string)
    (w : W) :
  let run := shortcut_io.Save X C u shortcuts file w in
  (forall rawJSON vdfMap rawVdf,
     json_Marshal_Shortcuts C shortcuts = Ok rawJSON ->
     json_Unmarshal_Map C rawJSON = Ok vdfMap ->
     vdf_WriteVdf C (shortcut.ensureVDFMap u vdfMap) = Ok rawVdf ->
     trace_of run = [EvOs "WriteFile" file] /\
     world_of run = snd (os_WriteFile W X file rawVdf 438 w) /\
     value_of run
     = Errorf_v "unable to write VDF file: "
       <$> fst (os_WriteFile W X file rawVdf 438 w)) /\
  (forall e,
     json_Marshal_Shortcuts C shortcuts = Err e ->
     run = (Some (Errorf_v "unable to marshal to JSON: " e), w, [])) /\
  (forall rawJSON e,
     json_Marshal_Shortcuts C shortcuts = Ok rawJSON ->
     json_Unmarshal_Map C rawJSON = Err e ->
     run = (Some (Errorf_v "unable to unmarshal to VDF Map: " e), w, [])) /\
  (forall rawJSON vdfMap e,
     json_Marshal_Shortcuts C shortcuts = Ok rawJSON ->
     json_Unmarshal_Map C rawJSON = Ok vdfMap ->
     vdf_WriteVdf C (shortcut.ensureVDFMap u vdfMap) = Err e ->
     run = (Some (Errorf_v "unable to convert VDF to bytes: " e), w, [])).
Proof.
  intros run. subst run. unfold shortcut_io.Save.
  split; [| split; [| split]].
  - intros rawJSON vdfMap rawVdf Hm Hu Hw. rewrite Hm, Hu, Hw.
    unfold bind, call, trace_of, world_of, value_of, steam_paths.perm_0666.
    destruct (os_WriteFile W X file rawVdf 438 w) as [[e |] w1];
      repeat split.
  - intros e Hm. by rewrite Hm.
  - intros rawJSON e Hm Hu. by rewrite Hm, Hu.
  - intros rawJSON vdfMap e Hm Hu Hw. by rewrite Hm, Hu, Hw.
Qed.

(** Remote-aware listing, lines 156-187.  Once the conversions have
    succeeded, [Save] writes through the registered remote client and never
    to the local file system: its calls are those of the client's
    [WriteFile], whose error it returns under its own message; with the
    client not connected that is "Unable to write VDF file: not connected"
    and no call is made.  With no client registered it writes the local
    file once. *)
Theorem Save_remote_routes_write (shortcuts : Shortcuts) (file : string)
    (w : W) (rawJSON : bytes) (vdfMap newMap : gmap string Value)
    (rawVdf : bytes) :
  json_Marshal_Shortcuts C shortcuts = Ok rawJSON ->
  json_Unmarshal_Map C rawJSON = Ok vdfMap ->
  shortcut_remote.ensureVDFMap u vdfMap = Some newMap ->
  vdf_WriteVdf C newMap = Ok rawVdf ->
  (forall rc,
     let write := remote.WriteFile X rc file rawVdf 438 w in
     let run := shortcut_remote_io.Save X C u (Some rc) shortcuts file w in
     trace_of run = trace_of write /\
     world_of run = world_of write /\
     value_of run
     = Some (Errorf_v "Unable to write VDF file: " <$> value_of write) /\
     (remote.sftpClient rc = None ->
      run = (Some (Some (Errorf "Unable to write VDF file: not connected"
                           None)), w, []))) /\
  (let run := shortcut_remote_io.Save X C u None shortcuts file w in
   trace_of run = [EvOs "WriteFile" file] /\
   value_of run
   = Some (Errorf_v "Unable to write VDF file: "
           <$> fst (os_WriteFile W X file rawVdf 438 w))).
Proof.
  intros Hm Hu He Hw. unfold shortcut_remote_io.Save.
  rewrite Hm, Hu, He, Hw. unfold steam_paths.perm_0666. split.
  - intros rc. cbv zeta.
    split; [| split; [| split]].
    + unfold bind, trace_of.
      destruct (remote.WriteFile X rc file rawVdf 438 w) as [[[e |] w1] t];
        cbn; by rewrite app_nil_r.
    + unfold bind, world_of.
      by destruct (remote.WriteFile X rc file rawVdf 438 w) as [[[e |] w1] t].
    + unfold bind, value_of.
      by destruct (remote.WriteFile X rc file rawVdf 438 w) as [[[e |] w1] t].
    + intros Hs. unfold remote.WriteFile. rewrite Hs. reflexivity.
  - cbv zeta. unfold bind, call, trace_of, value_of.
    destruct (os_WriteFile W X file rawVdf 438 w) as [[e |] w1]; split;
      reflexivity.
Qed.

End Persistence.

Lemma Save_writes_after_encoding_witness :
  trace_of (shortcut_io.Save (scripted all_up) toy_codecs (fun _ => 0)
              (mkShortcuts ∅) "/home/user/shortcuts.vdf" [])
  = [EvOs "WriteFile" "/home/user/shortcuts.vdf"].
Proof.
  destruct (Save_writes_after_encoding (scripted all_up) toy_codecs
              (fun _ => 0) (mkShortcuts ∅) "/home/user/shortcuts.vdf" [])
    as [Hok _].
  apply (Hok "{}" decoded_pivot "vdf-bytes"); reflexivity.
Defined.

Lemma Save_remote_routes_write_witness :
  shortcut_remote_io.Save (scripted all_up) toy_codecs (fun _ => 0)
    (Some fresh_deck) (mkShortcuts ∅) "/home/deck/shortcuts.vdf" []
  = (Some (Some (Errorf "Unable to write VDF file: not connected" None)),
     [], []) /\
  trace_of (shortcut_remote_io.Save (with_remote_files all_up) toy_codecs
              (fun _ => 0) (Some connected_deck) (mkShortcuts ∅)
              "/home/deck/shortcuts.vdf" [])
  = [EvSftp 2%nat "MkdirAll" "/home/deck/shortcuts.vdf";
     EvSftp 2%nat "Create" "/home/deck/shortcuts.vdf";
     EvFile 6%nat "Write"; EvSftp 2%nat "Chmod" "/home/deck/shortcuts.vdf";
     EvFile 6%nat "Close"].
Proof.
  split.
  - edestruct (Save_remote_routes_write (scripted all_up) toy_codecs
                 (fun _ => 0) (mkShortcuts ∅) "/home/deck/shortcuts.vdf" []
                 "{}" decoded_pivot) as [Hremote _].
    + reflexivity.
    + reflexivity.
    + vm_compute. reflexivity.
    + reflexivity.
    + destruct (Hremote fresh_deck) as (_ & _ & _ & Hnc).
      apply Hnc. reflexivity.
  - edestruct (Save_remote_routes_write (with_remote_files all_up) toy_codecs
                 (fun _ => 0) (mkShortcuts ∅) "/home/deck/shortcuts.vdf" []
                 "{}" decoded_pivot) as [Hremote _].
    + reflexivity.
    + reflexivity.
    + vm_compute. reflexivity.
    + reflexivity.
    + destruct (Hremote connected_deck) as (Ht & _).
      etransitivity; [exact Ht |]. vm_compute. reflexivity.
Defined.

(* ===================================================================== *)
(** * pkg/steamgriddb: artwork by id and by name *)
(* ===================================================================== *)

Lemma FetchArtworkConfig_returns {W : Type} (X : Extern W) (gameID : string)
    (w : W) :
  exists cfg t,
    value_of (steamgriddb.FetchArtworkConfig X gameID w) = (Some cfg, None) /\
    trace_of (steamgriddb.FetchArtworkConfig X gameID w)
    = EvFetch "GetGrids/vertical" gameID :: t.
Proof.
  unfold steamgriddb.FetchArtworkConfig, bind, call, ret, value_of, trace_of.
  destruct (sgdb_GetGrids W X gameID FilterGridVertical w) as [a1 w1].
  destruct (sgdb_GetGrids W X gameID FilterGridHorizontal w1) as [a2 w2].
  destruct (sgdb_GetHeroes W X gameID w2) as [a3 w3].
  destruct (sgdb_GetLogos W X gameID w3) as [a4 w4].
  destruct (sgdb_GetIcons W X gameID w4) as [a5 w5].
  eexists _, _. split; reflexivity.
Qed.

Lemma SetArtwork_value_cases {W : Type} (X : Extern W)
    (script : string -> Z -> Z -> string)
    (RemoteClient : option remote.Client) (appID : Z)
    (artwork : option steam.ArtworkConfig) (w : W) :
  value_of (steam.SetArtwork X script RemoteClient appID artwork w) = None \/
  exists e,
    value_of (steam.SetArtwork X script RemoteClient appID artwork w)
    = Some (wrap "failed to get grid path: " e).
Proof.
  unfold steam.SetArtwork. destruct artwork as [a |]; [| by left].
  rewrite bind_value, bind_value.
  destruct (value_of (steam.getGridPath _ _ _)) as [gridPath | e].
  - left. rewrite !bind_value. reflexivity.
  - right. exists e. reflexivity.
Qed.

Section ApplyArtwork.
Context {W : Type} (X : Extern W) (script : string -> Z -> Z -> string).
Context (RemoteClient : option remote.Client).
Context (sgdb_Search : string -> W -> result (list sgdb_Game) * W).

(** Lines 48-55 of steamgriddb/artwork.go.  [ApplyArtwork] starts with the
    five fetches and never fails because of them: it returns nil or the
    grid path error of [SetArtwork]. *)
Theorem ApplyArtwork_never_fails_on_fetch (gameID : string) (appID : Z)
    (w : W) :
  let run := steamgriddb_apply.ApplyArtwork X script RemoteClient gameID
               appID w in
  (value_of run = None \/
   exists e, value_of run = Some (wrap "failed to get grid path: " e)) /\
  exists t, trace_of run = EvFetch "GetGrids/vertical" gameID :: t.
Proof.
  intros run. subst run. unfold steamgriddb_apply.ApplyArtwork.
  destruct (FetchArtworkConfig_returns X gameID w) as (cfg & t & Hv & Ht).
  rewrite bind_value, bind_trace, Hv, Ht. cbn [fst snd]. split.
  - apply SetArtwork_value_cases.
  - eexists. reflexivity.
Qed.

(** Lines 59-74 of steamgriddb/artwork.go.  When the search fails or finds
    no game, [SearchAndApplyArtwork] returns an error (for no game, the
    name quoted in the message) after the search alone: nothing is fetched
    or applied.  Otherwise it goes on with the id of the first game found,
    in decimal, and with no other. *)
Theorem SearchAndApplyArtwork_uses_first_result (gameName : string)
    (appID : Z) (w : W) :
  let run := steamgriddb_apply.SearchAndApplyArtwork X script RemoteClient
               sgdb_Search gameName appID w in
  match sgdb_Search gameName w with
  | (Err e, w1) =>
      run = (Some (wrap "failed to search for game: " e), w1,
             [EvFetch "Search" gameName])
  | (Ok [], w1) =>
      run = (Some (Errorf ("no games found for '" ++ gameName ++ "'") None),
             w1, [EvFetch "Search" gameName])
  | (Ok (first :: _), w1) =>
      run = (let '(v, w2, t) :=
               steamgriddb_apply.ApplyArtwork X script RemoteClient
                 (pretty (game_ID first)) appID w1 in
             (v, w2, EvFetch "Search" gameName :: t)) /\
      exists t,
        trace_of run
        = EvFetch "Search" gameName
          :: EvFetch "GetGrids/vertical" (pretty (game_ID first)) :: t
  end.
Proof.
  intros run. subst run.
  unfold steamgriddb_apply.SearchAndApplyArtwork, bind, call.
  destruct (sgdb_Search gameName w) as [[[| first rest] | e] w1];
    [reflexivity | | reflexivity].
  assert (Hhead : exists t,
            trace_of (steamgriddb_apply.ApplyArtwork X script RemoteClient
                        (pretty (game_ID first)) appID w1)
            = EvFetch "GetGrids/vertical" (pretty (game_ID first)) :: t).
  { unfold steamgriddb_apply.ApplyArtwork.
    destruct (FetchArtworkConfig_returns X (pretty (game_ID first)) w1)
      as (cfg & t & _ & Ht).
    rewrite bind_trace, Ht. eexists. reflexivity. }
  destruct Hhead as [t Ht].
  destruct (steamgriddb_apply.ApplyArtwork X script RemoteClient
              (pretty (game_ID first)) appID w1) as [[v w2] t'] eqn:Hrun.
  split; [reflexivity |].
  exists t. unfold trace_of in *. cbn [snd] in *. by rewrite Ht.
Qed.

End ApplyArtwork.

Example SearchAndApplyArtwork_examples :
  steamgriddb_apply.SearchAndApplyArtwork (scripted all_up) no_script None
    search_none "Doom" 7 []
  = (Some (Errorf "no games found for 'Doom'" None), [],
     [EvFetch "Search" "Doom"]) /\
  List.filter (fun ev => match ev with EvFetch _ _ => true | _ => false end)
    (trace_of (steamgriddb_apply.SearchAndApplyArtwork (scripted all_up)
                 no_script None search_two "Doom" 7 []))
  = [EvFetch "Search" "Doom"; EvFetch "GetGrids/vertical" "42";
     EvFetch "GetGrids/horizontal" "42"; EvFetch "GetHeroes" "42";
     EvFetch "GetLogos" "42"; EvFetch "GetIcons" "42"].
Proof. vm_compute. split; reflexivity. Qed.

(* ===================================================================== *)
(** * cmd: removing a Chimera shortcut *)
(* ===================================================================== *)

Section ChimeraRemove.
Context {ChimeraShortcut : Type} (Name : ChimeraShortcut -> string).

Lemma chimera_collect_filter (name : string) (l acc : list ChimeraShortcut) :
  cmd_chimera.collect Name name l acc
  = (acc ++ List.filter (fun sc => negb (String.eqb (Name sc) name)) l)%list.
Proof.
  revert acc. induction l as [| sc rest IH]; intros acc; cbn.
  - by rewrite app_nil_r.
  - destruct (String.eqb (Name sc) name); cbn.
    + apply IH.
    + rewrite IH. by rewrite <- app_assoc.
Qed.

(** Lines 106-113 of the remove command.  The list handed to
    [SaveShortcuts] is the loaded list without the shortcuts of that name,
    the others in their order: no shortcut of that name is left, a list
    without the name is saved as it is, and removing the name again
    changes nothing. *)
Theorem chimera_remove_filters (name : string) (l : list ChimeraShortcut) :
  let res := cmd_chimera.remove Name name l in
  res = List.filter (fun sc => negb (String.eqb (Name sc) name)) l /\
  Forall (fun sc => Name sc <> name) res /\
  (Forall (fun sc => Name sc <> name) l -> res = l) /\
  cmd_chimera.remove Name name res = res.
Proof.
  intros res.
  assert (Hres : res = List.filter
                         (fun sc => negb (String.eqb (Name sc) name)) l).
  { subst res. unfold cmd_chimera.remove. by rewrite chimera_collect_filter. }
  assert (Hall : Forall (fun sc => Name sc <> name) res).
  { rewrite Hres. apply List.Forall_forall. intros sc Hin.
    apply filter_In in Hin as [_ Hne].
    apply negb_true_iff in Hne. by apply String.eqb_neq. }
  assert (Hid : forall l', Forall (fun sc => Name sc <> name) l' ->
                  List.filter (fun sc => negb (String.eqb (Name sc) name)) l'
                  = l').
  { intros l' Hl'. induction Hl' as [| sc rest Hne _ IH]; [reflexivity |].
    cbn. apply String.eqb_neq in Hne. rewrite Hne. cbn. by rewrite IH. }
  split; [exact Hres |]. split; [exact Hall |]. split.
  - intros Hl. rewrite Hres. by apply Hid.
  - unfold cmd_chimera.remove. rewrite chimera_collect_filter. cbn.
    by apply Hid.
Qed.

End ChimeraRemove.

(* ===================================================================== *)
(** * pkg/remote: the explicit key *)
(* ===================================================================== *)

(** Lines 42-78 of remote.go.  When the configured key file parses, the
    default key files are not offered: [Connect] dials with that key alone,
    followed by the password if one is configured. *)
Theorem Connect_explicit_key_first {W : Type} (X : Extern W)
    (c : remote.Client) (w : W) (signer : ssh_Signer) :
  explicit_key X (remote.config c) w = Some signer ->
  exists t,
    trace_of (remote.Connect X c w)
    = EvDial (remote.addr_of c)
        (mkClientConfig (remote.User (remote.config c))
           (ssh_PublicKeys signer :: password_method (remote.config c))
           ssh_InsecureIgnoreHostKey) :: t.
Proof.
  intros Hkey. unfold remote.Connect. rewrite bind_trace.
  unfold observe at 1 2 3. cbn [trace_of value_of world_of fst snd app].
  rewrite authMethods_spec. unfold candidate_methods. rewrite Hkey.
  cbn [app length Nat.eqb]. rewrite bind_trace, call_trace.
  eexists. reflexivity.
Qed.

Lemma Connect_explicit_key_first_witness :
  exists t,
    trace_of (remote.Connect (scripted all_up) deck_with_key [])
    = EvDial "steamdeck:22"
        (mkClientConfig "deck" [ssh_PublicKeys 11%nat; ssh_Password "secret"]
           ssh_InsecureIgnoreHostKey) :: t.
Proof.
  apply (Connect_explicit_key_first (scripted all_up) deck_with_key []
           11%nat).
  vm_compute. reflexivity.
Defined.

(* ===================================================================== *)
(** * pkg/shortcut: numeric coercion in the two listings *)
(* ===================================================================== *)

(** The first listing does what C2 states. *)
Lemma ensureVDFMap_numeric_coercion_as_stated u :
  numeric_coercion_as_stated (fun m => Some (shortcut.ensureVDFMap u m)).
Proof.
  intros k v Hv. unfold shortcut.ensureVDFMap.
  destruct (float64_of_Z_exact v) as [_ Hf].
  rewrite !omap_singleton_Some with (y := VUint32 v).
  - repeat split.
  - cbn. by rewrite (uint32_of_float64_exact u _ v Hv Hf).
  - cbn. by rewrite (uint32_of_int_small v Hv).
  - cbn. by rewrite (uint32_of_int_small v Hv).
Qed.



